(** * TIDL API host library: Device / Kernel / Executor

    A shallow embedding of [tidl_api/src/ocl_device.cpp] and of the
    executor implementation, together with the properties of the
    design description that concern them.

    The OpenCL runtime, the TI DDR allocator and the file helpers are
    external: they are represented by an arbitrary platform, a state
    type with one transition function answering every call.  Host code
    is written in a state monad over the platform state and a log of
    the calls issued; a computation ends by returning, by throwing a
    C++ exception, by [exit], by a failed [assert], or in undefined
    behaviour (an out-of-bounds array access). *)

From Stdlib Require Import ZArith String Ascii List Bool Lia.
From Stdlib Require Import DecimalString DecimalZ DecimalPos.
From stdpp Require Import base list gmap strings.

Open Scope Z_scope.

(** ** Handles and OpenCL constants (CL/cl.h) *)

(** Every opaque OpenCL object (context, queue, program, kernel, event,
    buffer, device id) and every host pointer is a machine address;
    [nullptr] is 0. *)
Definition handle := N.
Definition nullptr : handle := 0%N.

Definition cl_int := Z.

Definition CL_SUCCESS : cl_int := 0.
Definition CL_DEVICE_TYPE_ACCELERATOR : Z := 8.
Definition CL_DEVICE_TYPE_CUSTOM : Z := 16.
Definition CL_QUEUE_OUT_OF_ORDER_EXEC_MODE_ENABLE : Z := 1.
Definition CL_QUEUE_PROFILING_ENABLE : Z := 2.
Definition CL_MEM_READ_WRITE : Z := 1.
Definition CL_MEM_USE_HOST_PTR : Z := 8.
Definition CL_MEM_COPY_HOST_PTR : Z := 32.
Definition CL_PLATFORM_VERSION : Z := 2305.
Definition CL_PLATFORM_NAME : Z := 2306.
Definition CL_DEVICE_MAX_COMPUTE_UNITS : Z := 4098.
Definition CL_DEVICE_MAX_CLOCK_FREQUENCY : Z := 4108.
Definition CL_DEVICE_PARTITION_EQUALLY : Z := 4230.
Definition CL_COMPLETE : Z := 0.

(** ** executor.h: device classes and unit ids *)

Inductive DeviceType := DSP | EVE.

Inductive DeviceId := ID0 | ID1 | ID2 | ID3.

#[global] Instance DeviceType_eq_dec : EqDecision DeviceType.
Proof. solve_decision. Defined.

#[global] Instance DeviceId_eq_dec : EqDecision DeviceId.
Proof. solve_decision. Defined.

(** [static_cast<int>(id)] *)
Definition DeviceId_to_nat (d : DeviceId) : nat :=
  match d with ID0 => 0 | ID1 => 1 | ID2 => 2 | ID3 => 3 end.

Definition DeviceId_of_nat (n : nat) : option DeviceId :=
  match n with
  | 0%nat => Some ID0 | 1%nat => Some ID1
  | 2%nat => Some ID2 | 3%nat => Some ID3
  | _ => None
  end.

#[global] Instance DeviceId_countable : Countable DeviceId.
Proof.
  apply (inj_countable DeviceId_to_nat DeviceId_of_nat). by intros [].
Defined.

(** [typedef std::set<DeviceId> DeviceIds].  A range-for over the set
    visits its members in increasing order. *)
Abbreviation DeviceIds := (gset DeviceId).

Definition all_DeviceIds : list DeviceId := [ID0; ID1; ID2; ID3].

Definition elements_of (ids : DeviceIds) : list DeviceId :=
  filter (λ d, d ∈ ids) all_DeviceIds.

(** [ids.size()] *)
Definition size_of (ids : DeviceIds) : nat := length (elements_of ids).

(** ** tidl_create_params.h and common_defines.h: the structures
    shared with the device, with the members that the host reads or
    writes *)

Record sTIDL_Layer_t := {
  layerType : Z;
  layersGroupId : Z
}.

Record sTIDL_Network_t := {
  numLayers : Z;
  interElementSize : Z;
  TIDLLayers : list sTIDL_Layer_t
}.

Record TIDL_CreateParams := {
  net : sTIDL_Network_t;
  currCoreId : Z;
  currLayersGroupId : Z;
  l1MemSize : Z;
  l2MemSize : Z;
  l3MemSize : Z;
  quantHistoryParam1 : Z;
  quantHistoryParam2 : Z;
  quantMargin : Z;
  optimiseExtMem : Z
}.

(** [errorCode], the remaining member, is written by the device only. *)
Record OCL_TIDL_SetupParams := {
  enableTrace : Z;
  networkParamHeapSize : N;
  noZeroCoeffsPercentage : Z;
  sizeofTIDL_CreateParams : N;
  offsetofNet : N
}.

(** ** The platform interface *)

(** One constructor per external entry point used by the host code,
    carrying the arguments that the host chooses.  The last three are
    the accesses to device-visible memory: the host's image of a
    structure is written back before the device may read it, and the
    error code that the device leaves in the setup parameters is read
    from memory. *)
Inductive call :=
| clGetPlatformIDs (num_entries : nat)
| clGetPlatformInfo (platform : handle) (param_name : Z) (param_value_size : nat)
| clGetDeviceIDs (device_type : Z) (num_entries : nat)
| clGetDeviceInfo (device : handle) (param_name : Z)
| clCreateContextFromType (device_type : Z)
| clCreateSubDevices (in_device : handle) (properties : list Z) (num_devices : nat)
| clCreateContext (devices : list handle)
| clCreateCommandQueue (context device : handle) (properties : Z)
| clCreateProgramWithBinary (context : handle) (device_list : list handle)
                            (lengths : list N)
| clBuildProgram (program : handle) (device_list : list handle) (options : string)
| clCreateProgramWithBuiltInKernels (context : handle) (device_list : list handle)
                                    (kernel_names : string)
| clCreateKernel (program : handle) (kernel_name : string)
| clSetKernelArg (kernel : handle) (arg_index : nat) (arg_size : N)
                 (arg_value : handle)
| clEnqueueTask (command_queue kernel : handle)
| clWaitForEvents (event : handle)
| clReleaseEvent (event : handle)
| clSetEventCallback (event : handle) (callback_type : Z) (user_data : handle)
| clCreateBuffer (context : handle) (flags : Z) (size : N) (host_ptr : handle)
| clReleaseMemObject (memobj : handle)
| clReleaseKernel (kernel : handle)
| is_in_malloced_region (ptr : handle)
| malloc_ddr (size : N)
| free_ddr (ptr : handle)
| GetBinaryFileSize (file : string)
| ReadBinary (file : string) (buffer : handle) (size : N)
| store_CreateParams (p : handle) (v : TIDL_CreateParams)
| store_SetupParams (p : handle) (v : OCL_TIDL_SetupParams)
| load_errorCode (setupParams : handle).

(** What a call hands back: the status word ([cl_int] result or
    [errcode_ret]; for the boolean helpers nonzero means true) and the
    output operands.  A call reads the fields that its C prototype
    has and ignores the rest. *)
Record response := {
  status : cl_int;
  r_handle : handle;
  r_handles : list handle;
  r_value : Z;
  r_string : string;
  r_net : sTIDL_Network_t
}.

(** ** Outcomes and the host monad *)

Inductive exn :=
| TidlException (message_m : string)
| std_out_of_range.

Inductive result (A : Type) : Type :=
| Ret (a : A)
| Throw (e : exn)
| Exit (code : Z)
| AssertFail
| UB.
Arguments Ret {A} a.
Arguments Throw {A} e.
Arguments Exit {A} code.
Arguments AssertFail {A}.
Arguments UB {A}.

Definition cast_result {A B} (r : result A) (d : result B) : result B :=
  match r with
  | Ret _ => d
  | Throw e => Throw e
  | Exit c => Exit c
  | AssertFail => AssertFail
  | UB => UB
  end.

(** ** device_arginfo.h: one kernel argument, as [Kernel] and
    [Device::CreateBuffer] observe it through [ptr()], [size()],
    [kind()] and [isLocal()] *)

Inductive Kind := BUFFER | SCALAR | LOCAL.

Record DeviceArgInfo := {
  arg_ptr : handle;
  arg_size : N;
  arg_kind : Kind;
  arg_isLocal : bool
}.

(** configuration.h: the members used by the executor. *)
Record Configuration := {
  netBinFile : string;
  paramsBinFile : string;
  runFullNet : bool;
  PARAM_HEAP_SIZE : N;
  EXTMEM_HEAP_SIZE : N;
  cfg_noZeroCoeffsPercentage : Z;
  enableInternalInput : bool
}.

(** executor.h: [ArgInfo] *)
Record ArgInfo := {
  ptr_m : handle;
  size_m : N
}.

(** The three device calls of an execution object (execution_object.h). *)
Inductive CallType := INIT | PROCESS | CLEANUP.

(** The platform: its state and its answer to each call. *)
Class Platform := {
  plat : Type;
  exec : call → plat → response * plat
}.

(** Constants, macros and conversions of the repository that are
    defined outside the sources at hand: array bounds (ocl_device.h,
    common_defines.h), the length of the generated DSP binary, error
    codes (common_defines.h), memory sizes and quantisation settings
    (parameters.h), the data-layer tag and [TIDL_optimiseExtMemL1] (the
    TIDL interface header), structure sizes, kernel names, build
    version and build sha, the [__FILE__] of the two translation
    units, the default configuration (configuration.cpp), the
    converting constructor of [DeviceArgInfo] (device_arginfo.h) and
    the argument lists of the kernels of an execution object. *)
Class Headers := {
  MAX_DEVICES : nat;
  NUM_CONTEXTS : nat;
  ocl_wrapper_dsp_bin_len : N;
  sizeof_cl_mem : N;
  ocl_device_cpp : string;
  OCL_TIDL_SUCCESS : Z;
  OCL_TIDL_ERROR : Z;
  OCL_TIDL_ALLOC_FAIL : Z;
  OCL_TIDL_MEMREC_ALLOC_FAIL : Z;
  OCL_TIDL_PROCESS_FAIL : Z;
  OCL_TIDL_CREATE_PARAMS_MISMATCH : Z;
  OCL_TIDL_TRACE_OFF : Z;
  TIDL_DataLayer : Z;
  TIDL_optimiseExtMemL1 : Z;
  DMEM0_SIZE : Z;
  DMEM1_SIZE : Z;
  OCMC_SIZE : Z;
  QUANT_HISTORY_PARAM1 : Z;
  QUANT_HISTORY_PARAM2 : Z;
  QUANT_MARGIN : Z;
  sizeof_TIDL_CreateParams : N;
  sizeof_sTIDL_Network_t : N;
  sizeof_OCL_TIDL_SetupParams : N;
  offsetof_net : N;
  SETUP_KERNEL : string;
  INIT_KERNEL : string;
  PROCESS_KERNEL : string;
  CLEANUP_KERNEL : string;
  BUILD_VER : string;
  BUILD_SHA : string;
  executor_cpp : string;
  default_Configuration : Configuration;
  DeviceArgInfo_of : ArgInfo → DeviceArgInfo;
  eo_kernel_args : CallType → ArgInfo → ArgInfo → N → bool → list DeviceArgInfo
}.

Section Host.

Context `{Platform} `{Headers}.

Record world := {
  w_plat : plat;
  w_log : list (call * response)
}.

Definition M (A : Type) : Type := world → result A * world.

#[global] Instance M_ret : MRet M := λ A a w, (Ret a, w).

#[global] Instance M_bind : MBind M := λ A B f m w,
  match m w with
  | (Ret a, w') => f a w'
  | (r, w') => (cast_result r UB, w')
  end.

Definition throw {A} (e : exn) : M A := λ w, (Throw e, w).
Definition exit {A} (code : Z) : M A := λ w, (Exit code, w).
Definition abort {A} : M A := λ w, (AssertFail, w).
Definition undefined {A} : M A := λ w, (UB, w).

(** [assert(b)] *)
Definition assert (b : bool) : M unit :=
  if b then mret tt else abort.

(** Issue one call; it is appended to the log with its answer. *)
Definition cl (c : call) : M response := λ w,
  let '(r, s) := exec c (w_plat w) in
  (Ret r, {| w_plat := s; w_log := w_log w ++ [(c, r)] |}).

(** C arrays: reading or writing outside the bounds is undefined. *)
Definition array_get {A} (a : list A) (i : nat) : M A :=
  match a !! i with
  | Some x => mret x
  | None => undefined
  end.

Definition array_set {A} (a : list A) (i : nat) (x : A) : M (list A) :=
  if decide (i < length a)%nat then mret (<[i:=x]> a) else undefined.

(** [errorCheck]: report on stderr and leave the process. *)
Definition errorCheck (ret : cl_int) (line : nat) : M unit :=
  if negb (ret =? CL_SUCCESS) then exit ret else mret tt.

(** [for (auto x : l) body] threading the mutated object [s]. *)
Fixpoint for_each {A S} (l : list A) (body : A → S → M S) (s : S) : M S :=
  match l with
  | [] => mret s
  | x :: l' => s' ← body x s; for_each l' body s'
  end.

(** ** executor.h: [Exception] *)

(** [std::to_string] on [uint32_t] and [int32_t]: the decimal numeral. *)
Definition to_string (z : Z) : string :=
  NilZero.string_of_int (Z.to_int z).

Definition Exception_str (error file func : string) (line_no : nat) : exn :=
  TidlException
    ("TIDL Error: [" +:+ file +:+ ", " +:+ func +:+ ", "
       +:+ to_string (Z.of_nat line_no) +:+ "]: " +:+ error).

(** ** ocl_device.cpp: [Device] *)

Record Device := {
  device_type_m : Z;
  device_ids_m : DeviceIds;
  queue_m : list handle;
  context_m : handle;
  program_m : handle;
  freq_in_mhz_m : Z
}.

Definition set_queue_m (d : Device) (q : list handle) : Device :=
  {| device_type_m := device_type_m d; device_ids_m := device_ids_m d;
     queue_m := q; context_m := context_m d; program_m := program_m d;
     freq_in_mhz_m := freq_in_mhz_m d |}.

Definition set_context_m (d : Device) (c : handle) : Device :=
  {| device_type_m := device_type_m d; device_ids_m := device_ids_m d;
     queue_m := queue_m d; context_m := c; program_m := program_m d;
     freq_in_mhz_m := freq_in_mhz_m d |}.

Definition set_program_m (d : Device) (p : handle) : Device :=
  {| device_type_m := device_type_m d; device_ids_m := device_ids_m d;
     queue_m := queue_m d; context_m := context_m d; program_m := p;
     freq_in_mhz_m := freq_in_mhz_m d |}.

Definition set_freq_in_mhz_m (d : Device) (f : Z) : Device :=
  {| device_type_m := device_type_m d; device_ids_m := device_ids_m d;
     queue_m := queue_m d; context_m := context_m d; program_m := program_m d;
     freq_in_mhz_m := f |}.

(** [Device::Device]: every queue slot starts null.  The members
    assigned later by the derived constructors are shown as null until
    then; the code never reads them before assigning them. *)
Definition Device_ctor (t : Z) (ids : DeviceIds) : Device :=
  {| device_type_m := t; device_ids_m := ids;
     queue_m := replicate MAX_DEVICES nullptr;
     context_m := nullptr; program_m := nullptr; freq_in_mhz_m := 0 |}.

(** A local array that the platform fills from the front: [init] is
    what the array held before ([[]] when it was not initialised, so
    that the cells the platform left alone cannot be read). *)
Definition filled (n : nat) (init out : list handle) : list handle :=
  take n (out ++ drop (length out) init).

(** [queue_m[index] = clCreateCommandQueue(context_m, devices[index], props, &errcode);
     errorCheck(errcode, line);] *)
Definition open_queue (devices : list handle) (props : Z) (line : nat)
    (id : DeviceId) (d : Device) : M Device :=
  let index := DeviceId_to_nat id in
  dev ← array_get devices index;
  r ← cl (clCreateCommandQueue (context_m d) dev props);
  q ← array_set (queue_m d) index (r_handle r);
  let d := set_queue_m d q in
  errorCheck (status r) line;;
  mret d.

(** [DspDevice::BuildProgramFromBinary] *)
Definition DspDevice_BuildProgramFromBinary (d : Device) (BFN : string)
    (device_ids : list handle) (num_devices : nat) : M (bool * Device) :=
  let bin_len := ocl_wrapper_dsp_bin_len in
  assert (negb (bin_len =? 0)%N);;
  let lengths := replicate num_devices bin_len in
  r ← cl (clCreateProgramWithBinary (context_m d) (take num_devices device_ids)
                                     lengths);
  let d := set_program_m d (r_handle r) in
  errorCheck (status r) 233;;
  let options := "" in
  r ← cl (clBuildProgram (program_m d) (take num_devices device_ids) options);
  errorCheck (status r) 237;;
  mret (true, d).

(** [DspDevice::DspDevice] *)
Definition DspDevice_ctor (ids : DeviceIds) (binary_filename : string)
    : M Device :=
  let d := Device_ctor CL_DEVICE_TYPE_ACCELERATOR ids in
  r ← cl (clGetDeviceIDs (device_type_m d) MAX_DEVICES);
  let num_devices_found := r_value r in
  let device_ids := filled MAX_DEVICES [] (r_handles r) in
  errorCheck (status r) 69;;
  if negb (num_devices_found =? 1) then
    throw (Exception_str "OpenCL DSP device not found"
                         ocl_device_cpp "DspDevice" 73)
  else
    dev0 ← array_get device_ids 0;
    r ← cl (clGetDeviceInfo dev0 CL_DEVICE_MAX_COMPUTE_UNITS);
    let num_compute_units := r_value r in
    d ← (if num_compute_units =? 1 then
           r ← cl (clCreateContextFromType (device_type_m d));
           let d := set_context_m d (r_handle r) in
           errorCheck (status r) 89;;
           r ← cl (clCreateCommandQueue (context_m d) dev0
                                         CL_QUEUE_PROFILING_ENABLE);
           q ← array_set (queue_m d) 0 (r_handle r);
           let d := set_queue_m d q in
           errorCheck (status r) 96;;
           '(_, d) ← DspDevice_BuildProgramFromBinary d binary_filename
                                                       device_ids 1;
           mret d
         else
           let NUM_SUB_DEVICES := 2%nat in
           let properties := [CL_DEVICE_PARTITION_EQUALLY; 1; 0] in
           r ← cl (clCreateSubDevices dev0 properties 0);
           let n_sub_devices := r_value r in
           errorCheck (status r) 114;;
           assert (n_sub_devices =? Z.of_nat NUM_SUB_DEVICES);;
           r ← cl (clCreateSubDevices dev0 properties (Z.to_nat n_sub_devices));
           let sub_devices :=
             filled NUM_SUB_DEVICES [nullptr; nullptr] (r_handles r) in
           errorCheck (status r) 125;;
           r ← cl (clCreateContext sub_devices);
           let d := set_context_m d (r_handle r) in
           errorCheck (status r) 134;;
           d ← for_each (elements_of (device_ids_m d))
                        (open_queue sub_devices CL_QUEUE_PROFILING_ENABLE 144) d;
           '(_, d) ← DspDevice_BuildProgramFromBinary d binary_filename
                                                       sub_devices NUM_SUB_DEVICES;
           mret d);
    r ← cl (clGetDeviceInfo dev0 CL_DEVICE_MAX_CLOCK_FREQUENCY);
    let d := set_freq_in_mhz_m d (r_value r) in
    errorCheck (status r) 155;;
    mret d.

(** [EveDevice::BuildProgramFromBinary] *)
Definition EveDevice_BuildProgramFromBinary (d : Device) (kernel_names : string)
    (device_ids : list handle) (num_devices : nat) : M (bool * Device) :=
  executor_device_ids ←
    for_each (elements_of (device_ids_m d))
      (λ id acc, dev ← array_get device_ids (DeviceId_to_nat id);
                 if decide (length acc < MAX_DEVICES)%nat
                 then mret (acc ++ [dev]) else undefined)
      [];
  r ← cl (clCreateProgramWithBuiltInKernels (context_m d)
            (take num_devices executor_device_ids) kernel_names);
  let d := set_program_m d (r_handle r) in
  errorCheck (status r) 258;;
  mret (true, d).

(** [EveDevice::EveDevice] *)
Definition EveDevice_ctor (ids : DeviceIds) (kernel_names : string)
    : M Device :=
  let d := Device_ctor CL_DEVICE_TYPE_CUSTOM ids in
  r ← cl (clGetDeviceIDs (device_type_m d) MAX_DEVICES);
  let num_devices_found := r_value r in
  let all_device_ids := filled MAX_DEVICES [] (r_handles r) in
  errorCheck (status r) 171;;
  assert (Z.of_nat (size_of (device_ids_m d)) <=? num_devices_found);;
  r ← cl (clCreateContextFromType (device_type_m d));
  let d := set_context_m d (r_handle r) in
  errorCheck (status r) 180;;
  d ← for_each (elements_of (device_ids_m d))
        (open_queue all_device_ids
           (Z.lor CL_QUEUE_PROFILING_ENABLE
                  CL_QUEUE_OUT_OF_ORDER_EXEC_MODE_ENABLE) 193) d;
  '(_, d) ← EveDevice_BuildProgramFromBinary d kernel_names all_device_ids
              (size_of (device_ids_m d));
  dev0 ← array_get all_device_ids 0;
  r ← cl (clGetDeviceInfo dev0 CL_DEVICE_MAX_CLOCK_FREQUENCY);
  let d := set_freq_in_mhz_m d (r_value r) in
  errorCheck (status r) 203;;
  mret d.

(** [Device::Create] *)
Definition Device_Create (core_type : DeviceType) (ids : DeviceIds)
    (name : string) : M Device :=
  match core_type with
  | DSP => DspDevice_ctor ids name
  | EVE => EveDevice_ctor ids name
  end.

(** [Device::CreateBuffer] *)
Definition Device_CreateBuffer (d : Device) (Arg : DeviceArgInfo) : M handle :=
  let size := arg_size Arg in
  let host_ptr := arg_ptr Arg in
  if (host_ptr =? nullptr)%N then mret nullptr
  else
    r ← cl (is_in_malloced_region host_ptr);
    let hostPtrInCMEM := negb (status r =? 0) in
    let flag := CL_MEM_READ_WRITE in
    let flag := if hostPtrInCMEM then Z.lor flag CL_MEM_USE_HOST_PTR
                else Z.lor flag CL_MEM_COPY_HOST_PTR in
    r ← cl (clCreateBuffer (context_m d) flag size host_ptr);
    let buffer := r_handle r in
    errorCheck (status r) 398;;
    mret buffer.

(** [Device::ReleaseBuffer] *)
Definition Device_ReleaseBuffer (d : Device) (m : handle) : M unit :=
  cl (clReleaseMemObject m);; mret tt.

(** ** ocl_device.cpp: [Kernel] *)

Record Kernel := {
  name_m : string;
  device_m : Device;
  device_index_m : nat;
  kernel_m : handle;
  event_m : list handle;
  buffers_m : list handle
}.

Definition set_event_m (k : Kernel) (e : list handle) : Kernel :=
  {| name_m := name_m k; device_m := device_m k;
     device_index_m := device_index_m k; kernel_m := kernel_m k;
     event_m := e; buffers_m := buffers_m k |}.

(** One turn of the argument loop of [Kernel::Kernel]; the state is
    [arg_index] and [buffers_m].  The last [else] asserts a string
    literal, which is never null. *)
Definition bind_arg (device : Device) (kernel : handle) (arg : DeviceArgInfo)
    (st : nat * list handle) : M (nat * list handle) :=
  let '(arg_index, buffers) := st in
  buffers ←
    (if negb (arg_isLocal arg) then
       match arg_kind arg with
       | BUFFER =>
           buffer ← Device_CreateBuffer device arg;
           cl (clSetKernelArg kernel arg_index sizeof_cl_mem buffer);;
           mret (if negb (buffer =? nullptr)%N then buffers ++ [buffer]
                 else buffers)
       | SCALAR =>
           cl (clSetKernelArg kernel arg_index (arg_size arg) (arg_ptr arg));;
           mret buffers
       | LOCAL => mret buffers
       end
     else
       cl (clSetKernelArg kernel arg_index (arg_size arg) nullptr);;
       mret buffers);
  mret (S arg_index, buffers).

(** [Kernel::Kernel] *)
Definition Kernel_ctor (device : Device) (name : string)
    (args : list DeviceArgInfo) (device_index : nat) : M Kernel :=
  r ← cl (clCreateKernel (program_m device) name);
  let kernel := r_handle r in
  errorCheck (status r) 270;;
  let events := replicate NUM_CONTEXTS nullptr in
  '(_, buffers) ← for_each args (bind_arg device kernel) (0%nat, []);
  mret {| name_m := name; device_m := device; device_index_m := device_index;
          kernel_m := kernel; event_m := events; buffers_m := buffers |}.

(** [Kernel::UpdateScalarArg] *)
Definition Kernel_UpdateScalarArg (k : Kernel) (index : nat) (size : N)
    (value : handle) : M bool :=
  r ← cl (clSetKernelArg (kernel_m k) index size value);
  mret (status r =? CL_SUCCESS).

(** [Kernel::RunAsync] *)
Definition Kernel_RunAsync (k : Kernel) (context_idx : nat) : M Kernel :=
  queue ← array_get (queue_m (device_m k)) (device_index_m k);
  r ← cl (clEnqueueTask queue (kernel_m k));
  events ← array_set (event_m k) context_idx (r_handle r);
  let k := set_event_m k events in
  errorCheck (status r) 323;;
  mret k.

(** [Kernel::Wait] *)
Definition Kernel_Wait (k : Kernel) (context_idx : nat) : M (bool * Kernel) :=
  event ← array_get (event_m k) context_idx;
  if (event =? nullptr)%N then mret (false, k)
  else
    r ← cl (clWaitForEvents event);
    errorCheck (status r) 336;;
    r ← cl (clReleaseEvent event);
    errorCheck (status r) 339;;
    events ← array_set (event_m k) context_idx nullptr;
    mret (true, set_event_m k events).

(** [Kernel::AddCallback] *)
Definition Kernel_AddCallback (k : Kernel) (user_data : handle)
    (context_idx : nat) : M bool :=
  event ← array_get (event_m k) context_idx;
  if (event =? nullptr)%N then mret false
  else
    r ← cl (clSetEventCallback event CL_COMPLETE user_data);
    mret (status r =? CL_SUCCESS).

(** [Kernel::~Kernel] *)
Definition Kernel_dtor (k : Kernel) : M unit :=
  for_each (buffers_m k) (λ b _, Device_ReleaseBuffer (device_m k) b) tt;;
  cl (clReleaseKernel (kernel_m k));;
  mret tt.

(** ** ocl_device.cpp: the platform query *)

(** [std::string::find]: the position of the first occurrence, [None]
    standing for [npos]. *)
Definition find (s pat : string) : option nat := String.index 0 pat s.

(** [std::string::substr(pos, n)] throws [std::out_of_range] when
    [pos > size()]; [npos] exceeds every size. *)
Definition substr (s : string) (pos : option nat) (n : nat) : M string :=
  match pos with
  | Some p =>
      if decide (p ≤ String.length s)%nat then mret (substring p n s)
      else throw std_out_of_range
  | None => throw std_out_of_range
  end.

Definition MIN_OCL_VERSION : string := "01.01.17.00".

(** [sizeof(MIN_OCL_VERSION)]: the characters and the terminator. *)
Definition sizeof_MIN_OCL_VERSION : nat := S (String.length MIN_OCL_VERSION).

(** [CheckOpenCLVersion] *)
Definition CheckOpenCLVersion (id : handle) : M bool :=
  r ← cl (clGetPlatformInfo id CL_PLATFORM_VERSION 0);
  if negb (status r =? CL_SUCCESS) then mret false
  else
    let length := Z.to_nat (r_value r) in
    r ← cl (clGetPlatformInfo id CL_PLATFORM_VERSION length);
    if negb (status r =? CL_SUCCESS) then mret false
    else
      let v := r_string r in
      s ← substr v (find v "01.") sizeof_MIN_OCL_VERSION;
      if String.leb MIN_OCL_VERSION s then mret true
      else mret false.

(** [PlatformIsAM57] *)
Definition PlatformIsAM57 : M bool :=
  r ← cl (clGetPlatformIDs 1);
  let id := r_handle r in
  if negb (status r =? CL_SUCCESS) then mret false
  else
    ok ← CheckOpenCLVersion id;
    if negb ok then mret false
    else
      r ← cl (clGetPlatformInfo id CL_PLATFORM_NAME 0);
      if negb (status r =? CL_SUCCESS) then mret false
      else
        let length := Z.to_nat (r_value r) in
        r ← cl (clGetPlatformInfo id CL_PLATFORM_NAME length);
        if negb (status r =? CL_SUCCESS) then mret false
        else
          let platform_name := r_string r in
          match find platform_name "AM57" with
          | None => mret false
          | Some _ => mret true
          end.

(** Conversion of a [cl_int] to [uint32_t]. *)
Definition to_uint32 (z : Z) : Z := z mod 2 ^ 32.

(** [Device::GetNumDevices] *)
Definition Device_GetNumDevices (device_type : DeviceType) : M Z :=
  am57 ← PlatformIsAM57;
  if negb am57 then mret 0
  else
    let t := if decide (device_type = EVE) then CL_DEVICE_TYPE_CUSTOM
             else CL_DEVICE_TYPE_ACCELERATOR in
    r ← cl (clGetDeviceIDs t MAX_DEVICES);
    let num_devices_found := r_value r in
    let all_device_ids := filled MAX_DEVICES [] (r_handles r) in
    if negb (status r =? CL_SUCCESS) then mret 0
    else if num_devices_found =? 0 then mret 0
    else if t =? CL_DEVICE_TYPE_ACCELERATOR then
      dev0 ← array_get all_device_ids 0;
      r ← cl (clGetDeviceInfo dev0 CL_DEVICE_MAX_COMPUTE_UNITS);
      let num_compute_units := r_value r in
      if negb (status r =? CL_SUCCESS) then mret 0
      else mret (to_uint32 num_compute_units)
    else mret num_devices_found.

(** [Executor::GetNumDevices] *)
Definition Executor_GetNumDevices (device_type : DeviceType) : M Z :=
  Device_GetNumDevices device_type.

(** ** The executor implementation *)

(** [Exception::Exception(int32_t errorCode, ...)]: the text appended
    after the location. *)
Definition error_text (errorCode : Z) : string :=
  if errorCode =? OCL_TIDL_ERROR then ""
  else if errorCode =? OCL_TIDL_ALLOC_FAIL then "Allocation failed on device"
  else if errorCode =? OCL_TIDL_MEMREC_ALLOC_FAIL then
    "Memrec allocation failed on device"
  else if errorCode =? OCL_TIDL_PROCESS_FAIL then
    "Process call failed on device"
  else if errorCode =? OCL_TIDL_CREATE_PARAMS_MISMATCH then
    "TIDL_CreateParams definition inconsistent across hostand device."
  else to_string errorCode.

Definition Exception_code (errorCode : Z) (file func : string)
    (line_no : nat) : exn :=
  TidlException
    ("TIDL Error: [" +:+ file +:+ ", " +:+ func +:+ ", "
       +:+ to_string (Z.of_nat line_no) +:+ "]: " +:+ error_text errorCode).

(** [Executor::GetAPIVersion].  [version] is a function-local static:
    [None] before the first call has initialised it. *)
Definition Executor_GetAPIVersion (version : option string)
    : string * option string :=
  let version := match version with
                 | None => BUILD_VER
                 | Some v => v
                 end in
  let version := version +:+ "." in
  let version := version +:+ BUILD_SHA in
  (version, Some version).

(** [malloc_ddr<T>()] and [malloc_ddr<T>(size)] *)
Definition malloc_ddr_T (size : N) : M handle :=
  r ← cl (malloc_ddr size);
  let val := r_handle r in
  assert (negb (val =? nullptr)%N);;
  mret val.

(** A [unique_ptr] with the [__free_ddr] deleter leaving scope: the
    deleter runs on return and while an exception unwinds, and is not
    called on a null pointer. *)
Definition release_ddr (p : handle) : M unit :=
  if (p =? nullptr)%N then mret tt else cl (free_ddr p);; mret tt.

(** Run [body] and then the destructor of a local object, also when
    [body] throws; [exit] and a failed [assert] run no destructor. *)
Definition scoped {A} (dtor : M unit) (body : M A) : M A := λ w,
  match body w with
  | (Ret a, w') =>
      match dtor w' with
      | (Ret _, w'') => (Ret a, w'')
      | (r, w'') => (cast_result r UB, w'')
      end
  | (Throw e, w') =>
      match dtor w' with
      | (Ret _, w'') => (Throw e, w'')
      | (r, w'') => (cast_result r UB, w'')
      end
  | other => other
  end.

(** Apply [f] to the elements in order, keeping the updated objects. *)
Fixpoint map_M {A B} (f : A → M B) (l : list A) : M (list B) :=
  match l with
  | [] => mret []
  | x :: l' => y ← f x; ys ← map_M f l'; mret (y :: ys)
  end.

(** Modelled from the spec: the ExecutionObject class, whose
    implementation (execution_object.cpp) is not among the sources.
    An execution object owns one device unit and three kernels bound
    to that unit, one per call type; each call type goes
    [Idle → Issued] on [RunAsync] and [Issued → Completed] on [Wait],
    and a [Wait] with nothing issued returns false.  The argument
    lists of the three kernels are left open. *)
Inductive CallState := Idle | Issued | Completed.

Record ExecutionObject := {
  eo_device_index : nat;
  k_initialize : Kernel;
  k_process : Kernel;
  k_cleanup : Kernel;
  st_initialize : CallState;
  st_process : CallState;
  st_cleanup : CallState
}.

Definition kernel_of (ct : CallType) (eo : ExecutionObject) : Kernel :=
  match ct with
  | INIT => k_initialize eo
  | PROCESS => k_process eo
  | CLEANUP => k_cleanup eo
  end.

Definition state_of (ct : CallType) (eo : ExecutionObject) : CallState :=
  match ct with
  | INIT => st_initialize eo
  | PROCESS => st_process eo
  | CLEANUP => st_cleanup eo
  end.

Definition set_call (ct : CallType) (k : Kernel) (st : CallState)
    (eo : ExecutionObject) : ExecutionObject :=
  match ct with
  | INIT =>
      {| eo_device_index := eo_device_index eo; k_initialize := k;
         k_process := k_process eo; k_cleanup := k_cleanup eo;
         st_initialize := st; st_process := st_process eo;
         st_cleanup := st_cleanup eo |}
  | PROCESS =>
      {| eo_device_index := eo_device_index eo;
         k_initialize := k_initialize eo; k_process := k;
         k_cleanup := k_cleanup eo; st_initialize := st_initialize eo;
         st_process := st; st_cleanup := st_cleanup eo |}
  | CLEANUP =>
      {| eo_device_index := eo_device_index eo;
         k_initialize := k_initialize eo; k_process := k_process eo;
         k_cleanup := k; st_initialize := st_initialize eo;
         st_process := st_process eo; st_cleanup := st |}
  end.

(** Modelled from the spec: the ExecutionObject constructor. *)
Definition ExecutionObject_ctor (d : Device) (device_index : nat)
    (create_arg param_heap_arg : ArgInfo) (extmem_heap_size : N)
    (internal_input : bool) : M ExecutionObject :=
  let args ct := eo_kernel_args ct create_arg param_heap_arg
                                extmem_heap_size internal_input in
  ki ← Kernel_ctor d INIT_KERNEL (args INIT) device_index;
  kp ← Kernel_ctor d PROCESS_KERNEL (args PROCESS) device_index;
  kc ← Kernel_ctor d CLEANUP_KERNEL (args CLEANUP) device_index;
  mret {| eo_device_index := device_index; k_initialize := ki;
          k_process := kp; k_cleanup := kc; st_initialize := Idle;
          st_process := Idle; st_cleanup := Idle |}.

(** Modelled from the spec: ExecutionObject::RunAsync, the
    non-blocking start of one call type. *)
Definition ExecutionObject_RunAsync (ct : CallType) (eo : ExecutionObject)
    : M (bool * ExecutionObject) :=
  k ← Kernel_RunAsync (kernel_of ct eo) 0;
  mret (true, set_call ct k Issued eo).

(** Modelled from the spec: ExecutionObject::Wait, the blocking wait
    of one call type. *)
Definition ExecutionObject_Wait (ct : CallType) (eo : ExecutionObject)
    : M (bool * ExecutionObject) :=
  r ← Kernel_Wait (kernel_of ct eo) 0;
  let has_work : bool := r.1 in
  let k := r.2 in
  mret (has_work,
        set_call ct k (if has_work then Completed else state_of ct eo) eo).

(** executor_impl.h: [ExecutorImpl] *)
Record ExecutorImpl := {
  configuration_m : Configuration;
  shared_networkparam_heap_m : handle;
  ei_device_ids_m : DeviceIds;
  core_type_m : DeviceType;
  layers_group_id_m : Z;
  ei_device_m : Device;
  execution_objects_m : list ExecutionObject
}.

Definition set_configuration_m (e : ExecutorImpl) (c : Configuration)
    : ExecutorImpl :=
  {| configuration_m := c;
     shared_networkparam_heap_m := shared_networkparam_heap_m e;
     ei_device_ids_m := ei_device_ids_m e; core_type_m := core_type_m e;
     layers_group_id_m := layers_group_id_m e; ei_device_m := ei_device_m e;
     execution_objects_m := execution_objects_m e |}.

Definition set_shared_networkparam_heap_m (e : ExecutorImpl) (p : handle)
    : ExecutorImpl :=
  {| configuration_m := configuration_m e;
     shared_networkparam_heap_m := p;
     ei_device_ids_m := ei_device_ids_m e; core_type_m := core_type_m e;
     layers_group_id_m := layers_group_id_m e; ei_device_m := ei_device_m e;
     execution_objects_m := execution_objects_m e |}.

Definition set_execution_objects_m (e : ExecutorImpl)
    (eos : list ExecutionObject) : ExecutorImpl :=
  {| configuration_m := configuration_m e;
     shared_networkparam_heap_m := shared_networkparam_heap_m e;
     ei_device_ids_m := ei_device_ids_m e; core_type_m := core_type_m e;
     layers_group_id_m := layers_group_id_m e; ei_device_m := ei_device_m e;
     execution_objects_m := eos |}.

(** [ExecutorImpl::ExecutorImpl]; the class that this file calls [DLA] is
    the [EVE] of the device layer. *)
Definition ExecutorImpl_ctor (core_type : DeviceType) (ids : DeviceIds)
    (layers_group_id : Z) : M ExecutorImpl :=
  let name :=
    match core_type with
    | DSP => ""
    | EVE => SETUP_KERNEL +:+ ";" +:+ INIT_KERNEL +:+ ";"
               +:+ PROCESS_KERNEL +:+ ";" +:+ CLEANUP_KERNEL
    end in
  device ← Device_Create core_type ids name;
  mret {| configuration_m := default_Configuration;
          shared_networkparam_heap_m := nullptr;
          ei_device_ids_m := ids; core_type_m := core_type;
          layers_group_id_m := layers_group_id; ei_device_m := device;
          execution_objects_m := [] |}.

(** [ExecutorImpl::InitializeNetworkCreateParam] *)
Definition InitializeNetworkCreateParam (e : ExecutorImpl)
    (CP : TIDL_CreateParams) (configuration : Configuration)
    : TIDL_CreateParams :=
  {| net := net CP;
     currCoreId := layers_group_id_m e;
     currLayersGroupId := layers_group_id_m e;
     l1MemSize := DMEM0_SIZE;
     l2MemSize := DMEM1_SIZE;
     l3MemSize := OCMC_SIZE;
     quantHistoryParam1 := QUANT_HISTORY_PARAM1;
     quantHistoryParam2 := QUANT_HISTORY_PARAM2;
     quantMargin := QUANT_MARGIN;
     optimiseExtMem := TIDL_optimiseExtMemL1 |}.

Definition set_net (CP : TIDL_CreateParams) (n : sTIDL_Network_t)
    : TIDL_CreateParams :=
  {| net := n; currCoreId := currCoreId CP;
     currLayersGroupId := currLayersGroupId CP;
     l1MemSize := l1MemSize CP; l2MemSize := l2MemSize CP;
     l3MemSize := l3MemSize CP;
     quantHistoryParam1 := quantHistoryParam1 CP;
     quantHistoryParam2 := quantHistoryParam2 CP;
     quantMargin := quantMargin CP; optimiseExtMem := optimiseExtMem CP |}.

Definition set_interElementSize (n : sTIDL_Network_t) (v : Z)
    : sTIDL_Network_t :=
  {| numLayers := numLayers n; interElementSize := v;
     TIDLLayers := TIDLLayers n |}.

Definition set_TIDLLayers (n : sTIDL_Network_t) (l : list sTIDL_Layer_t)
    : sTIDL_Network_t :=
  {| numLayers := numLayers n; interElementSize := interElementSize n;
     TIDLLayers := l |}.

Definition set_layersGroupId (l : sTIDL_Layer_t) (g : Z) : sTIDL_Layer_t :=
  {| layerType := layerType l; layersGroupId := g |}.

(** The body of the loop of [ExecutorImpl::Initialize] that forces the
    full network:
    [if (TIDLLayers[i].layerType != TIDL_DataLayer)
         TIDLLayers[i].layersGroupId = layers_group_id_m;] *)
Definition force_layer (layers_group_id : Z) (i : nat)
    (layers : list sTIDL_Layer_t) : M (list sTIDL_Layer_t) :=
  l ← array_get layers i;
  if negb (layerType l =? TIDL_DataLayer)
  then array_set layers i (set_layersGroupId l layers_group_id)
  else mret layers.

(** [if (configuration.runFullNet)
       for (int i = 0; i < net->numLayers; i++) ...] *)
Definition Initialize_runFullNet (configuration : Configuration)
    (layers_group_id : Z) (n : sTIDL_Network_t) : M sTIDL_Network_t :=
  if runFullNet configuration then
    layers ← for_each (seq 0 (Z.to_nat (numLayers n)))
                      (force_layer layers_group_id) (TIDLLayers n);
    mret (set_TIDLLayers n layers)
  else mret n.

(** [*(device_ids_m.cbegin())]: dereferencing [begin()] of an empty
    set is undefined. *)
Definition first_id (ids : DeviceIds) : M DeviceId :=
  match elements_of ids with
  | id :: _ => mret id
  | [] => undefined
  end.

(** [ExecutorImpl::InitializeNetworkParams].  [Kernel::RunAsync] and
    [Kernel::Wait] are called with their default context, 0. *)
Definition InitializeNetworkParams (e : ExecutorImpl) (cp : handle)
    : M (bool * ExecutorImpl) :=
  let cfg := configuration_m e in
  r ← cl (GetBinaryFileSize (paramsBinFile cfg));
  let networkparam_size := Z.to_N (r_value r) in
  networkparam ← malloc_ddr_T networkparam_size;
  scoped (release_ddr networkparam)
    (r ← cl (ReadBinary (paramsBinFile cfg) networkparam networkparam_size);
     let status := negb (status r =? 0) in
     assert status;;
     setupParams ← malloc_ddr_T sizeof_OCL_TIDL_SetupParams;
     scoped (release_ddr setupParams)
       (let sp := {| enableTrace := OCL_TIDL_TRACE_OFF;
                     networkParamHeapSize := PARAM_HEAP_SIZE cfg;
                     noZeroCoeffsPercentage := cfg_noZeroCoeffsPercentage cfg;
                     sizeofTIDL_CreateParams := sizeof_TIDL_CreateParams;
                     offsetofNet := offsetof_net |} in
        cl (store_SetupParams setupParams sp);;
        heap ← malloc_ddr_T (networkParamHeapSize sp);
        release_ddr (shared_networkparam_heap_m e);;
        let e := set_shared_networkparam_heap_m e heap in
        let args :=
          [ {| ptr_m := cp; size_m := sizeof_TIDL_CreateParams |};
            {| ptr_m := networkparam; size_m := networkparam_size |};
            {| ptr_m := shared_networkparam_heap_m e;
               size_m := networkParamHeapSize sp |};
            {| ptr_m := setupParams;
               size_m := sizeof_OCL_TIDL_SetupParams |} ] in
        id ← first_id (ei_device_ids_m e);
        K ← Kernel_ctor (ei_device_m e) SETUP_KERNEL
                        (DeviceArgInfo_of <$> args) (DeviceId_to_nat id);
        scoped (Kernel_dtor K)
          (K ← Kernel_RunAsync K 0;
           Kernel_Wait K 0;;
           r ← cl (load_errorCode setupParams);
           let errorCode := r_value r in
           if negb (errorCode =? OCL_TIDL_SUCCESS) then
             throw (Exception_code errorCode executor_cpp
                                   "InitializeNetworkParams" 174)
           else mret (status, e)))).

(** [ExecutorImpl::Initialize] *)
Definition ExecutorImpl_Initialize (e : ExecutorImpl)
    (configuration : Configuration) : M (bool * ExecutorImpl) :=
  let e := set_configuration_m e configuration in
  r ← cl (malloc_ddr sizeof_TIDL_CreateParams);
  let shared_createparam := r_handle r in
  let fresh := {| net := r_net r; currCoreId := r_value r;
                  currLayersGroupId := r_value r; l1MemSize := r_value r;
                  l2MemSize := r_value r; l3MemSize := r_value r;
                  quantHistoryParam1 := r_value r;
                  quantHistoryParam2 := r_value r;
                  quantMargin := r_value r; optimiseExtMem := r_value r |} in
  assert (negb (shared_createparam =? nullptr)%N);;
  scoped (release_ddr shared_createparam)
    (let CP := InitializeNetworkCreateParam e fresh configuration in
     r ← cl (ReadBinary (netBinFile (configuration_m e))
                        (shared_createparam + offsetof_net)%N
                        sizeof_sTIDL_Network_t);
     let status := negb (status r =? 0) in
     let n := r_net r in
     assert status;;
     let n := set_interElementSize n 4 in
     n ← Initialize_runFullNet configuration (layers_group_id_m e) n;
     cl (store_CreateParams shared_createparam (set_net CP n));;
     r ← InitializeNetworkParams e shared_createparam;
     let e := r.2 in
     let create_arg := {| ptr_m := shared_createparam;
                          size_m := sizeof_TIDL_CreateParams |} in
     let param_heap_arg := {| ptr_m := shared_networkparam_heap_m e;
                              size_m := PARAM_HEAP_SIZE (configuration_m e) |} in
     eos ← for_each (elements_of (ei_device_ids_m e))
             (λ ids eos,
                let index := DeviceId_to_nat ids in
                eo ← ExecutionObject_ctor (ei_device_m e) index create_arg
                       param_heap_arg (EXTMEM_HEAP_SIZE (configuration_m e))
                       (enableInternalInput (configuration_m e));
                mret (eos ++ [eo]))
             (execution_objects_m e);
     eos ← map_M (λ eo, r ← ExecutionObject_RunAsync INIT eo; mret r.2) eos;
     eos ← map_M (λ eo, r ← ExecutionObject_Wait INIT eo; mret r.2) eos;
     mret (true, set_execution_objects_m e eos)).

(** [ExecutorImpl::Cleanup] *)
Definition ExecutorImpl_Cleanup (e : ExecutorImpl) : M ExecutorImpl :=
  eos ← map_M (λ eo, r ← ExecutionObject_RunAsync CLEANUP eo; mret r.2)
              (execution_objects_m e);
  eos ← map_M (λ eo, r ← ExecutionObject_Wait CLEANUP eo; mret r.2) eos;
  mret (set_execution_objects_m e eos).



(** ** ocl_device.cpp: [error2string] and the device destructor *)

(** [error2string] *)
Definition error2string (err : cl_int) : string :=
  match err with
  | 0 => "CL_SUCCESS"
  | (-1) => "CL_DEVICE_NOT_FOUND"
  | (-2) => "CL_DEVICE_NOT_AVAILABLE"
  | (-3) => "CL_COMPILER_NOT_AVAILABLE"
  | (-4) => "CL_MEM_OBJECT_ALLOCATION_FAILURE"
  | (-5) => "CL_OUT_OF_RESOURCES"
  | (-6) => "CL_OUT_OF_HOST_MEMORY"
  | (-7) => "CL_PROFILING_INFO_NOT_AVAILABLE"
  | (-8) => "CL_MEM_COPY_OVERLAP"
  | (-9) => "CL_IMAGE_FORMAT_MISMATCH"
  | (-10) => "CL_IMAGE_FORMAT_NOT_SUPPORTED"
  | (-11) => "CL_BUILD_PROGRAM_FAILURE"
  | (-12) => "CL_MAP_FAILURE"
  | (-30) => "CL_INVALID_VALUE"
  | (-31) => "CL_INVALID_DEVICE_TYPE"
  | (-32) => "CL_INVALID_PLATFORM"
  | (-33) => "CL_INVALID_DEVICE"
  | (-34) => "CL_INVALID_CONTEXT"
  | (-35) => "CL_INVALID_QUEUE_PROPERTIES"
  | (-36) => "CL_INVALID_COMMAND_QUEUE"
  | (-37) => "CL_INVALID_HOST_PTR"
  | (-38) => "CL_INVALID_MEM_OBJECT"
  | (-39) => "CL_INVALID_IMAGE_FORMAT_DESCRIPTOR"
  | (-40) => "CL_INVALID_IMAGE_SIZE"
  | (-41) => "CL_INVALID_SAMPLER"
  | (-42) => "CL_INVALID_BINARY"
  | (-43) => "CL_INVALID_BUILD_OPTIONS"
  | (-44) => "CL_INVALID_PROGRAM"
  | (-45) => "CL_INVALID_PROGRAM_EXECUTABLE"
  | (-46) => "CL_INVALID_KERNEL_NAME"
  | (-47) => "CL_INVALID_KERNEL_DEFINITION"
  | (-48) => "CL_INVALID_KERNEL"
  | (-49) => "CL_INVALID_ARG_INDEX"
  | (-50) => "CL_INVALID_ARG_VALUE"
  | (-51) => "CL_INVALID_ARG_SIZE"
  | (-52) => "CL_INVALID_KERNEL_ARGS"
  | (-53) => "CL_INVALID_WORK_DIMENSION"
  | (-54) => "CL_INVALID_WORK_GROUP_SIZE"
  | (-55) => "CL_INVALID_WORK_ITEM_SIZE"
  | (-56) => "CL_INVALID_GLOBAL_OFFSET"
  | (-57) => "CL_INVALID_EVENT_WAIT_LIST"
  | (-58) => "CL_INVALID_EVENT"
  | (-59) => "CL_INVALID_OPERATION"
  | (-60) => "CL_INVALID_GL_OBJECT"
  | (-61) => "CL_INVALID_BUFFER_SIZE"
  | (-62) => "CL_INVALID_MIP_LEVEL"
  | (-63) => "CL_INVALID_GLOBAL_WORK_SIZE"
  | _ => "Unknown OpenCL error"
  end.

(** The calls of [Device::~Device].  The destructor drops the status
    of each of them, so that the calls it issues are all there is to
    it. *)
Inductive teardown :=
| clFinish (command_queue : handle)
| clReleaseCommandQueue (command_queue : handle)
| clReleaseProgram (program : handle)
| clReleaseContext (context : handle).

(** [Device::~Device]: the calls issued, in order.  The loop runs over
    the slots [0 .. device_ids_m.size() - 1] of [queue_m]; [None]
    stands for a read outside the array. *)
Definition Device_dtor (d : Device) : option (list teardown) :=
  calls ←
    foldl (λ acc i,
             calls ← acc;
             q ← queue_m d !! i;
             Some (calls ++ [clFinish q; clReleaseCommandQueue q]))
          (Some []) (seq 0 (size_of (device_ids_m d)));
  Some (calls ++ [clReleaseProgram (program_m d);
                  clReleaseContext (context_m d)]).

(** ** main.cpp of the mnist example *)

(** [WriteFrameOutput]: the search loop over the output buffer, whose
    bytes are [unsigned char]; the state is [maxval] and [maxloc], and
    the result is the state at the end of the loop, of which [maxloc]
    is printed.  [None] stands for a read beyond the buffer. *)
Definition WriteFrameOutput (out : list N) (out_size : Z) : option (N * Z) :=
  foldl (λ st i,
           '(maxval, maxloc) ← st;
           b ← out !! i;
           Some (if (maxval <? b)%N then (b, Z.of_nat i)
                 else (maxval, maxloc)))
        (Some (0%N, -1)) (seq 0 (Z.to_nat out_size)).

(** [RunConfiguration]: the table of pipelines.  A pipeline is shown
    as the list of execution objects it was made of. *)
Definition buffer_factor : nat := 2.

Definition make_eops {EO} (eos : list EO) : option (list (list EO)) :=
  let num_eos := length eos in
  foldl (λ acc j,
           foldl (λ acc i,
                    eops ← acc;
                    eo ← eos !! i;
                    Some (eops ++ [[eo]]))
                 acc (seq 0 num_eos))
        (Some []) (seq 0 buffer_factor).

(** [eops[frame_idx % num_eops]] and [eos[frame_idx % num_eos]] in the
    frame loop; a remainder by zero is undefined. *)
Definition index_mod {A} (l : list A) (frame_idx : nat) : option A :=
  if decide (length l = 0%nat) then None
  else l !! (frame_idx mod length l)%nat.


End Host.

(** ** A board to run the model on

    A deterministic platform handing out fresh nonzero handles (its
    state is the last handle handed out), with
    the knobs that the examples turn: the platform strings, the devices
    present, the error code left by the setup kernel, the network file,
    and the status forced on chosen calls. *)

Record board := {
  b_version : string;
  b_name : string;
  b_dsp : list handle;
  b_compute_units : Z;
  b_eve : list handle;
  b_errorCode : Z;
  b_net : sTIDL_Network_t;
  b_force : call → option cl_int
}.

Definition empty_net : sTIDL_Network_t :=
  {| numLayers := 0; interElementSize := 0; TIDLLayers := [] |}.

Definition answer (st : cl_int) (h : handle) (hs : list handle) (v : Z)
    (s : string) (n : sTIDL_Network_t) : response :=
  {| status := st; r_handle := h; r_handles := hs; r_value := v;
     r_string := s; r_net := n |}.

Definition with_status (st : cl_int) (r : response) : response :=
  {| status := st; r_handle := r_handle r; r_handles := r_handles r;
     r_value := r_value r; r_string := r_string r; r_net := r_net r |}.

Definition board_answer (b : board) (c : call) (next : N) : response * N :=
  let ok := answer CL_SUCCESS nullptr [] 0 "" empty_net in
  let fresh := (answer CL_SUCCESS (N.succ next) [] 0 "" empty_net,
                N.succ next) in
  match c with
  | clGetPlatformIDs _ => (answer CL_SUCCESS 1%N [] 1 "" empty_net, next)
  | clGetPlatformInfo _ param size =>
      let s := if param =? CL_PLATFORM_VERSION then b_version b else b_name b in
      (answer CL_SUCCESS nullptr [] (Z.of_nat (S (String.length s)))
              (if decide (size = 0%nat) then "" else s) empty_net, next)
  | clGetDeviceIDs t n =>
      let devs := if t =? CL_DEVICE_TYPE_ACCELERATOR then b_dsp b else b_eve b in
      (answer (if decide (devs = []) then -1 else CL_SUCCESS) nullptr
              (take n devs) (Z.of_nat (length devs)) "" empty_net, next)
  | clGetDeviceInfo _ param =>
      (answer CL_SUCCESS nullptr []
              (if param =? CL_DEVICE_MAX_COMPUTE_UNITS then b_compute_units b
               else 750) "" empty_net, next)
  | clCreateSubDevices _ _ n =>
      (answer CL_SUCCESS nullptr
              (if decide (n = 0%nat) then []
               else [N.succ next; N.succ (N.succ next)])
              2 "" empty_net,
       if decide (n = 0%nat) then next else N.succ (N.succ next))
  | clCreateContextFromType _ | clCreateContext _
  | clCreateCommandQueue _ _ _ | clCreateProgramWithBinary _ _ _
  | clCreateProgramWithBuiltInKernels _ _ _ | clCreateKernel _ _
  | clEnqueueTask _ _ | clCreateBuffer _ _ _ _ | malloc_ddr _ => fresh
  | is_in_malloced_region _ => (with_status 1 ok, next)
  | GetBinaryFileSize _ => (answer CL_SUCCESS nullptr [] 64 "" empty_net, next)
  | ReadBinary _ _ _ => (answer 1 nullptr [] 0 "" (b_net b), next)
  | load_errorCode _ =>
      (answer CL_SUCCESS nullptr [] (b_errorCode b) "" empty_net, next)
  | _ => (ok, next)
  end.

Definition board_exec (b : board) (c : call) (next : N) : response * N :=
  let '(r, next') := board_answer b c next in
  match b_force b c with
  | Some st => (with_status st r, next')
  | None => (r, next')
  end.

Definition board_platform (b : board) : Platform :=
  {| plat := N; exec := board_exec b |}.

(** An AM57x board with two C66x DSPs seen as one device with two
    compute units, and two EVEs. *)
Definition am57x : board :=
  {| b_version := "OpenCL 1.1 TI product version 01.01.17.00 (Release)";
     b_name := "TI AM57x";
     b_dsp := [10%N];
     b_compute_units := 2;
     b_eve := [20%N; 21%N];
     b_errorCode := 0;
     b_net := {| numLayers := 3; interElementSize := 1;
                 TIDLLayers := [ {| layerType := 0; layersGroupId := 0 |};
                                 {| layerType := 1; layersGroupId := 1 |};
                                 {| layerType := 5; layersGroupId := 2 |} ] |};
     b_force := λ _, None |}.


Definition set_b_compute_units (b : board) (n : Z) : board :=
  {| b_version := b_version b; b_name := b_name b; b_dsp := b_dsp b;
     b_compute_units := n; b_eve := b_eve b;
     b_errorCode := b_errorCode b; b_net := b_net b; b_force := b_force b |}.


Definition set_b_version (b : board) (v : string) : board :=
  {| b_version := v; b_name := b_name b; b_dsp := b_dsp b;
     b_compute_units := b_compute_units b; b_eve := b_eve b;
     b_errorCode := b_errorCode b; b_net := b_net b; b_force := b_force b |}.

(** Values for the constants of the absent headers, for the examples. *)
Definition headers : Headers :=
  {| MAX_DEVICES := 4;
     NUM_CONTEXTS := 2;
     ocl_wrapper_dsp_bin_len := 4096;
     sizeof_cl_mem := 4;
     ocl_device_cpp := "src/ocl_device.cpp";
     OCL_TIDL_SUCCESS := 0;
     OCL_TIDL_ERROR := 1;
     OCL_TIDL_ALLOC_FAIL := 2;
     OCL_TIDL_MEMREC_ALLOC_FAIL := 3;
     OCL_TIDL_PROCESS_FAIL := 4;
     OCL_TIDL_CREATE_PARAMS_MISMATCH := 5;
     OCL_TIDL_TRACE_OFF := 0;
     TIDL_DataLayer := 0;
     TIDL_optimiseExtMemL1 := 1;
     DMEM0_SIZE := 8192;
     DMEM1_SIZE := 131072;
     OCMC_SIZE := 327680;
     QUANT_HISTORY_PARAM1 := 20;
     QUANT_HISTORY_PARAM2 := 5;
     QUANT_MARGIN := 0;
     sizeof_TIDL_CreateParams := 2048;
     sizeof_sTIDL_Network_t := 1024;
     sizeof_OCL_TIDL_SetupParams := 32;
     offsetof_net := 64;
     SETUP_KERNEL := "ocl_tidl_setup";
     INIT_KERNEL := "ocl_tidl_initialize";
     PROCESS_KERNEL := "ocl_tidl_process";
     CLEANUP_KERNEL := "ocl_tidl_cleanup";
     BUILD_VER := "01.02.00";
     BUILD_SHA := "4f2a9c1";
     executor_cpp := "src/executor.cpp";
     default_Configuration :=
       {| netBinFile := ""; paramsBinFile := ""; runFullNet := false;
          PARAM_HEAP_SIZE := 0; EXTMEM_HEAP_SIZE := 0;
          cfg_noZeroCoeffsPercentage := 100; enableInternalInput := false |};
     DeviceArgInfo_of := λ a,
       {| arg_ptr := ptr_m a; arg_size := size_m a; arg_kind := BUFFER;
          arg_isLocal := false |};
     eo_kernel_args := λ _ create_arg param_heap_arg _ _,
       [ {| arg_ptr := ptr_m create_arg; arg_size := size_m create_arg;
            arg_kind := BUFFER; arg_isLocal := false |};
         {| arg_ptr := ptr_m param_heap_arg; arg_size := size_m param_heap_arg;
            arg_kind := BUFFER; arg_isLocal := false |} ] |}.

Definition mnist_config : Configuration :=
  {| netBinFile := "tidl_net_mnist.bin";
     paramsBinFile := "tidl_param_mnist.bin";
     runFullNet := true;
     PARAM_HEAP_SIZE := 1024;
     EXTMEM_HEAP_SIZE := 2048;
     cfg_noZeroCoeffsPercentage := 100;
     enableInternalInput := false |}.

Definition boot (b : board) : @world (board_platform b) :=
  @Build_world (board_platform b) 100%N [].


(** The same board with its two DSPs seen as one compute unit. *)
Definition am57x_single : board := set_b_compute_units am57x 1.




(** A machine with another OpenCL implementation and no accelerator. *)
Definition pocl_host : board :=
  {| b_version := "OpenCL 2.0 pocl 1.8";
     b_name := "Portable Computing Language";
     b_dsp := []; b_compute_units := 0; b_eve := [];
     b_errorCode := 0; b_net := empty_net; b_force := λ _, None |}.

(** A device and a kernel as the constructors leave them on [am57x]. *)
Definition demo_device : Device :=
  {| device_type_m := CL_DEVICE_TYPE_ACCELERATOR;
     device_ids_m := {[ID0; ID1]};
     queue_m := [103%N; 104%N; 0%N; 0%N];
     context_m := 102%N; program_m := 105%N; freq_in_mhz_m := 750 |}.

Definition demo_kernel : Kernel :=
  {| name_m := "ocl_tidl_process"; device_m := demo_device;
     device_index_m := 1; kernel_m := 119%N;
     event_m := [0%N; 0%N]; buffers_m := [120%N; 121%N] |}.

Definition demo_executor : ExecutorImpl :=
  {| configuration_m := mnist_config;
     shared_networkparam_heap_m := nullptr;
     ei_device_ids_m := {[ID0; ID1]};
     core_type_m := DSP;
     layers_group_id_m := 1;
     ei_device_m := demo_device;
     execution_objects_m := [] |}.

Definition demo_arg (p : handle) : DeviceArgInfo :=
  {| arg_ptr := p; arg_size := 784; arg_kind := BUFFER; arg_isLocal := false |}.

(** * Properties *)

Section Properties.

Context `{Platform} `{Headers}.

(** The calls issued between two worlds. *)
Definition issued (w w' : world) : list (call * response) :=
  drop (length (w_log w)) (w_log w').

(** The calls whose status the host hands to [errorCheck]. *)
Definition checked (c : call) : bool :=
  match c with
  | clGetDeviceIDs _ _ | clCreateContextFromType _ | clCreateSubDevices _ _ _
  | clCreateContext _ | clCreateCommandQueue _ _ _
  | clCreateProgramWithBinary _ _ _ | clBuildProgram _ _ _
  | clCreateProgramWithBuiltInKernels _ _ _ | clCreateKernel _ _
  | clEnqueueTask _ _ | clWaitForEvents _ | clReleaseEvent _
  | clCreateBuffer _ _ _ _ => true
  | clGetDeviceInfo _ param => param =? CL_DEVICE_MAX_CLOCK_FREQUENCY
  | _ => false
  end.

(** No checked call of the list has failed. *)
Definition clean (l : list (call * response)) : Prop :=
  Forall (λ cr, checked cr.1 = true → status cr.2 = CL_SUCCESS) l.

(** The two exceptions of executor construction: the DSP device count
    is not one, or the setup kernel left an error code. *)
Definition setup_exception (e : exn) : Prop :=
  e = Exception_str "OpenCL DSP device not found" ocl_device_cpp
                    "DspDevice" 73 ∨
  ∃ errorCode, errorCode ≠ OCL_TIDL_SUCCESS ∧
    e = Exception_code errorCode executor_cpp "InitializeNetworkParams" 174.

(** How a computation may end, given the calls [l] it issued: a failed
    checked call is the last call and its status is the exit code;
    every other way out has seen checked calls succeed only, and an
    exception thrown is one of those [allowed]. *)
Definition fatal (allowed : exn → Prop) {A} (res : result A)
    (l : list (call * response)) : Prop :=
  match res with
  | Ret _ | AssertFail => clean l
  | Throw e => clean l ∧ allowed e
  | Exit code =>
      code ≠ CL_SUCCESS ∧
      ∃ l0 c r, l = l0 ++ [(c, r)] ∧ clean l0 ∧ checked c = true ∧
                status r = code
  | UB => True
  end.

Definition sat (allowed : exn → Prop) {A} (m : M A) : Prop :=
  ∀ w, ∃ l, w_log (m w).2 = w_log w ++ l ∧ fatal allowed (m w).1 l.

(** The accesses to device-visible memory. *)
Definition is_load (c : call) : bool :=
  match c with
  | load_errorCode _ => true
  | _ => false
  end.

Definition is_store (c : call) : bool :=
  match c with
  | store_CreateParams _ _ => true
  | _ => false
  end.

Definition is_memory (c : call) : bool :=
  match c with
  | load_errorCode _ | store_CreateParams _ _ | store_SetupParams _ _ => true
  | _ => false
  end.

(** A kind of call that is an access to device-visible memory. *)
Definition memory_only (hide : call → bool) : Prop :=
  ∀ c, is_memory c = false → hide c = false.

(** A list of calls without calls of the kind [hide]. *)
Definition without (hide : call → bool) (l : list (call * response)) : Prop :=
  Forall (λ cr, hide cr.1 = false) l.

(** A computation that issues no call of the kind [hide]. *)
Definition quiet (hide : call → bool) {A} (m : M A) : Prop :=
  ∀ w, ∃ l, w_log (m w).2 = w_log w ++ l ∧ without hide l.

(** A computation that always returns. *)
Definition returns {A} (m : M A) : Prop :=
  ∀ w, ∃ a, (m w).1 = Ret a.




(** A computation that throws no exception. *)
Definition nothrow {A} (m : M A) : Prop :=
  ∀ w ex, (m w).1 ≠ Throw ex.






(** The queue-opening calls of a list of calls. *)
Definition is_queue_call (cr : call * response) : bool :=
  match cr.1 with
  | clCreateCommandQueue _ _ _ => true
  | _ => false
  end.

Definition queue_calls (l : list (call * response))
    : list (call * response) :=
  List.filter is_queue_call l.

(** One queue-opening call per unit id of [ids], in order, each on the
    device that [devices] holds at the index of the id, with the
    answers [rs]. *)
Definition queues_for (context : handle) (devices : list handle) (props : Z)
    (ids : list DeviceId) (rs : list response) : list (call * response) :=
  zip_with (λ id r, (clCreateCommandQueue context
                       (devices !!! DeviceId_to_nat id) props, r)) ids rs.

(** The device [d] has exactly one queue per requested unit id and no
    others: [opened] are the queue-opening calls of its construction. *)
Definition one_queue_per_id (d : Device) (devices : list handle) (props : Z)
    (ids : DeviceIds) (opened : list (call * response)) : Prop :=
  ∃ rs,
    length rs = size_of ids ∧
    opened = queues_for (context_m d) devices props (elements_of ids) rs ∧
    (∀ k id r, elements_of ids !! k = Some id → rs !! k = Some r →
       queue_m d !! DeviceId_to_nat id = Some (r_handle r)) ∧
    (∀ i, (i < MAX_DEVICES)%nat → (∀ id, id ∈ ids → DeviceId_to_nat id ≠ i) →
       queue_m d !! i = Some nullptr).

(** The error codes that [error2string] knows by name. *)
Definition known_error (err : cl_int) : bool :=
  (-12 <=? err) && (err <=? 0) || (-63 <=? err) && (err <=? -30).

Definition error_codes : list Z :=
  (λ n, - Z.of_nat n) <$> (seq 0 13 ++ seq 30 34).

(** The buffers that the calls of [l] created and that are not null,
    in order. *)
Definition created_buffers (l : list (call * response)) : list handle :=
  omap (λ cr, match cr.1 with
              | clCreateBuffer _ _ _ _ =>
                  if (r_handle cr.2 =? nullptr)%N then None
                  else Some (r_handle cr.2)
              | _ => None
              end) l.

(** The kernel arguments that the calls of [l] set: kernel, index and
    size. *)
Definition set_args (l : list (call * response)) : list (handle * nat * N) :=
  omap (λ cr, match cr.1 with
              | clSetKernelArg k i sz _ => Some (k, i, sz)
              | _ => None
              end) l.

(** The arguments that [Kernel::Kernel] sets for the argument list
    [args], counting from [n]: a local argument and a scalar with their
    size, a buffer with the size of a [cl_mem]; an argument of any
    other kind is passed over, and keeps its index. *)
Definition args_to_set (kernel : handle) (n : nat) (args : list DeviceArgInfo)
    : list (handle * nat * N) :=
  omap (λ ia : nat * DeviceArgInfo,
          let '(i, a) := ia in
          if arg_isLocal a then Some (kernel, i, arg_size a)
          else match arg_kind a with
               | BUFFER => Some (kernel, i, sizeof_cl_mem)
               | SCALAR => Some (kernel, i, arg_size a)
               | LOCAL => None
               end)
       (imap (λ i a, ((n + i)%nat, a)) args).

(** The calls that only ask the platform. *)
Definition is_query (c : call) : bool :=
  match c with
  | clGetPlatformIDs _ | clGetPlatformInfo _ _ _ | clGetDeviceIDs _ _
  | clGetDeviceInfo _ _ => true
  | _ => false
  end.

(** The calls that allocate or free device-visible memory. *)
Definition is_alloc (c : call) : bool :=
  match c with
  | malloc_ddr _ | free_ddr _ => true
  | _ => false
  end.

(** The pointers that the calls of [l] allocated, and the pointers
    that they freed, in order. *)
Definition mallocs (l : list (call * response)) : list handle :=
  omap (λ cr, match cr.1 with
              | malloc_ddr _ => Some (r_handle cr.2)
              | _ => None
              end) l.

Definition frees (l : list (call * response)) : list handle :=
  omap (λ cr, match cr.1 with
              | free_ddr p => Some p
              | _ => None
              end) l.

(** An outcome after which the caller goes on: a return or an
    exception. *)
Definition completes {A} (res : result A) : Prop :=
  match res with
  | Ret _ | Throw _ => True
  | _ => False
  end.



(** The calls that create a buffer or release a buffer or a kernel. *)
Definition is_buffer_call (c : call) : bool :=
  match c with
  | clCreateBuffer _ _ _ _ | clReleaseMemObject _ | clReleaseKernel _ => true
  | _ => false
  end.

Definition is_release (c : call) : bool :=
  match c with
  | clReleaseMemObject _ | clReleaseKernel _ => true
  | _ => false
  end.

Lemma bind_run {A B} (m : M A) (f : A → M B) (w : world) :
  (m ≫= f) w =
  match m w with
  | (Ret a, w') => f a w'
  | (r, w') => (cast_result r UB, w')
  end.
Proof. reflexivity. Qed.

Lemma issued_app (w w' : world) l :
  w_log w' = w_log w ++ l → issued w w' = l.
Proof. intros E. unfold issued. rewrite E. by rewrite drop_app_length. Qed.

(** *** Inversion of a run that returns *)

Lemma bind_Ret_inv {A B} (m : M A) (f : A → M B) (w w' : world) b :
  (m ≫= f) w = (Ret b, w') →
  ∃ a w1, m w = (Ret a, w1) ∧ f a w1 = (Ret b, w').
Proof.
  rewrite bind_run. destruct (m w) as [[a| | | |] w1]; try discriminate.
  intros E. by exists a, w1.
Qed.

Lemma mret_inv {A} (a b : A) (w w' : world) :
  (mret a : M A) w = (Ret b, w') → a = b ∧ w' = w.
Proof. by intros [= -> ->]. Qed.

Lemma cl_inv (c : call) (w w' : world) r :
  cl c w = (Ret r, w') →
  w_log w' = w_log w ++ [(c, r)] ∧ exec c (w_plat w) = (r, w_plat w').
Proof.
  unfold cl. destruct (exec c (w_plat w)) as [r0 s]. by intros [= -> <-].
Qed.

Lemma errorCheck_inv (st : cl_int) (line : nat) (w w' : world) u :
  errorCheck st line w = (Ret u, w') → st = CL_SUCCESS ∧ w' = w.
Proof.
  unfold errorCheck. destruct (st =? CL_SUCCESS) eqn:E; [|discriminate].
  apply Z.eqb_eq in E. by intros [= _ ->].
Qed.

Lemma assert_inv (b : bool) (w w' : world) u :
  assert b w = (Ret u, w') → b = true ∧ w' = w.
Proof. destruct b; [|discriminate]. by intros [= _ ->]. Qed.

Lemma array_get_inv {A} (a : list A) (i : nat) (w w' : world) x :
  array_get a i w = (Ret x, w') → a !! i = Some x ∧ w' = w.
Proof.
  unfold array_get. destruct (a !! i); [|discriminate]. by intros [= -> ->].
Qed.

Lemma array_set_inv {A} (a : list A) (i : nat) (x : A) (w w' : world) a' :
  array_set a i x w = (Ret a', w') →
  (i < length a)%nat ∧ a' = <[i:=x]> a ∧ w' = w.
Proof.
  unfold array_set. destruct (decide _); [|discriminate].
  by intros [= <- ->].
Qed.

Lemma throw_inv {A} (e : exn) (w w' : world) (a : A) :
  throw e w = (Ret a, w') → False.
Proof. discriminate. Qed.

Lemma undefined_inv {A} (w w' : world) (a : A) :
  undefined w = (Ret a, w') → False.
Proof. discriminate. Qed.

Lemma scoped_Ret_inv {A} (dtor : M unit) (body : M A) (w w' : world) a :
  scoped dtor body w = (Ret a, w') →
  ∃ w1 u, body w = (Ret a, w1) ∧ dtor w1 = (Ret u, w').
Proof.
  unfold scoped. destruct (body w) as [[b|e|code| |] w1]; try discriminate.
  - destruct (dtor w1) as [[u|?|?| |] w2] eqn:Hd; cbn [cast_result];
      try discriminate.
    intros [= -> ->]. by exists w1, u.
  - destruct (dtor w1) as [[u|?|?| |] w2]; cbn [cast_result]; discriminate.
Qed.

(** Take a returning run apart, one statement at a time. *)
Ltac minv H :=
  cbv beta zeta in H;
  lazymatch type of H with
  | mbind _ _ _ = (Ret _, _) =>
      let a := fresh "a" in
      let w := fresh "w" in
      let H1 := fresh "H" in
      apply bind_Ret_inv in H; destruct H as (a & w & H1 & H);
      minv H1; minv H
  | mret _ _ = (Ret _, _) =>
      apply mret_inv in H; destruct H as [? ?]; simplify_eq
  | cl _ _ = (Ret _, _) =>
      let Hl := fresh "Hlog" in
      let Hx := fresh "Hexec" in
      apply cl_inv in H; destruct H as [Hl Hx]
  | errorCheck _ _ _ = (Ret _, _) =>
      let Hs := fresh "Hstatus" in
      apply errorCheck_inv in H; destruct H as [Hs ->]
  | assert _ _ = (Ret _, _) =>
      let Hs := fresh "Hassert" in
      apply assert_inv in H; destruct H as [Hs ->]
  | array_get _ _ _ = (Ret _, _) =>
      let Hs := fresh "Hget" in
      apply array_get_inv in H; destruct H as [Hs ->]
  | array_set _ _ _ _ = (Ret _, _) =>
      let Hs := fresh "Hbound" in
      apply array_set_inv in H; destruct H as (Hs & -> & ->)
  | scoped _ _ _ = (Ret _, _) =>
      let w := fresh "w" in
      let u := fresh "u" in
      let H1 := fresh "Hdtor" in
      apply scoped_Ret_inv in H; destruct H as (w & u & H & H1); minv H
  | throw _ _ = (Ret _, _) => by apply throw_inv in H
  | undefined _ = (Ret _, _) => by apply undefined_inv in H
  | (if ?b then _ else _) _ = (Ret _, _) =>
      let E := fresh "Hif" in
      destruct b eqn:E; minv H
  | (let '(_, _) := ?p in _) _ = (Ret _, _) =>
      destruct p; minv H
  | _ => idtac
  end.

Lemma string_length_app (s t : string) :
  String.length (s +:+ t) = (String.length s + String.length t)%nat.
Proof. induction s as [|c s IH]; simpl; [done|]. by rewrite IH. Qed.

Lemma string_app_assoc (a b c : string) : (a +:+ b) +:+ c = a +:+ b +:+ c.
Proof.
  induction a as [|x a IH]; [done|].
  change (String x ((a +:+ b) +:+ c) = String x (a +:+ b +:+ c)).
  by rewrite IH.
Qed.


(** ** Kernel::Wait *)

(** C1.  [Wait] on a context slot whose stored completion handle is
    null returns false and leaves the kernel, the platform state and
    the log of calls as they were: nothing is waited for, nothing is
    thrown, nothing else changes. *)
Theorem Kernel_Wait_without_RunAsync (k : Kernel) (context_idx : nat)
    (w : world) :
  event_m k !! context_idx = Some nullptr →
  Kernel_Wait k context_idx w = (Ret (false, k), w).
Proof.
  intros Hslot. unfold Kernel_Wait, array_get.
  rewrite bind_run, Hslot. reflexivity.
Qed.

(** A kernel leaves its constructor with every completion slot null. *)
Lemma Kernel_ctor_events device name args idx (w w' : world) k :
  Kernel_ctor device name args idx w = (Ret k, w') →
  event_m k = replicate NUM_CONTEXTS nullptr.
Proof.
  unfold Kernel_ctor. intros Hrun. minv Hrun. reflexivity.
Qed.

(** C10.  After [RunAsync] on a slot and a [Wait] on it that returns
    true, the handle that [clEnqueueTask] handed to [RunAsync] was not
    null, it has been waited for and released, the slot is null again,
    and one more [Wait] on the slot returns false without issuing any
    call. *)
Theorem Kernel_Wait_one_shot (k k1 k2 : Kernel) (context_idx : nat)
    (w w1 w2 : world) :
  Kernel_RunAsync k context_idx w = (Ret k1, w1) →
  Kernel_Wait k1 context_idx w1 = (Ret (true, k2), w2) →
  (∃ queue r0 r1 r2,
      issued w w1 = [(clEnqueueTask queue (kernel_m k), r0)] ∧
      r_handle r0 ≠ nullptr ∧
      issued w1 w2 = [(clWaitForEvents (r_handle r0), r1);
                      (clReleaseEvent (r_handle r0), r2)]) ∧
  event_m k2 !! context_idx = Some nullptr ∧
  Kernel_Wait k2 context_idx w2 = (Ret (false, k2), w2).
Proof.
  intros Hrun Hwait.
  unfold Kernel_RunAsync in Hrun. minv Hrun.
  unfold Kernel_Wait in Hwait. minv Hwait.
  cbn [event_m set_event_m] in *.
  match goal with
  | Hg : <[_:=_]> _ !! _ = Some _ |- _ =>
      rewrite list_lookup_insert_eq in Hg by done; injection Hg as <-
  end.
  match goal with
  | |- _ ∧ ?l !! _ = _ ∧ _ =>
      assert (Hslot : l !! context_idx = Some nullptr)
        by (apply list_lookup_insert_eq; by rewrite length_insert)
  end.
  split; [|split].
  - do 4 eexists. split; [by apply issued_app|].
    split; [by apply N.eqb_neq|].
    apply issued_app. rewrite Hlog1, Hlog0. by rewrite <- app_assoc.
  - exact Hslot.
  - by apply Kernel_Wait_without_RunAsync.
Qed.

(** *** Running a computation forward *)

Lemma cl_run (c : call) (w : world) :
  cl c w = (Ret (exec c (w_plat w)).1,
            {| w_plat := (exec c (w_plat w)).2;
               w_log := w_log w ++ [(c, (exec c (w_plat w)).1)] |}).
Proof. unfold cl. by destruct (exec c (w_plat w)). Qed.

Lemma errorCheck_run (st : cl_int) (line : nat) (w : world) :
  errorCheck st line w = if st =? CL_SUCCESS then (Ret tt, w) else (Exit st, w).
Proof. unfold errorCheck. by destruct (st =? CL_SUCCESS). Qed.

(** ** Device::CreateBuffer *)

(** C6.  On a platform whose [clCreateBuffer] hands back a non-null
    buffer whenever it reports success, [CreateBuffer] returns the
    null handle exactly when the descriptor's host pointer is null, and
    then issues no call.  For a non-null host pointer it asks whether
    the pointer lies in device-visible memory and creates one buffer
    on the device's context, read-write, with the use-host-pointer
    flag when it does and the copy-host-pointer flag when it does not;
    the flags depend on nothing else. *)
Theorem Device_CreateBuffer_policy (d : Device) (Arg : DeviceArgInfo)
    (w : world) :
  (∀ ctx flags size p s,
      status (exec (clCreateBuffer ctx flags size p) s).1 = CL_SUCCESS →
      r_handle (exec (clCreateBuffer ctx flags size p) s).1 ≠ nullptr) →
  ((Device_CreateBuffer d Arg w).1 = Ret nullptr ↔ arg_ptr Arg = nullptr) ∧
  (arg_ptr Arg = nullptr → (Device_CreateBuffer d Arg w).2 = w) ∧
  (arg_ptr Arg ≠ nullptr →
   ∃ r1 r2,
     issued w (Device_CreateBuffer d Arg w).2 =
       [(is_in_malloced_region (arg_ptr Arg), r1);
        (clCreateBuffer (context_m d)
           (Z.lor CL_MEM_READ_WRITE
                  (if status r1 =? 0 then CL_MEM_COPY_HOST_PTR
                   else CL_MEM_USE_HOST_PTR))
           (arg_size Arg) (arg_ptr Arg), r2)] ∧
     (Device_CreateBuffer d Arg w).1 =
       if status r2 =? CL_SUCCESS then Ret (r_handle r2) else Exit (status r2)).
Proof.
  intros Hdriver. unfold Device_CreateBuffer.
  destruct (arg_ptr Arg =? nullptr)%N eqn:Hptr.
  - apply N.eqb_eq in Hptr. by repeat split.
  - apply N.eqb_neq in Hptr.
    rewrite bind_run, cl_run.
    set (r1 := (exec (is_in_malloced_region (arg_ptr Arg)) (w_plat w)).1).
    set (s1 := (exec (is_in_malloced_region (arg_ptr Arg)) (w_plat w)).2).
    set (flag := if negb (status r1 =? 0)
                 then Z.lor CL_MEM_READ_WRITE CL_MEM_USE_HOST_PTR
                 else Z.lor CL_MEM_READ_WRITE CL_MEM_COPY_HOST_PTR).
    assert (Hflag : flag = Z.lor CL_MEM_READ_WRITE
              (if status r1 =? 0 then CL_MEM_COPY_HOST_PTR
               else CL_MEM_USE_HOST_PTR))
      by (unfold flag; by destruct (status r1 =? 0)).
    rewrite bind_run, cl_run. cbn [w_plat w_log].
    set (c2 := clCreateBuffer (context_m d) flag (arg_size Arg) (arg_ptr Arg)).
    specialize (Hdriver (context_m d) flag (arg_size Arg) (arg_ptr Arg) s1).
    fold c2 in Hdriver.
    set (r2 := (exec c2 s1).1) in *.
    rewrite bind_run, errorCheck_run.
    assert (Hissued :
      issued w {| w_plat := (exec c2 s1).2;
                  w_log := (w_log w ++
                    [(is_in_malloced_region (arg_ptr Arg), r1)]) ++
                    [(c2, r2)] |} =
      [(is_in_malloced_region (arg_ptr Arg), r1); (c2, r2)]).
    { apply issued_app. cbn [w_log]. by rewrite <- app_assoc. }
    destruct (status r2 =? CL_SUCCESS) eqn:Hst.
    + apply Z.eqb_eq in Hst. cbn [fst snd cast_result].
      split; [|split].
      * split; [|done]. intros [= Hnull]. by apply Hdriver in Hnull.
      * done.
      * intros _. exists r1, r2. rewrite <- Hflag. fold c2.
        split; [apply Hissued|].
        by rewrite Hst.
    + cbn [fst snd cast_result]. split; [|split].
      * split; [discriminate|done].
      * done.
      * intros _. exists r1, r2. rewrite <- Hflag. fold c2.
        split; [apply Hissued|]. by rewrite Hst.
Qed.

(** ** Executor::GetAPIVersion *)

(** C5 does not hold of the code: the version string is kept in a
    function-local static and every call appends ".<sha>" to it
    again.  The first call returns <version>.<sha>; each further call
    returns the previous result followed by ".<sha>", a different
    string. *)
Theorem GetAPIVersion_grows (version : option string) :
  (Executor_GetAPIVersion None).1 = BUILD_VER +:+ "." +:+ BUILD_SHA ∧
  (Executor_GetAPIVersion (Executor_GetAPIVersion version).2).1 =
    (Executor_GetAPIVersion version).1 +:+ "." +:+ BUILD_SHA ∧
  (Executor_GetAPIVersion (Executor_GetAPIVersion version).2).1 ≠
    (Executor_GetAPIVersion version).1.
Proof.
  unfold Executor_GetAPIVersion. cbn [fst snd].
  split; [apply string_app_assoc|]. split; [apply string_app_assoc|].
  intros E. apply (f_equal String.length) in E.
  rewrite !string_length_app in E. simpl in E. lia.
Qed.

(** ** The full-network override *)



(** ** Failures during construction *)

Lemma clean_app (l1 l2 : list (call * response)) :
  clean l1 → clean l2 → clean (l1 ++ l2).
Proof. apply Forall_app_2. Qed.

Lemma fatal_prepend allowed {A} (res : result A)
    (l1 l2 : list (call * response)) :
  clean l1 → fatal allowed res l2 → fatal allowed res (l1 ++ l2).
Proof.
  intros Hc. destruct res as [a|e|code| |]; cbn [fatal].
  - by apply clean_app.
  - intros [Hl He]. split; [by apply clean_app|done].
  - intros (Hcode & l0 & c & r & -> & Hl0 & Hck & Hst). split; [done|].
    exists (l1 ++ l0), c, r. rewrite <- app_assoc.
    split; [done|]. split; [by apply clean_app|done].
  - by apply clean_app.
  - done.
Qed.

Lemma fatal_cast allowed {A B} (res : result A) (d : result B)
    (l : list (call * response)) :
  (∀ a, res ≠ Ret a) → fatal allowed res l →
  fatal allowed (cast_result res d) l.
Proof. destruct res; cbn; try done. intros Hn. by destruct (Hn a). Qed.

Lemma sat_ret allowed {A} (a : A) : sat allowed (mret a).
Proof. intros w. exists []. split; [by rewrite app_nil_r|]. by constructor. Qed.

Lemma sat_bind allowed {A B} (m : M A) (f : A → M B) :
  sat allowed m → (∀ a, sat allowed (f a)) → sat allowed (m ≫= f).
Proof.
  intros Hm Hf w. rewrite bind_run.
  destruct (Hm w) as (l1 & Hl1 & H1).
  destruct (m w) as [res w1]. cbn [fst snd] in *.
  destruct res as [a|e|code| |].
  - destruct (Hf a w1) as (l2 & Hl2 & H2). exists (l1 ++ l2).
    split; [by rewrite Hl2, Hl1, app_assoc|]. by apply fatal_prepend.
  - by exists l1.
  - by exists l1.
  - by exists l1.
  - by exists l1.
Qed.

Lemma sat_cl allowed (c : call) : checked c = false → sat allowed (cl c).
Proof.
  intros Hc w. rewrite cl_run. eexists. split; [done|].
  constructor; [|constructor]. cbn. congruence.
Qed.

(** A checked call followed by its [errorCheck]. *)
Lemma sat_cl_check allowed {B} (c : call) (line : nat) (rest : response → M B) :
  checked c = true → (∀ r, sat allowed (rest r)) →
  sat allowed (r ← cl c; errorCheck (status r) line;; rest r).
Proof.
  intros Hc Hrest w. rewrite bind_run, cl_run.
  set (r := (exec c (w_plat w)).1). set (w1 := Build_world _ _).
  rewrite bind_run, errorCheck_run.
  destruct (status r =? CL_SUCCESS) eqn:Hst.
  - apply Z.eqb_eq in Hst. destruct (Hrest r w1) as (l & Hl & Hf).
    exists ([(c, r)] ++ l). split.
    + rewrite Hl. unfold w1. cbn [w_log]. by rewrite <- app_assoc.
    + apply fatal_prepend; [|done]. constructor; [done|constructor].
  - apply Z.eqb_neq in Hst. exists [(c, r)]. split; [done|].
    cbn. split; [done|]. exists [], c, r. split_and!; try done. constructor.
Qed.

(** A checked call whose handle is stored in an array cell before the
    [errorCheck]. *)
Lemma sat_cl_set_check allowed {B} (c : call) (a : list handle) (i : nat)
    (line : nat) (rest : response → list handle → M B) :
  checked c = true → (∀ r q, sat allowed (rest r q)) →
  sat allowed (r ← cl c; q ← array_set a i (r_handle r);
       errorCheck (status r) line;; rest r q).
Proof.
  intros Hc Hrest w. rewrite bind_run, cl_run.
  set (r := (exec c (w_plat w)).1). set (w1 := Build_world _ _).
  rewrite bind_run. unfold array_set.
  destruct (decide (i < length a)%nat); cbn [mret M_ret undefined].
  2:{ exists [(c, r)]. by split. }
  rewrite bind_run, errorCheck_run.
  destruct (status r =? CL_SUCCESS) eqn:Hst.
  - apply Z.eqb_eq in Hst.
    destruct (Hrest r (<[i:=r_handle r]> a) w1) as (l' & Hl & Hf).
    exists ([(c, r)] ++ l'). split.
    + rewrite Hl. unfold w1. cbn [w_log]. by rewrite <- app_assoc.
    + apply fatal_prepend; [|done]. constructor; [done|constructor].
  - apply Z.eqb_neq in Hst. exists [(c, r)]. split; [done|].
    cbn. split; [done|]. exists [], c, r. split_and!; try done. constructor.
Qed.

Lemma sat_if allowed {A} (b : bool) (m1 m2 : M A) :
  (b = true → sat allowed m1) → (b = false → sat allowed m2) →
  sat allowed (if b then m1 else m2).
Proof. destruct b; auto. Qed.

Lemma sat_throw allowed {A} (e : exn) : allowed e → sat allowed (throw e : M A).
Proof.
  intros He w. exists []. split; [by rewrite app_nil_r|].
  split; [constructor|done].
Qed.

Lemma sat_assert allowed (b : bool) : sat allowed (assert b).
Proof.
  intros w. exists []. split; [by destruct b; rewrite app_nil_r|].
  destruct b; constructor.
Qed.

Lemma sat_undefined allowed {A} : sat allowed (undefined : M A).
Proof. intros w. exists []. split; [by rewrite app_nil_r|done]. Qed.

Lemma sat_array_get allowed {A} (a : list A) (i : nat) :
  sat allowed (array_get a i).
Proof.
  unfold array_get. destruct (a !! i); [apply sat_ret|apply sat_undefined].
Qed.

Lemma sat_array_set allowed {A} (a : list A) (i : nat) (x : A) :
  sat allowed (array_set a i x).
Proof.
  unfold array_set. destruct (decide _); [apply sat_ret|apply sat_undefined].
Qed.

Lemma sat_for_each allowed {A S} (l : list A) (body : A → S → M S) (s : S) :
  (∀ x s, sat allowed (body x s)) → sat allowed (for_each l body s).
Proof.
  intros Hbody. revert s. induction l as [|x l IH]; intros s.
  - apply sat_ret.
  - cbn [for_each]. apply sat_bind; [apply Hbody|apply IH].
Qed.

Lemma sat_map_M allowed {A B} (f : A → M B) (l : list A) :
  (∀ x, sat allowed (f x)) → sat allowed (map_M f l).
Proof.
  intros Hf. induction l as [|x l IH].
  - apply sat_ret.
  - cbn [map_M]. apply sat_bind; [apply Hf|]. intros y.
    apply sat_bind; [apply IH|]. intros ys. apply sat_ret.
Qed.

Lemma sat_scoped allowed {A} (dtor : M unit) (body : M A) :
  sat allowed dtor → sat allowed body → sat allowed (scoped dtor body).
Proof.
  intros Hd Hb w. unfold scoped.
  destruct (Hb w) as (l1 & Hl1 & H1).
  destruct (body w) as [res w1]. cbn [fst snd] in *.
  destruct res as [a|e|code| |]; try by exists l1.
  - destruct (Hd w1) as (l2 & Hl2 & H2).
    destruct (dtor w1) as [res2 w2]. cbn [fst snd] in *.
    exists (l1 ++ l2).
    destruct res2; cbn [cast_result fst snd];
      (split; [by rewrite Hl2, Hl1, app_assoc|]); by apply fatal_prepend.
  - destruct (Hd w1) as (l2 & Hl2 & H2).
    destruct (dtor w1) as [res2 w2]. cbn [fst snd] in *.
    exists (l1 ++ l2). destruct H1 as [Hc He].
    destruct res2; cbn [cast_result fst snd];
      (split; [by rewrite Hl2, Hl1, app_assoc|]);
      by apply fatal_prepend.
Qed.

Create HintDb sat discriminated.

Ltac sat_step :=
  cbv beta zeta;
  lazymatch goal with
  | |- sat _ (mret _) => apply sat_ret
  | |- sat _ (cl _ ≫= _) =>
      first [ apply sat_cl_check; [reflexivity | intros ?]
            | apply sat_cl_set_check; [reflexivity | intros ? ?]
            | apply sat_bind; [apply sat_cl; reflexivity | intros ?] ]
  | |- sat _ (_ ≫= _) => apply sat_bind; [| intros ?]
  | |- sat _ (match ?x with _ => _ end) =>
      first [ apply sat_if; intros ? | destruct x ]
  | |- sat _ (cl _) => apply sat_cl; reflexivity
  | |- sat _ (assert _) => apply sat_assert
  | |- sat _ (array_get _ _) => apply sat_array_get
  | |- sat _ (array_set _ _ _) => apply sat_array_set
  | |- sat _ undefined => apply sat_undefined
  | |- sat _ (for_each _ _ _) => apply sat_for_each; intros ? ?
  | |- sat _ (map_M _ _) => apply sat_map_M; intros ?
  | |- sat _ (scoped _ _) => apply sat_scoped
  end.

Ltac sat_auto := repeat first [ solve [auto with sat] | sat_step ].

Lemma open_queue_sat allowed devices props line id d :
  sat allowed (open_queue devices props line id d).
Proof. unfold open_queue. sat_auto. Qed.
#[local] Hint Resolve open_queue_sat : sat.

Lemma DspDevice_BuildProgramFromBinary_sat allowed d BFN device_ids n :
  sat allowed (DspDevice_BuildProgramFromBinary d BFN device_ids n).
Proof. unfold DspDevice_BuildProgramFromBinary. sat_auto. Qed.
#[local] Hint Resolve DspDevice_BuildProgramFromBinary_sat : sat.

Lemma EveDevice_BuildProgramFromBinary_sat allowed d names device_ids n :
  sat allowed (EveDevice_BuildProgramFromBinary d names device_ids n).
Proof. unfold EveDevice_BuildProgramFromBinary. sat_auto. Qed.
#[local] Hint Resolve EveDevice_BuildProgramFromBinary_sat : sat.

Lemma DspDevice_ctor_sat ids binary_filename :
  sat setup_exception (DspDevice_ctor ids binary_filename).
Proof.
  unfold DspDevice_ctor. sat_auto. apply sat_throw. by left.
Qed.
#[local] Hint Resolve DspDevice_ctor_sat : sat.

Lemma EveDevice_ctor_sat allowed ids kernel_names :
  sat allowed (EveDevice_ctor ids kernel_names).
Proof. unfold EveDevice_ctor. sat_auto. Qed.
#[local] Hint Resolve EveDevice_ctor_sat : sat.

Lemma Device_Create_sat core_type ids name :
  sat setup_exception (Device_Create core_type ids name).
Proof. unfold Device_Create. sat_auto. Qed.
#[local] Hint Resolve Device_Create_sat : sat.

Lemma Device_CreateBuffer_sat allowed d Arg :
  sat allowed (Device_CreateBuffer d Arg).
Proof. unfold Device_CreateBuffer. sat_auto. Qed.
#[local] Hint Resolve Device_CreateBuffer_sat : sat.

Lemma Device_ReleaseBuffer_sat allowed d m :
  sat allowed (Device_ReleaseBuffer d m).
Proof. unfold Device_ReleaseBuffer. sat_auto. Qed.
#[local] Hint Resolve Device_ReleaseBuffer_sat : sat.

Lemma bind_arg_sat allowed device kernel arg st :
  sat allowed (bind_arg device kernel arg st).
Proof. unfold bind_arg. destruct st. sat_auto. Qed.
#[local] Hint Resolve bind_arg_sat : sat.

Lemma Kernel_ctor_sat allowed device name args device_index :
  sat allowed (Kernel_ctor device name args device_index).
Proof. unfold Kernel_ctor. sat_auto. Qed.
#[local] Hint Resolve Kernel_ctor_sat : sat.

Lemma Kernel_RunAsync_sat allowed k context_idx :
  sat allowed (Kernel_RunAsync k context_idx).
Proof. unfold Kernel_RunAsync. sat_auto. Qed.
#[local] Hint Resolve Kernel_RunAsync_sat : sat.

Lemma Kernel_Wait_sat allowed k context_idx :
  sat allowed (Kernel_Wait k context_idx).
Proof. unfold Kernel_Wait. sat_auto. Qed.
#[local] Hint Resolve Kernel_Wait_sat : sat.

Lemma Kernel_dtor_sat allowed k : sat allowed (Kernel_dtor k).
Proof. unfold Kernel_dtor. sat_auto. Qed.
#[local] Hint Resolve Kernel_dtor_sat : sat.

Lemma malloc_ddr_T_sat allowed size : sat allowed (malloc_ddr_T size).
Proof. unfold malloc_ddr_T. sat_auto. Qed.
#[local] Hint Resolve malloc_ddr_T_sat : sat.

Lemma release_ddr_sat allowed p : sat allowed (release_ddr p).
Proof. unfold release_ddr. sat_auto. Qed.
#[local] Hint Resolve release_ddr_sat : sat.

Lemma first_id_sat allowed ids : sat allowed (first_id ids).
Proof. unfold first_id. sat_auto. Qed.
#[local] Hint Resolve first_id_sat : sat.

Lemma force_layer_sat allowed g i layers : sat allowed (force_layer g i layers).
Proof. unfold force_layer. sat_auto. Qed.
#[local] Hint Resolve force_layer_sat : sat.

Lemma Initialize_runFullNet_sat allowed configuration g n :
  sat allowed (Initialize_runFullNet configuration g n).
Proof. unfold Initialize_runFullNet. sat_auto. Qed.
#[local] Hint Resolve Initialize_runFullNet_sat : sat.

Lemma InitializeNetworkParams_sat e cp :
  sat setup_exception (InitializeNetworkParams e cp).
Proof.
  unfold InitializeNetworkParams. sat_auto.
  apply sat_throw. right. eexists. split; [|done].
  match goal with Hc : negb _ = true |- _ =>
    apply negb_true_iff, Z.eqb_neq in Hc; exact Hc end.
Qed.
#[local] Hint Resolve InitializeNetworkParams_sat : sat.

Lemma ExecutionObject_ctor_sat allowed d idx create_arg heap_arg sz internal :
  sat allowed (ExecutionObject_ctor d idx create_arg heap_arg sz internal).
Proof. unfold ExecutionObject_ctor. sat_auto. Qed.
#[local] Hint Resolve ExecutionObject_ctor_sat : sat.

Lemma ExecutionObject_RunAsync_sat allowed ct eo :
  sat allowed (ExecutionObject_RunAsync ct eo).
Proof. unfold ExecutionObject_RunAsync. sat_auto. Qed.
#[local] Hint Resolve ExecutionObject_RunAsync_sat : sat.

Lemma ExecutionObject_Wait_sat allowed ct eo :
  sat allowed (ExecutionObject_Wait ct eo).
Proof. unfold ExecutionObject_Wait. sat_auto. Qed.
#[local] Hint Resolve ExecutionObject_Wait_sat : sat.

Lemma ExecutorImpl_Initialize_sat e configuration :
  sat setup_exception (ExecutorImpl_Initialize e configuration).
Proof. unfold ExecutorImpl_Initialize. sat_auto. Qed.
#[local] Hint Resolve ExecutorImpl_Initialize_sat : sat.

Lemma ExecutorImpl_ctor_sat core_type ids g :
  sat setup_exception (ExecutorImpl_ctor core_type ids g).
Proof. unfold ExecutorImpl_ctor. sat_auto. Qed.
#[local] Hint Resolve ExecutorImpl_ctor_sat : sat.



(** ** Calls that a computation does not issue *)

Lemma is_load_memory_only : memory_only is_load.
Proof. by intros []. Qed.

Lemma is_store_memory_only : memory_only is_store.
Proof. by intros []. Qed.

Lemma quiet_ret hide {A} (a : A) : quiet hide (mret a).
Proof. intros w. exists []. split; [by rewrite app_nil_r|constructor]. Qed.

Lemma quiet_end hide {A} (res : result A) : quiet hide (λ w, (res, w)).
Proof. intros w. exists []. split; [by rewrite app_nil_r|constructor]. Qed.

Lemma quiet_bind hide {A B} (m : M A) (f : A → M B) :
  quiet hide m → (∀ a, quiet hide (f a)) → quiet hide (m ≫= f).
Proof.
  intros Hm Hf w. rewrite bind_run.
  destruct (Hm w) as (l1 & Hl1 & H1).
  destruct (m w) as [res w1]. cbn [fst snd] in *.
  destruct res as [a|e|code| |]; try by exists l1.
  destruct (Hf a w1) as (l2 & Hl2 & H2). exists (l1 ++ l2).
  split; [by rewrite Hl2, Hl1, app_assoc|]. by apply Forall_app_2.
Qed.

Lemma quiet_cl hide (c : call) : hide c = false → quiet hide (cl c).
Proof.
  intros Hc w. rewrite cl_run. eexists. split; [done|].
  constructor; [done|constructor].
Qed.

Lemma quiet_if hide {A} (b : bool) (m1 m2 : M A) :
  quiet hide m1 → quiet hide m2 → quiet hide (if b then m1 else m2).
Proof. by destruct b. Qed.

Lemma quiet_for_each hide {A S} (l : list A) (body : A → S → M S) (s : S) :
  (∀ x s, quiet hide (body x s)) → quiet hide (for_each l body s).
Proof.
  intros Hbody. revert s. induction l as [|x l IH]; intros s.
  - apply quiet_ret.
  - cbn [for_each]. apply quiet_bind; [apply Hbody|apply IH].
Qed.

Lemma quiet_map_M hide {A B} (f : A → M B) (l : list A) :
  (∀ x, quiet hide (f x)) → quiet hide (map_M f l).
Proof.
  intros Hf. induction l as [|x l IH].
  - apply quiet_ret.
  - cbn [map_M]. apply quiet_bind; [apply Hf|]. intros y.
    apply quiet_bind; [apply IH|]. intros ys. apply quiet_ret.
Qed.

Lemma quiet_scoped hide {A} (dtor : M unit) (body : M A) :
  quiet hide dtor → quiet hide body → quiet hide (scoped dtor body).
Proof.
  intros Hd Hb w. unfold scoped.
  destruct (Hb w) as (l1 & Hl1 & H1).
  destruct (body w) as [res w1]. cbn [fst snd] in *.
  destruct res as [a|e|code| |]; try by exists l1.
  - destruct (Hd w1) as (l2 & Hl2 & H2).
    destruct (dtor w1) as [res2 w2]. cbn [fst snd] in *.
    exists (l1 ++ l2).
    destruct res2; cbn [cast_result fst snd];
      (split; [by rewrite Hl2, Hl1, app_assoc|]); by apply Forall_app_2.
  - destruct (Hd w1) as (l2 & Hl2 & H2).
    destruct (dtor w1) as [res2 w2]. cbn [fst snd] in *.
    exists (l1 ++ l2).
    destruct res2; cbn [cast_result fst snd];
      (split; [by rewrite Hl2, Hl1, app_assoc|]); by apply Forall_app_2.
Qed.

Create HintDb quiet discriminated.
#[local] Hint Resolve is_load_memory_only is_store_memory_only : quiet.

Ltac quiet_step :=
  cbv beta zeta;
  lazymatch goal with
  | |- quiet _ (mret _) => apply quiet_ret
  | |- quiet _ (_ ≫= _) => apply quiet_bind; [| intros ?]
  | |- quiet _ (cl _) =>
      apply quiet_cl;
      first [ reflexivity
            | match goal with
              | Hm : memory_only _ |- _ => apply Hm; reflexivity
              end ]
  | |- quiet _ (match ?x with _ => _ end) =>
      first [ apply quiet_if | destruct x ]
  | |- quiet _ (for_each _ _ _) => apply quiet_for_each; intros ? ?
  | |- quiet _ (map_M _ _) => apply quiet_map_M; intros ?
  | |- quiet _ (scoped _ _) => apply quiet_scoped
  | |- quiet _ (assert _) => unfold assert
  | |- quiet _ (errorCheck _ _) => unfold errorCheck
  | |- quiet _ (array_get _ _) => unfold array_get
  | |- quiet _ (array_set _ _ _) => unfold array_set
  | |- quiet _ abort => apply quiet_end
  | |- quiet _ undefined => apply quiet_end
  | |- quiet _ (exit _) => apply quiet_end
  | |- quiet _ (throw _) => apply quiet_end
  end.

Ltac quiet_auto := repeat first [ solve [auto with quiet] | quiet_step ].

Lemma open_queue_quiet hide devices props line id d :
  memory_only hide → quiet hide (open_queue devices props line id d).
Proof. intros Hm. unfold open_queue. quiet_auto. Qed.
#[local] Hint Resolve open_queue_quiet : quiet.

Lemma DspDevice_BuildProgramFromBinary_quiet hide d BFN device_ids n :
  memory_only hide →
  quiet hide (DspDevice_BuildProgramFromBinary d BFN device_ids n).
Proof. intros Hm. unfold DspDevice_BuildProgramFromBinary. quiet_auto. Qed.
#[local] Hint Resolve DspDevice_BuildProgramFromBinary_quiet : quiet.

Lemma EveDevice_BuildProgramFromBinary_quiet hide d names device_ids n :
  memory_only hide →
  quiet hide (EveDevice_BuildProgramFromBinary d names device_ids n).
Proof. intros Hm. unfold EveDevice_BuildProgramFromBinary. quiet_auto. Qed.
#[local] Hint Resolve EveDevice_BuildProgramFromBinary_quiet : quiet.

Lemma Device_Create_quiet hide core_type ids name :
  memory_only hide → quiet hide (Device_Create core_type ids name).
Proof.
  intros Hm. unfold Device_Create, DspDevice_ctor, EveDevice_ctor.
  quiet_auto.
Qed.
#[local] Hint Resolve Device_Create_quiet : quiet.

Lemma malloc_ddr_T_quiet hide size :
  memory_only hide → quiet hide (malloc_ddr_T size).
Proof. intros Hm. unfold malloc_ddr_T. quiet_auto. Qed.
#[local] Hint Resolve malloc_ddr_T_quiet : quiet.

Lemma release_ddr_quiet hide p : memory_only hide → quiet hide (release_ddr p).
Proof. intros Hm. unfold release_ddr. quiet_auto. Qed.
#[local] Hint Resolve release_ddr_quiet : quiet.

Lemma first_id_quiet hide ids : quiet hide (first_id ids).
Proof. unfold first_id. quiet_auto. Qed.
#[local] Hint Resolve first_id_quiet : quiet.

Lemma Device_CreateBuffer_quiet hide d Arg :
  memory_only hide → quiet hide (Device_CreateBuffer d Arg).
Proof. intros Hm. unfold Device_CreateBuffer. quiet_auto. Qed.
#[local] Hint Resolve Device_CreateBuffer_quiet : quiet.

Lemma bind_arg_quiet hide device kernel arg st :
  memory_only hide → quiet hide (bind_arg device kernel arg st).
Proof. intros Hm. unfold bind_arg. destruct st. quiet_auto. Qed.
#[local] Hint Resolve bind_arg_quiet : quiet.

Lemma Kernel_ctor_quiet hide device name args device_index :
  memory_only hide → quiet hide (Kernel_ctor device name args device_index).
Proof. intros Hm. unfold Kernel_ctor. quiet_auto. Qed.
#[local] Hint Resolve Kernel_ctor_quiet : quiet.

Lemma Kernel_RunAsync_quiet hide k context_idx :
  memory_only hide → quiet hide (Kernel_RunAsync k context_idx).
Proof. intros Hm. unfold Kernel_RunAsync. quiet_auto. Qed.
#[local] Hint Resolve Kernel_RunAsync_quiet : quiet.

Lemma Kernel_Wait_quiet hide k context_idx :
  memory_only hide → quiet hide (Kernel_Wait k context_idx).
Proof. intros Hm. unfold Kernel_Wait. quiet_auto. Qed.
#[local] Hint Resolve Kernel_Wait_quiet : quiet.

Lemma Kernel_dtor_quiet hide k : memory_only hide → quiet hide (Kernel_dtor k).
Proof. intros Hm. unfold Kernel_dtor, Device_ReleaseBuffer. quiet_auto. Qed.
#[local] Hint Resolve Kernel_dtor_quiet : quiet.

Lemma ExecutionObject_ctor_quiet hide d idx create_arg heap_arg sz internal :
  memory_only hide →
  quiet hide (ExecutionObject_ctor d idx create_arg heap_arg sz internal).
Proof. intros Hm. unfold ExecutionObject_ctor. quiet_auto. Qed.
#[local] Hint Resolve ExecutionObject_ctor_quiet : quiet.

Lemma ExecutionObject_RunAsync_quiet hide ct eo :
  memory_only hide → quiet hide (ExecutionObject_RunAsync ct eo).
Proof. intros Hm. unfold ExecutionObject_RunAsync. quiet_auto. Qed.
#[local] Hint Resolve ExecutionObject_RunAsync_quiet : quiet.

Lemma ExecutionObject_Wait_quiet hide ct eo :
  memory_only hide → quiet hide (ExecutionObject_Wait ct eo).
Proof. intros Hm. unfold ExecutionObject_Wait. quiet_auto. Qed.
#[local] Hint Resolve ExecutionObject_Wait_quiet : quiet.

Lemma ExecutorImpl_ctor_quiet hide core_type ids g :
  memory_only hide → quiet hide (ExecutorImpl_ctor core_type ids g).
Proof. intros Hm. unfold ExecutorImpl_ctor. quiet_auto. Qed.
#[local] Hint Resolve ExecutorImpl_ctor_quiet : quiet.

Lemma Initialize_runFullNet_quiet hide configuration g n :
  quiet hide (Initialize_runFullNet configuration g n).
Proof. unfold Initialize_runFullNet, force_layer. quiet_auto. Qed.
#[local] Hint Resolve Initialize_runFullNet_quiet : quiet.

(** The setup step writes no creation parameters back. *)
Lemma InitializeNetworkParams_quiet_store e cp :
  quiet is_store (InitializeNetworkParams e cp).
Proof. unfold InitializeNetworkParams. quiet_auto. Qed.
#[local] Hint Resolve InitializeNetworkParams_quiet_store : quiet.

Lemma release_ddr_returns p : returns (release_ddr p).
Proof.
  intros w. unfold release_ddr. destruct (p =? nullptr)%N; [by exists tt|].
  rewrite bind_run, cl_run. by exists tt.
Qed.

Lemma Kernel_dtor_returns k : returns (Kernel_dtor k).
Proof.
  intros w. unfold Kernel_dtor. rewrite bind_run.
  assert (Hloop : ∀ l w, ∃ w',
    for_each l (λ b _, Device_ReleaseBuffer (device_m k) b) tt w
      = (Ret tt, w')).
  { induction l as [|b l IH]; intros w0; [by eexists|].
    cbn [for_each]. rewrite bind_run. unfold Device_ReleaseBuffer at 1.
    rewrite bind_run, cl_run. cbn [mret M_ret]. apply IH. }
  destruct (Hloop (buffers_m k) w) as [w' ->].
  rewrite bind_run, cl_run. by exists tt.
Qed.

(** ** The full-network override in the constructor *)




















(** ** The error code of the setup kernel *)






(** *** The error code at the level of the constructor *)

Lemma sat_nothrow {A} (m : M A) : sat (λ _, False) m → nothrow m.
Proof.
  intros Hs w ex Hres. destruct (Hs w) as (l & _ & Hf).
  rewrite Hres in Hf. by destruct Hf.
Qed.







(** *** The message identifies the error code *)







(** ** Queues of a device *)

Lemma elements_of_NoDup (ids : DeviceIds) : NoDup (elements_of ids).
Proof.
  unfold elements_of. apply NoDup_filter.
  by apply (bool_decide_unpack (NoDup all_DeviceIds)).
Qed.

Lemma elem_of_elements_of (ids : DeviceIds) (id : DeviceId) :
  id ∈ elements_of ids ↔ id ∈ ids.
Proof.
  unfold elements_of. rewrite list_elem_of_filter. unfold all_DeviceIds.
  split; [by intros [? _]|]. intros Hin. split; [done|].
  by apply (bool_decide_unpack (id ∈ [ID0; ID1; ID2; ID3])); destruct id.
Qed.

Lemma DeviceId_to_nat_inj (a b : DeviceId) :
  DeviceId_to_nat a = DeviceId_to_nat b → a = b.
Proof. by destruct a, b. Qed.

Lemma queue_calls_queues_for context devices props ids rs :
  queue_calls (queues_for context devices props ids rs)
  = queues_for context devices props ids rs.
Proof.
  unfold queue_calls, queues_for. revert rs.
  induction ids as [|id ids IH]; intros [|r rs]; cbn; try done.
  by rewrite IH.
Qed.

Lemma queue_calls_app l1 l2 :
  queue_calls (l1 ++ l2) = queue_calls l1 ++ queue_calls l2.
Proof. apply List.filter_app. Qed.

(** The loop that opens the queues. *)
Lemma open_queues_inv devices props line (l : list DeviceId) (d d' : Device)
    (w w' : world) :
  for_each l (open_queue devices props line) d w = (Ret d', w') →
  ∃ rs,
    length rs = length l ∧
    w_log w' = w_log w ++ queues_for (context_m d) devices props l rs ∧
    context_m d' = context_m d ∧
    length (queue_m d') = length (queue_m d) ∧
    (∀ i, (∀ id, id ∈ l → DeviceId_to_nat id ≠ i) →
       queue_m d' !! i = queue_m d !! i) ∧
    (NoDup l → ∀ k id r, l !! k = Some id → rs !! k = Some r →
       queue_m d' !! DeviceId_to_nat id = Some (r_handle r)).
Proof.
  revert d w. induction l as [|x l IH]; intros d w Hrun.
  - cbn in Hrun. injection Hrun as <- <-. exists [].
    split_and!; try done. by rewrite app_nil_r.
  - cbn [for_each] in Hrun. apply bind_Ret_inv in Hrun.
    destruct Hrun as (d1 & w1 & Hx & Hrun).
    unfold open_queue in Hx. minv Hx.
    apply IH in Hrun as (rs & Hlen & Hlog' & Hctx & Hql & Hother & Hmine).
    cbn [context_m set_queue_m queue_m] in *.
    match goal with Hr : w_log _ = w_log w ++ [(_, ?r)] |- _ =>
      exists (r :: rs) end.
    split_and!.
    + cbn. by rewrite Hlen.
    + rewrite Hlog', Hlog. rewrite <- app_assoc. f_equal. cbn. f_equal.
      f_equal. f_equal. by erewrite list_lookup_total_correct.
    + done.
    + by rewrite Hql, length_insert.
    + intros i Hi. rewrite Hother.
      * apply list_lookup_insert_ne. apply Hi. by left.
      * intros id Hin. apply Hi. by right.
    + intros Hnd k id r Hk Hr. apply NoDup_cons in Hnd as [Hx Hnd].
      destruct k as [|k]; cbn in Hk, Hr.
      * injection Hk as <-. injection Hr as <-.
        rewrite Hother; [by apply list_lookup_insert_eq|].
        intros id Hin E. apply DeviceId_to_nat_inj in E. by subst.
      * by apply (Hmine Hnd k).
Qed.

Lemma open_queues_one_per_id devices props line (ids : DeviceIds)
    (d0 d1 d : Device) (w w' : world) :
  for_each (elements_of ids) (open_queue devices props line) d0 w
    = (Ret d1, w') →
  queue_m d0 = replicate MAX_DEVICES nullptr →
  context_m d = context_m d1 → queue_m d = queue_m d1 →
  ∃ l, w_log w' = w_log w ++ l ∧ queue_calls l = l ∧
       one_queue_per_id d devices props ids l.
Proof.
  intros Hrun Hq0 Hctx Hq.
  apply open_queues_inv in Hrun
    as (rs & Hlen & Hlog & Hctx1 & Hql & Hother & Hmine).
  eexists. split; [exact Hlog|]. split; [apply queue_calls_queues_for|].
  exists rs. split_and!.
  - done.
  - by rewrite Hctx, Hctx1.
  - intros k id r Hk Hr. rewrite Hq.
    by apply (Hmine (elements_of_NoDup ids) k).
  - intros i Hi Hnot. rewrite Hq, Hother, Hq0.
    + by apply lookup_replicate_2.
    + intros id Hin. apply Hnot. by apply elem_of_elements_of.
Qed.

(** Express the log of the last world through the log of the first. *)
Ltac gather_log :=
  repeat match goal with
  | Hl : w_log ?x = _ |- context [w_log ?x] => rewrite Hl
  end;
  rewrite <- ?app_assoc; reflexivity.

(** Replace [issued w w'] in the goal by the list of calls. *)
Ltac full_log w :=
  match goal with
  | |- context [issued w ?wf] =>
      let Hfull := fresh "Hfull" in
      eassert (Hfull : w_log wf = w_log w ++ _) by gather_log;
      rewrite !(issued_app _ _ _ Hfull)
  end.

Ltac in_log :=
  rewrite ?elem_of_app, ?elem_of_cons; auto 20.

Lemma DspDevice_BuildProgramFromBinary_inv d BFN device_ids num_devices
    (w w' : world) b d' :
  DspDevice_BuildProgramFromBinary d BFN device_ids num_devices w
    = (Ret (b, d'), w') →
  ∃ l, w_log w' = w_log w ++ l ∧ queue_calls l = [] ∧
       context_m d' = context_m d ∧ queue_m d' = queue_m d.
Proof.
  unfold DspDevice_BuildProgramFromBinary. intros Hrun. minv Hrun.
  eexists. split; [rewrite Hlog0, Hlog, <- app_assoc; reflexivity|]. done.
Qed.

Lemma gather_inv (device_ids : list handle) (l : list DeviceId)
    (acc acc' : list handle) (w w' : world) :
  for_each l
    (λ id acc, dev ← array_get device_ids (DeviceId_to_nat id);
               if decide (length acc < MAX_DEVICES)%nat
               then mret (acc ++ [dev]) else undefined) acc w
    = (Ret acc', w') →
  w' = w.
Proof.
  revert acc. induction l as [|x l IH]; intros acc Hrun.
  - by injection Hrun as _ <-.
  - cbn [for_each] in Hrun. apply bind_Ret_inv in Hrun.
    destruct Hrun as (acc1 & w1 & Hx & Hrun). minv Hx. by eapply IH.
Qed.

Lemma EveDevice_BuildProgramFromBinary_inv d names device_ids num_devices
    (w w' : world) b d' :
  EveDevice_BuildProgramFromBinary d names device_ids num_devices w
    = (Ret (b, d'), w') →
  ∃ l, w_log w' = w_log w ++ l ∧ queue_calls l = [] ∧
       context_m d' = context_m d ∧ queue_m d' = queue_m d.
Proof.
  unfold EveDevice_BuildProgramFromBinary. intros Hrun.
  apply bind_Ret_inv in Hrun. destruct Hrun as (acc & w1 & Hg & Hrun).
  apply gather_inv in Hg as ->. minv Hrun.
  eexists. split; [exact Hlog|]. done.
Qed.

(** C9, as the code has it.  A DSP device whose physical device
    reports one compute unit gets exactly one queue, on the device
    itself and in slot 0, whatever ids were requested.  Otherwise the
    constructor opens exactly one queue per requested unit id and no
    others: for the DSP class on the sub-device, and for the EVE class
    on the physical device, that the platform listed at the index of
    the id; the queue of an id is kept in the slot of the id and the
    slots of the other ids stay null.  All queues of a device are on
    its one context. *)
Theorem Device_Create_queues (core_type : DeviceType) (ids : DeviceIds)
    (name : string) (w w' : world) (d : Device) :
  Device_Create core_type ids name w = (Ret d, w') →
  match core_type with
  | DSP =>
      ∃ rdev dev0 rinfo,
        (clGetDeviceIDs CL_DEVICE_TYPE_ACCELERATOR MAX_DEVICES, rdev)
          ∈ issued w w' ∧
        filled MAX_DEVICES [] (r_handles rdev) !! 0%nat = Some dev0 ∧
        (clGetDeviceInfo dev0 CL_DEVICE_MAX_COMPUTE_UNITS, rinfo)
          ∈ issued w w' ∧
        if r_value rinfo =? 1 then
          ∃ rq,
            queue_calls (issued w w') =
              [(clCreateCommandQueue (context_m d) dev0
                                     CL_QUEUE_PROFILING_ENABLE, rq)] ∧
            queue_m d = <[0%nat:=r_handle rq]> (replicate MAX_DEVICES nullptr)
        else
          ∃ rsub,
            (clCreateSubDevices dev0 [CL_DEVICE_PARTITION_EQUALLY; 1; 0] 2,
             rsub) ∈ issued w w' ∧
            one_queue_per_id d
              (filled 2 [nullptr; nullptr] (r_handles rsub))
              CL_QUEUE_PROFILING_ENABLE ids (queue_calls (issued w w'))
  | EVE =>
      ∃ rdev,
        (clGetDeviceIDs CL_DEVICE_TYPE_CUSTOM MAX_DEVICES, rdev)
          ∈ issued w w' ∧
        one_queue_per_id d (filled MAX_DEVICES [] (r_handles rdev))
          (Z.lor CL_QUEUE_PROFILING_ENABLE
                 CL_QUEUE_OUT_OF_ORDER_EXEC_MODE_ENABLE)
          ids (queue_calls (issued w w'))
  end.
Proof.
  intros Hrun. destruct core_type; cbn [Device_Create] in Hrun.
  - unfold DspDevice_ctor in Hrun. minv Hrun.
    + match goal with Hb : DspDevice_BuildProgramFromBinary _ _ _ _ _ = _ |- _ =>
        apply DspDevice_BuildProgramFromBinary_inv in Hb
          as (lb & Hlb & Hqb & Hctxb & Hqmb) end.
      full_log w.
      do 3 eexists. split; [in_log|]. split; [eassumption|].
      split; [in_log|].
      match goal with Hc : (_ =? 1) = true |- _ => rewrite Hc end.
      eexists. split.
      * rewrite !queue_calls_app, Hqb. cbn. rewrite Hctxb. reflexivity.
      * cbn [queue_m set_freq_in_mhz_m]. rewrite Hqmb. reflexivity.
    + match goal with
      | Hq : for_each _ (open_queue _ _ _) _ _ = (Ret ?d1, _),
        Hb : DspDevice_BuildProgramFromBinary ?d1 _ _ _ _ = (Ret (_, ?d2), _)
        |- context [one_queue_per_id ?d] =>
          apply DspDevice_BuildProgramFromBinary_inv in Hb
            as (lb & Hlb & Hqb & Hctxb & Hqmb);
          apply (open_queues_one_per_id _ _ _ _ _ _ d) in Hq
            as (lq & Hlq & Hqq & Hone); [|reflexivity|exact Hctxb|exact Hqmb]
      end.
      match goal with Ha : (_ =? Z.of_nat 2) = true |- _ =>
        apply Z.eqb_eq in Ha; rewrite Ha in * end.
      change (Z.to_nat (Z.of_nat 2)) with 2%nat in *.
      full_log w.
      do 3 eexists. split; [in_log|]. split; [eassumption|].
      split; [in_log|].
      match goal with Hc : (_ =? 1) = false |- _ => rewrite Hc end.
      eexists. split; [in_log|].
      rewrite !queue_calls_app, Hqb, Hqq. cbn. by rewrite app_nil_r.
  - unfold EveDevice_ctor in Hrun. minv Hrun.
    match goal with
    | Hq : for_each _ (open_queue _ _ _) _ _ = (Ret ?d1, _),
      Hb : EveDevice_BuildProgramFromBinary ?d1 _ _ _ _ = (Ret (_, ?d2), _)
      |- context [one_queue_per_id ?d] =>
        apply EveDevice_BuildProgramFromBinary_inv in Hb
          as (lb & Hlb & Hqb & Hctxb & Hqmb);
        apply (open_queues_one_per_id _ _ _ _ _ _ d) in Hq
          as (lq & Hlq & Hqq & Hone); [|reflexivity|exact Hctxb|exact Hqmb]
    end.
    full_log w.
    eexists. split; [in_log|].
    rewrite !queue_calls_app, Hqb, Hqq. cbn. by rewrite app_nil_r.
Qed.

(** ** Construction of an executor *)









(** ** The platform query *)

(** C4 does not hold of the code.  When the platform is found and hands
    out its version string, and that string has no "01." in it, [find]
    yields [npos], [substr] throws [std::out_of_range], and the
    exception leaves [CheckOpenCLVersion], [PlatformIsAM57] and
    [GetNumDevices], for both device classes: no 0 is returned. *)
Theorem GetNumDevices_throws (device_type : DeviceType) (w : world) :
  let r0 := exec (clGetPlatformIDs 1) (w_plat w) in
  let id := r_handle r0.1 in
  let r1 := exec (clGetPlatformInfo id CL_PLATFORM_VERSION 0) r0.2 in
  let r2 := exec (clGetPlatformInfo id CL_PLATFORM_VERSION
                    (Z.to_nat (r_value r1.1))) r1.2 in
  status r0.1 = CL_SUCCESS →
  status r1.1 = CL_SUCCESS →
  status r2.1 = CL_SUCCESS →
  find (r_string r2.1) "01." = None →
  (Executor_GetNumDevices device_type w).1 = Throw std_out_of_range.
Proof.
  intros r0 id r1 r2 Hs0 Hs1 Hs2 Hfind.
  unfold Executor_GetNumDevices, Device_GetNumDevices, PlatformIsAM57.
  rewrite !bind_run, cl_run. cbv zeta. cbn [w_plat].
  fold r0. rewrite Hs0, Z.eqb_refl. cbn [negb].
  unfold CheckOpenCLVersion.
  rewrite !bind_run, cl_run. cbv zeta. cbn [w_plat].
  fold id. fold r1. rewrite Hs1, Z.eqb_refl. cbn [negb].
  rewrite !bind_run, cl_run. cbv zeta. cbn [w_plat].
  fold r2. rewrite Hs2, Z.eqb_refl. cbn [negb].
  rewrite bind_run, Hfind. reflexivity.
Qed.

(** ** The mnist example *)

Lemma WriteFrameOutput_prefix (out : list N) (n : nat) :
  (n ≤ length out)%nat →
  ∃ maxval maxloc,
    foldl (λ st i,
             '(maxval, maxloc) ← st;
             b ← out !! i;
             Some (if (maxval <? b)%N then (b, Z.of_nat i)
                   else (maxval, maxloc)))
          (Some (0%N, -1)) (seq 0 n) = Some (maxval, maxloc) ∧
    (∀ i b, (i < n)%nat → out !! i = Some b → (b ≤ maxval)%N) ∧
    ((maxloc = -1 ∧ maxval = 0%N) ∨
     (0 ≤ maxloc < Z.of_nat n ∧ (0 < maxval)%N ∧
      out !! Z.to_nat maxloc = Some maxval ∧
      ∀ i b, (i < Z.to_nat maxloc)%nat → out !! i = Some b →
             (b < maxval)%N)).
Proof.
  induction n as [|n IH]; intros Hn.
  - exists 0%N, (-1). split; [done|]. split; [lia|]. by left.
  - destruct IH as (maxval & maxloc & Hrun & Hmax & Hloc); [lia|].
    destruct (lookup_lt_is_Some_2 out n) as [b Hb]; [lia|].
    rewrite seq_S, foldl_app, Hrun. cbn. rewrite Hb. cbn.
    destruct (N.ltb_spec maxval b) as [Hlt|Hge].
    + exists b, (Z.of_nat n). split; [done|]. split.
      * intros i b' Hi Hb'. destruct (decide (i = n)) as [->|].
        -- rewrite Hb in Hb'. injection Hb' as <-. lia.
        -- specialize (Hmax i b' ltac:(lia) Hb'). lia.
      * right. rewrite Nat2Z.id. split; [lia|]. split; [lia|].
        split; [done|]. intros i b' Hi Hb'.
        specialize (Hmax i b' Hi Hb'). lia.
    + exists maxval, maxloc. split; [done|]. split.
      * intros i b' Hi Hb'. destruct (decide (i = n)) as [->|].
        -- rewrite Hb in Hb'. injection Hb' as <-. lia.
        -- apply (Hmax i b'); [lia|done].
      * destruct Hloc as [Hloc|(Hr & Hpos & Hat & Hfirst)]; [by left|].
        right. split; [lia|]. done.
Qed.

(** X1.  [WriteFrameOutput] on a buffer that holds [out_size] bytes
    prints the first position of the largest byte, or -1 when no byte
    is above zero (an empty buffer included); beyond the buffer the
    read is out of bounds. *)
Theorem WriteFrameOutput_first_maximum (out : list N) (out_size : Z) :
  (out_size ≤ Z.of_nat (length out) →
   ∃ maxval maxloc,
     WriteFrameOutput out out_size = Some (maxval, maxloc) ∧
     (∀ i b, Z.of_nat i < out_size → out !! i = Some b → (b ≤ maxval)%N) ∧
     (maxloc = -1 ↔
      ∀ i b, Z.of_nat i < out_size → out !! i = Some b → b = 0%N) ∧
     (maxloc ≠ -1 →
      0 ≤ maxloc < out_size ∧ out !! Z.to_nat maxloc = Some maxval ∧
      ∀ i b, (i < Z.to_nat maxloc)%nat → out !! i = Some b →
             (b < maxval)%N)) ∧
  (Z.of_nat (length out) < out_size → WriteFrameOutput out out_size = None).
Proof.
  split.
  - intros Hsize. unfold WriteFrameOutput.
    destruct (WriteFrameOutput_prefix out (Z.to_nat out_size))
      as (maxval & maxloc & Hrun & Hmax & Hloc); [lia|].
    exists maxval, maxloc. split; [exact Hrun|]. split; [|split].
    + intros i b Hi. apply Hmax. lia.
    + split.
      * intros ->. destruct Hloc as [[_ ->]|(? & _)]; [|lia].
        intros i b Hi Hb. specialize (Hmax i b ltac:(lia) Hb). lia.
      * intros Hzero. destruct Hloc as [[-> _]|(Hr & Hpos & Hat & _)]; [done|].
        specialize (Hzero (Z.to_nat maxloc) maxval ltac:(lia) Hat). lia.
    + intros Hne. destruct Hloc as [[-> _]|(Hr & Hpos & Hat & Hfirst)]; [done|].
      split; [lia|]. done.
  - intros Hsize. unfold WriteFrameOutput.
    replace (Z.to_nat out_size)
      with (S (length out) + (Z.to_nat out_size - S (length out)))%nat by lia.
    rewrite seq_app, foldl_app.
    destruct (WriteFrameOutput_prefix out (length out))
      as (maxval & maxloc & Hrun & _); [lia|].
    rewrite seq_S, foldl_app, Hrun. cbn.
    rewrite (lookup_ge_None_2 out (length out)) by lia. cbn.
    match goal with |- foldl _ None ?l = None => generalize l end.
    intros l. induction l as [|x l IH]; [reflexivity|exact IH].
Qed.

Lemma make_eops_row {EO} (eos : list EO) (n : nat) (eops : list (list EO)) :
  (n ≤ length eos)%nat →
  foldl (λ acc i,
           eops ← acc;
           eo ← eos !! i;
           Some (eops ++ [[eo]]))
        (Some eops) (seq 0 n)
    = Some (eops ++ ((λ eo, [eo]) <$> take n eos)).
Proof.
  induction n as [|n IH]; intros Hn.
  - cbn. by rewrite app_nil_r.
  - destruct (lookup_lt_is_Some_2 eos n) as [eo Heo]; [lia|].
    rewrite seq_S, foldl_app, IH by lia. cbn. rewrite Heo. cbn.
    rewrite (take_S_r _ _ _ Heo), fmap_app, <- app_assoc. done.
Qed.

(** X2.  [RunConfiguration] makes [buffer_factor] pipelines per
    execution object, and in the frame loop the pipeline taken for a
    frame wraps the execution object whose device time is added for
    that frame.  Without execution objects both index expressions
    divide by zero. *)
Theorem make_eops_index {EO} (eos : list EO) :
  ∃ eops,
    make_eops eos = Some eops ∧
    length eops = (buffer_factor * length eos)%nat ∧
    ∀ frame_idx,
      index_mod eops frame_idx = (λ eo, [eo]) <$> index_mod eos frame_idx.
Proof.
  unfold make_eops, buffer_factor. cbn [seq foldl].
  rewrite (make_eops_row eos (length eos) []) by done.
  rewrite (make_eops_row eos (length eos)) by done.
  rewrite firstn_all. cbn [app].
  eexists. split; [done|]. split.
  { rewrite length_app, !length_fmap. lia. }
  intros frame_idx. unfold index_mod.
  rewrite length_app, !length_fmap.
  destruct (decide (length eos = 0%nat)) as [Hz|Hnz].
  { rewrite Hz. done. }
  rewrite decide_False by lia.
  replace (length eos + length eos)%nat with (length eos * 2)%nat by lia.
  rewrite Nat.Div0.mod_mul_r.
  pose proof (Nat.mod_upper_bound frame_idx (length eos) Hnz) as Hlt.
  pose proof (Nat.mod_upper_bound (frame_idx / length eos) 2) as H2.
  destruct ((frame_idx / length eos) mod 2)%nat as [|[|k]]; [| |lia].
  - rewrite Nat.mul_0_r, Nat.add_0_r.
    rewrite lookup_app_l by (rewrite length_fmap; lia).
    apply list_lookup_fmap.
  - rewrite Nat.mul_1_r, lookup_app_r by (rewrite length_fmap; lia).
    rewrite length_fmap.
    replace (frame_idx mod length eos + length eos - length eos)%nat
      with (frame_idx mod length eos)%nat by lia.
    apply list_lookup_fmap.
Qed.

(** ** error2string *)

Lemma known_error_codes (err : Z) :
  known_error err = true → err ∈ error_codes.
Proof.
  unfold known_error, error_codes. intros Hk.
  apply list_elem_of_fmap. exists (Z.to_nat (- err)).
  apply orb_true_iff in Hk as [Hk|Hk]; apply andb_true_iff in Hk as [H1 H2];
    apply Z.leb_le in H1, H2; (split; [lia|]); apply elem_of_app;
    [left|right]; apply elem_of_seq; lia.
Qed.

Lemma error2string_unknown (err : Z) :
  error2string err = "Unknown OpenCL error" ↔ known_error err = false.
Proof.
  destruct err as [|p|p]; [done|done|].
  do 7 (try destruct p as [p|p|]);
    (split; intros Hx;
     first [ reflexivity | discriminate | vm_compute in Hx; discriminate ]).
Qed.

Lemma error2string_codes_NoDup : NoDup (error2string <$> error_codes).
Proof. apply (bool_decide_unpack _). vm_compute. reflexivity. Qed.

Lemma NoDup_fmap_inj {A B} (f : A → B) (l : list A) (x y : A) :
  NoDup (f <$> l) → x ∈ l → y ∈ l → f x = f y → x = y.
Proof.
  induction l as [|a l IH]; intros Hnd Hx Hy Hf; [by apply elem_of_nil in Hx|].
  rewrite fmap_cons in Hnd. apply NoDup_cons in Hnd as [Ha Hnd].
  apply elem_of_cons in Hx as [->|Hx]; apply elem_of_cons in Hy as [->|Hy].
  - done.
  - exfalso. apply Ha. rewrite Hf. by apply list_elem_of_fmap_2.
  - exfalso. apply Ha. rewrite <- Hf. by apply list_elem_of_fmap_2.
  - by apply IH.
Qed.

(** X3.  [error2string] names exactly the codes 0 to -12 and -30 to
    -63; every other code is reported as unknown, and two codes with
    the same name are the same code unless both are unknown. *)
Theorem error2string_names (err err' : Z) :
  (error2string err = "Unknown OpenCL error" ↔
   ¬ (-12 ≤ err ≤ 0 ∨ -63 ≤ err ≤ -30)) ∧
  (error2string err = error2string err' →
   error2string err ≠ "Unknown OpenCL error" → err = err').
Proof.
  split.
  - rewrite error2string_unknown. unfold known_error.
    rewrite orb_false_iff, !andb_false_iff, !Z.leb_gt. lia.
  - intros Heq Hknown.
    assert (Hk : known_error err = true).
    { destruct (known_error err) eqn:E; [done|].
      by apply error2string_unknown in E. }
    assert (Hk' : known_error err' = true).
    { destruct (known_error err') eqn:E; [done|].
      apply error2string_unknown in E. by rewrite Heq in Hknown. }
    apply (NoDup_fmap_inj error2string error_codes);
      auto using error2string_codes_NoDup, known_error_codes.
Qed.

(** ** Construction and destruction of a device *)

Lemma gather_run (device_ids : list handle) (l : list DeviceId)
    (acc acc' : list handle) (w w' : world) :
  for_each l
    (λ id acc, dev ← array_get device_ids (DeviceId_to_nat id);
               if decide (length acc < MAX_DEVICES)%nat
               then mret (acc ++ [dev]) else undefined) acc w
    = (Ret acc', w') →
  w' = w ∧
  acc' = acc ++ ((λ id, device_ids !!! DeviceId_to_nat id) <$> l) ∧
  ((length acc ≤ MAX_DEVICES)%nat →
   (length acc + length l ≤ MAX_DEVICES)%nat).
Proof.
  revert acc. induction l as [|x l IH]; intros acc Hrun.
  - injection Hrun as <- <-. rewrite app_nil_r. split_and!; [done..|].
    cbn. lia.
  - cbn [for_each] in Hrun. apply bind_Ret_inv in Hrun.
    destruct Hrun as (acc1 & w1 & Hx & Hrun). minv Hx.
    apply IH in Hrun as (-> & -> & Hlen). split; [done|]. split.
    + rewrite <- app_assoc. cbn. do 3 f_equal.
      by erewrite list_lookup_total_correct.
    + rewrite length_app in Hlen. cbn in *. lia.
Qed.

(** The loop that opens the queues, with all that a returning run
    tells. *)
Lemma open_queues_run devices props line (l : list DeviceId) (d d' : Device)
    (w w' : world) :
  for_each l (open_queue devices props line) d w = (Ret d', w') →
  ∃ rs,
    length rs = length l ∧
    w_log w' = w_log w ++ queues_for (context_m d) devices props l rs ∧
    Forall (λ r, status r = CL_SUCCESS) rs ∧
    Forall (λ id, (DeviceId_to_nat id < length devices)%nat ∧
                  (DeviceId_to_nat id < length (queue_m d))%nat) l ∧
    device_type_m d' = device_type_m d ∧
    device_ids_m d' = device_ids_m d ∧
    context_m d' = context_m d ∧
    program_m d' = program_m d ∧
    freq_in_mhz_m d' = freq_in_mhz_m d ∧
    length (queue_m d') = length (queue_m d) ∧
    (∀ i, (∀ id, id ∈ l → DeviceId_to_nat id ≠ i) →
       queue_m d' !! i = queue_m d !! i) ∧
    (NoDup l → ∀ k id r, l !! k = Some id → rs !! k = Some r →
       queue_m d' !! DeviceId_to_nat id = Some (r_handle r)).
Proof.
  revert d w. induction l as [|x l IH]; intros d w Hrun.
  - cbn in Hrun. injection Hrun as <- <-. exists [].
    split_and!; try done. by rewrite app_nil_r.
  - cbn [for_each] in Hrun. apply bind_Ret_inv in Hrun.
    destruct Hrun as (d1 & w1 & Hx & Hrun).
    unfold open_queue in Hx. minv Hx.
    apply IH in Hrun as (rs & Hlen & Hlog' & Hst & Hbd & Hty & Hids & Hctx
                            & Hprog & Hfreq & Hql & Hother & Hmine).
    cbn [context_m set_queue_m queue_m device_type_m device_ids_m program_m
         freq_in_mhz_m] in *.
    rewrite length_insert in Hql, Hbd.
    match goal with Hr : w_log _ = w_log w ++ [(_, ?r)] |- _ =>
      exists (r :: rs) end.
    split_and!; try done.
    + cbn. by rewrite Hlen.
    + rewrite Hlog', Hlog. rewrite <- app_assoc. f_equal. cbn. f_equal.
      f_equal. f_equal. by erewrite list_lookup_total_correct.
    + by constructor.
    + constructor; [|done]. split; [|done].
      by eapply lookup_lt_Some.
    + intros i Hi. rewrite Hother.
      * apply list_lookup_insert_ne. apply Hi. by left.
      * intros id Hin. apply Hi. by right.
    + intros Hnd k id r Hk Hr. apply NoDup_cons in Hnd as [Hx Hnd].
      destruct k as [|k]; cbn in Hk, Hr.
      * injection Hk as <-. injection Hr as <-.
        rewrite Hother; [by apply list_lookup_insert_eq|].
        intros id Hin E. apply DeviceId_to_nat_inj in E. by subst.
      * by apply (Hmine Hnd k).
Qed.

(** What a device of the EVE class is made of, and by which calls. *)
Lemma EveDevice_ctor_inv (ids : DeviceIds) (kernel_names : string)
    (w w' : world) (d : Device) :
  EveDevice_ctor ids kernel_names w = (Ret d, w') →
  ∃ rdev rctx rs rprog rfreq dev0,
    let devices := filled MAX_DEVICES [] (r_handles rdev) in
    let props := Z.lor CL_QUEUE_PROFILING_ENABLE
                       CL_QUEUE_OUT_OF_ORDER_EXEC_MODE_ENABLE in
    issued w w' =
      (clGetDeviceIDs CL_DEVICE_TYPE_CUSTOM MAX_DEVICES, rdev)
      :: (clCreateContextFromType CL_DEVICE_TYPE_CUSTOM, rctx)
      :: queues_for (r_handle rctx) devices props (elements_of ids) rs
      ++ [(clCreateProgramWithBuiltInKernels (r_handle rctx)
             ((λ id, devices !!! DeviceId_to_nat id) <$> elements_of ids)
             kernel_names, rprog);
          (clGetDeviceInfo dev0 CL_DEVICE_MAX_CLOCK_FREQUENCY, rfreq)] ∧
    devices !! 0%nat = Some dev0 ∧
    length rs = size_of ids ∧
    Z.of_nat (size_of ids) ≤ r_value rdev ∧
    (size_of ids ≤ MAX_DEVICES)%nat ∧
    Forall (λ cr, status cr.2 = CL_SUCCESS) (issued w w') ∧
    device_type_m d = CL_DEVICE_TYPE_CUSTOM ∧
    device_ids_m d = ids ∧
    context_m d = r_handle rctx ∧
    program_m d = r_handle rprog ∧
    freq_in_mhz_m d = r_value rfreq ∧
    length (queue_m d) = MAX_DEVICES ∧
    (∀ k id r, elements_of ids !! k = Some id → rs !! k = Some r →
       queue_m d !! DeviceId_to_nat id = Some (r_handle r)) ∧
    (∀ i, (i < MAX_DEVICES)%nat →
       (∀ id, id ∈ ids → DeviceId_to_nat id ≠ i) →
       queue_m d !! i = Some nullptr).
Proof.
  unfold EveDevice_ctor. intros Hrun. minv Hrun.
  cbn [Device_ctor set_context_m device_type_m device_ids_m context_m
       queue_m program_m freq_in_mhz_m] in *.
  match goal with
  | Hq : for_each _ (open_queue _ _ _) _ _ = _ |- _ =>
      apply open_queues_run in Hq
        as (rs & Hlen & Hlq & Hst & Hbd & Hty & Hids & Hctx & Hprog & Hfreq
            & Hql & Hother & Hmine)
  end.
  cbn [Device_ctor set_context_m device_type_m device_ids_m context_m
       queue_m program_m freq_in_mhz_m] in *.
  match goal with
  | Hb : EveDevice_BuildProgramFromBinary _ _ _ _ _ = _ |- _ =>
      unfold EveDevice_BuildProgramFromBinary in Hb;
      rewrite Hids, Hctx in Hb;
      apply bind_Ret_inv in Hb as (acc & wg & Hg & Hb);
      apply gather_run in Hg as (-> & -> & Hsize);
      apply bind_Ret_inv in Hb as (rprog & wp & Hp & Hb);
      apply cl_inv in Hp as [Hlp _];
      apply bind_Ret_inv in Hb as (u & wq & Hcheck & Hb);
      apply errorCheck_inv in Hcheck as [Hsp ->];
      apply mret_inv in Hb as [Hb ->];
      injection Hb as _ <-
  end.
  cbn [app] in *.
  specialize (Hsize ltac:(cbn; lia)). cbn [length] in Hsize.
  fold (size_of ids) in Hsize.
  assert (Htake : ∀ l : list handle,
            length l = size_of ids → take (size_of ids) l = l).
  { intros l <-. apply firstn_all. }
  rewrite Htake in * by (by rewrite length_fmap).
  match goal with
  | Hd : w_log _ = w_log w ++ [(_, ?rdev)],
    Hc : w_log _ = _ ++ [(clCreateContextFromType _, ?rctx)],
    Hp : w_log _ = _ ++ [(clCreateProgramWithBuiltInKernels _ _ _, ?rprog)],
    Hf : w_log _ = _ ++ [(clGetDeviceInfo ?dev0 _, ?rfreq)] |- _ =>
      exists rdev, rctx, rs, rprog, rfreq, dev0
  end.
  cbn [set_freq_in_mhz_m set_program_m device_type_m device_ids_m context_m
       queue_m program_m freq_in_mhz_m].
  full_log w.
  split_and!; try done.
  - by apply Z.leb_le.
  - rewrite Forall_forall in Hst.
    rewrite !Forall_app, !Forall_singleton. split_and!; try done.
    apply Forall_forall. intros [c r] Hin. unfold queues_for in Hin.
    apply elem_of_zip_with in Hin as (id & r' & E & _ & Hr).
    injection E as _ ->. by apply Hst.
  - by rewrite Hql, length_replicate.
  - intros k id r Hk Hr. by apply (Hmine (elements_of_NoDup ids) k).
  - intros i Hi Hnot. rewrite Hother.
    + by apply lookup_replicate_2.
    + intros id Hin. apply Hnot. by apply elem_of_elements_of.
Qed.

Lemma Device_dtor_loop (d : Device) (n : nat) (calls : list teardown) :
  (n ≤ length (queue_m d))%nat →
  foldl (λ acc i,
           calls ← acc;
           q ← queue_m d !! i;
           Some (calls ++ [clFinish q; clReleaseCommandQueue q]))
        (Some calls) (seq 0 n)
    = Some (calls ++ concat ((λ q, [clFinish q; clReleaseCommandQueue q])
                               <$> take n (queue_m d))).
Proof.
  induction n as [|n IH]; intros Hn.
  - rewrite take_0. cbn [seq foldl fmap list_fmap concat].
    by rewrite app_nil_r.
  - destruct (lookup_lt_is_Some_2 (queue_m d) n) as [q Hq]; [lia|].
    rewrite seq_S, foldl_app, IH by lia. cbn. rewrite Hq. cbn.
    rewrite (take_S_r _ _ _ Hq), fmap_app, concat_app, <- app_assoc.
    cbn. by rewrite ?app_nil_r.
Qed.

Lemma Device_dtor_run (d : Device) :
  (size_of (device_ids_m d) ≤ length (queue_m d))%nat →
  Device_dtor d =
    Some (concat ((λ q, [clFinish q; clReleaseCommandQueue q])
                    <$> take (size_of (device_ids_m d)) (queue_m d))
          ++ [clReleaseProgram (program_m d);
              clReleaseContext (context_m d)]).
Proof.
  intros Hn. unfold Device_dtor. by rewrite Device_dtor_loop.
Qed.

(** In a set of unit ids that are all below the size of the set, the
    members in increasing order are the ids 0, 1, ... *)
Lemma elements_of_initial (ids : DeviceIds) (k : nat) (id : DeviceId) :
  (∀ id, id ∈ ids → (DeviceId_to_nat id < size_of ids)%nat) →
  elements_of ids !! k = Some id → DeviceId_to_nat id = k.
Proof.
  unfold size_of, elements_of, all_DeviceIds. intros Hall.
  pose proof (Hall ID0) as H0'. pose proof (Hall ID1) as H1'.
  pose proof (Hall ID2) as H2'. pose proof (Hall ID3) as H3'.
  clear Hall. revert H0' H1' H2' H3'.
  rewrite !filter_cons, filter_nil.
  destruct (decide (ID0 ∈ ids)), (decide (ID1 ∈ ids)),
    (decide (ID2 ∈ ids)), (decide (ID3 ∈ ids));
    cbn; intros H0' H1' H2' H3';
    try (specialize (H0' ltac:(done)); cbn in H0');
    try (specialize (H1' ltac:(done)); cbn in H1');
    try (specialize (H2' ltac:(done)); cbn in H2');
    try (specialize (H3' ltac:(done)); cbn in H3');
    try lia;
    intros Hk; repeat (destruct k as [|k]; cbn in Hk; try discriminate);
    by injection Hk as <-.
Qed.

(** X4.  [Device::~Device] finishes and releases the queue slots
    [0 .. size - 1], then the program and the context, while the
    constructor of the EVE class keeps the queue of a unit id in the
    slot of that id.  When the requested ids are 0 .. size - 1 the
    destructor releases exactly the queues that were opened, in
    order; otherwise it passes the null handle of an unused slot below
    [size] to [clFinish] and [clReleaseCommandQueue], and the queue of
    an id at or above [size] is not released. *)
Theorem Device_dtor_queues (ids : DeviceIds) (name : string) (w w' : world)
    (d : Device) :
  Device_Create EVE ids name w = (Ret d, w') →
  let n := size_of ids in
  let opened := (λ cr, r_handle cr.2) <$> queue_calls (issued w w') in
  Device_dtor d =
    Some (concat ((λ q, [clFinish q; clReleaseCommandQueue q])
                    <$> take n (queue_m d))
          ++ [clReleaseProgram (program_m d);
              clReleaseContext (context_m d)]) ∧
  ((∀ id, id ∈ ids → (DeviceId_to_nat id < n)%nat) →
   take n (queue_m d) = opened) ∧
  (∀ i, (i < n)%nat → (∀ id, id ∈ ids → DeviceId_to_nat id ≠ i) →
   take n (queue_m d) !! i = Some nullptr) ∧
  (∀ k id, elements_of ids !! k = Some id → (n ≤ DeviceId_to_nat id)%nat →
   queue_m d !! DeviceId_to_nat id = opened !! k ∧
   take n (queue_m d) !! DeviceId_to_nat id = None).
Proof.
  cbn [Device_Create]. intros Hrun.
  apply EveDevice_ctor_inv in Hrun
    as (rdev & rctx & rs & rprog & rfreq & dev0 & Hlog & Hdev0 & Hlen & Hfound
        & Hsize & Hst & Hty & Hids & Hctx & Hprog & Hfreq & Hql & Hmine
        & Hother).
  cbv zeta in Hlog. cbv zeta.
  assert (Hopened : (λ cr : call * response, r_handle cr.2)
                      <$> queue_calls (issued w w') = r_handle <$> rs).
  { rewrite Hlog. unfold queue_calls. cbn [List.filter is_queue_call fst].
    rewrite List.filter_app. cbn [List.filter is_queue_call fst].
    rewrite app_nil_r. fold (queue_calls (queues_for (r_handle rctx)
      (filled MAX_DEVICES [] (r_handles rdev))
      (Z.lor CL_QUEUE_PROFILING_ENABLE CL_QUEUE_OUT_OF_ORDER_EXEC_MODE_ENABLE)
      (elements_of ids) rs)).
    rewrite queue_calls_queues_for. unfold queues_for.
    clear -Hlen. unfold size_of in Hlen. revert rs Hlen.
    induction (elements_of ids) as [|x l IH]; intros [|r rs] Hlen;
      try discriminate; [done|].
    cbn. f_equal. apply IH. by injection Hlen. }
  rewrite Hopened. split_and!.
  - rewrite <- Hids at 1. apply Device_dtor_run. rewrite Hids, Hql. done.
  - intros Hall. apply list_eq. intros i.
    destruct (decide (i < size_of ids)%nat) as [Hi|Hi].
    + rewrite lookup_take_lt by done.
      destruct (lookup_lt_is_Some_2 (elements_of ids) i) as [id Hid];
        [done|].
      destruct (lookup_lt_is_Some_2 rs i) as [r Hr]; [lia|].
      rewrite list_lookup_fmap, Hr. cbn.
      rewrite <- (elements_of_initial ids i id Hall Hid).
      by apply (Hmine i).
    + rewrite lookup_take_ge by lia. symmetry. apply lookup_ge_None_2.
      rewrite length_fmap. lia.
  - intros i Hi Hnot. rewrite lookup_take_lt by done. apply Hother; [lia|done].
  - intros k id Hk Hn. split.
    + destruct (lookup_lt_is_Some_2 rs k) as [r Hr].
      { apply lookup_lt_Some in Hk. unfold size_of in Hlen. lia. }
      rewrite list_lookup_fmap, Hr. cbn. by apply (Hmine k).
    + by apply lookup_take_ge.
Qed.

Lemma DspDevice_BuildProgramFromBinary_run d BFN device_ids num_devices
    (w w' : world) b d' :
  DspDevice_BuildProgramFromBinary d BFN device_ids num_devices w
    = (Ret (b, d'), w') →
  ∃ rprog rbuild,
    w_log w' = w_log w ++
      [(clCreateProgramWithBinary (context_m d) (take num_devices device_ids)
          (replicate num_devices ocl_wrapper_dsp_bin_len), rprog);
       (clBuildProgram (r_handle rprog) (take num_devices device_ids) "",
        rbuild)] ∧
    status rprog = CL_SUCCESS ∧ status rbuild = CL_SUCCESS ∧
    ocl_wrapper_dsp_bin_len ≠ 0%N ∧
    d' = set_program_m d (r_handle rprog).
Proof.
  unfold DspDevice_BuildProgramFromBinary. intros Hrun. minv Hrun.
  match goal with
  | Hp : w_log _ = _ ++ [(clCreateProgramWithBinary _ _ _, ?rprog)],
    Hb : w_log _ = _ ++ [(clBuildProgram _ _ _, ?rbuild)] |- _ =>
      exists rprog, rbuild
  end.
  split_and!; try done.
  - rewrite Hlog0, Hlog, <- app_assoc. reflexivity.
  - apply negb_true_iff in Hassert. by apply N.eqb_neq in Hassert.
Qed.

(** What a device of the DSP class is made of, and by which calls. *)
Lemma DspDevice_ctor_inv (ids : DeviceIds) (binary_filename : string)
    (w w' : world) (d : Device) :
  DspDevice_ctor ids binary_filename w = (Ret d, w') →
  ∃ rdev rinfo rfreq dev0,
    let devices := filled MAX_DEVICES [] (r_handles rdev) in
    devices !! 0%nat = Some dev0 ∧
    status rdev = CL_SUCCESS ∧ r_value rdev = 1 ∧
    status rfreq = CL_SUCCESS ∧
    ocl_wrapper_dsp_bin_len ≠ 0%N ∧
    device_type_m d = CL_DEVICE_TYPE_ACCELERATOR ∧
    device_ids_m d = ids ∧
    freq_in_mhz_m d = r_value rfreq ∧
    length (queue_m d) = MAX_DEVICES ∧
    if r_value rinfo =? 1 then
      ∃ rctx rq rprog rbuild,
        issued w w' =
          [(clGetDeviceIDs CL_DEVICE_TYPE_ACCELERATOR MAX_DEVICES, rdev);
           (clGetDeviceInfo dev0 CL_DEVICE_MAX_COMPUTE_UNITS, rinfo);
           (clCreateContextFromType CL_DEVICE_TYPE_ACCELERATOR, rctx);
           (clCreateCommandQueue (r_handle rctx) dev0
                                 CL_QUEUE_PROFILING_ENABLE, rq);
           (clCreateProgramWithBinary (r_handle rctx) [dev0]
                                      [ocl_wrapper_dsp_bin_len], rprog);
           (clBuildProgram (r_handle rprog) [dev0] "", rbuild);
           (clGetDeviceInfo dev0 CL_DEVICE_MAX_CLOCK_FREQUENCY, rfreq)] ∧
        Forall (λ r, status r = CL_SUCCESS) [rctx; rq; rprog; rbuild] ∧
        context_m d = r_handle rctx ∧
        program_m d = r_handle rprog ∧
        queue_m d = <[0%nat:=r_handle rq]> (replicate MAX_DEVICES nullptr)
    else
      ∃ rn rsub rctx rs rprog rbuild,
        let sub_devices := filled 2 [nullptr; nullptr] (r_handles rsub) in
        issued w w' =
          [(clGetDeviceIDs CL_DEVICE_TYPE_ACCELERATOR MAX_DEVICES, rdev);
           (clGetDeviceInfo dev0 CL_DEVICE_MAX_COMPUTE_UNITS, rinfo);
           (clCreateSubDevices dev0 [CL_DEVICE_PARTITION_EQUALLY; 1; 0] 0,
            rn);
           (clCreateSubDevices dev0 [CL_DEVICE_PARTITION_EQUALLY; 1; 0] 2,
            rsub);
           (clCreateContext sub_devices, rctx)]
          ++ queues_for (r_handle rctx) sub_devices CL_QUEUE_PROFILING_ENABLE
                        (elements_of ids) rs
          ++ [(clCreateProgramWithBinary (r_handle rctx) sub_devices
                 [ocl_wrapper_dsp_bin_len; ocl_wrapper_dsp_bin_len], rprog);
              (clBuildProgram (r_handle rprog) sub_devices "", rbuild);
              (clGetDeviceInfo dev0 CL_DEVICE_MAX_CLOCK_FREQUENCY, rfreq)] ∧
        r_value rn = 2 ∧
        length rs = size_of ids ∧
        Forall (λ r, status r = CL_SUCCESS)
               ([rn; rsub; rctx; rprog; rbuild] ++ rs) ∧
        Forall (λ id, (DeviceId_to_nat id < 2)%nat
                      ∧ (DeviceId_to_nat id < MAX_DEVICES)%nat)
               (elements_of ids) ∧
        context_m d = r_handle rctx ∧
        program_m d = r_handle rprog ∧
        (∀ k id r, elements_of ids !! k = Some id → rs !! k = Some r →
           queue_m d !! DeviceId_to_nat id = Some (r_handle r)) ∧
        (∀ i, (i < MAX_DEVICES)%nat →
           (∀ id, id ∈ ids → DeviceId_to_nat id ≠ i) →
           queue_m d !! i = Some nullptr).
Proof.
  unfold DspDevice_ctor. intros Hrun. minv Hrun.
  all: cbn [Device_ctor set_context_m set_queue_m device_type_m device_ids_m
            context_m queue_m program_m freq_in_mhz_m] in *.
  all: match goal with Hone : negb (_ =? 1) = false |- _ =>
         apply negb_false_iff, Z.eqb_eq in Hone end.
  - match goal with
    | Hb : DspDevice_BuildProgramFromBinary _ _ _ _ _ = _ |- _ =>
        apply DspDevice_BuildProgramFromBinary_run in Hb
          as (rprog & rbuild & Hlb & Hsp & Hsb & Hbin & ->)
    end.
    cbn [set_context_m set_queue_m set_program_m set_freq_in_mhz_m
         device_type_m device_ids_m context_m queue_m program_m
         freq_in_mhz_m Device_ctor] in *.
    match goal with
    | Hg : ?devices !! 0%nat = Some ?dev0 |- _ =>
        assert (Htake : take 1 devices = [dev0])
          by (destruct devices; [done|]; cbn in Hg; injection Hg as ->;
              by rewrite firstn_cons, take_0);
        rewrite Htake in Hlb
    end.
    match goal with
    | Hd : w_log _ = w_log w ++ [(_, ?rdev)],
      Hi : w_log _ = _ ++ [(clGetDeviceInfo ?dev0
                              CL_DEVICE_MAX_COMPUTE_UNITS, ?rinfo)],
      Hc : w_log _ = _ ++ [(clCreateContextFromType _, ?rctx)],
      Hq : w_log _ = _ ++ [(clCreateCommandQueue _ _ _, ?rq)],
      Hf : w_log _ = _ ++ [(clGetDeviceInfo _
                              CL_DEVICE_MAX_CLOCK_FREQUENCY, ?rfreq)],
      Hone : (r_value ?rinfo =? 1) = true |- _ =>
        exists rdev, rinfo, rfreq, dev0; rewrite Hone;
        split_and!; try done;
        [ by rewrite length_insert, length_replicate
        | exists rctx, rq, rprog, rbuild ]
    end.
    full_log w. split_and!; try done.
    by repeat (apply Forall_cons; split; [done|]).
  - match goal with
    | Hq : for_each _ (open_queue _ _ _) _ _ = _ |- _ =>
        apply open_queues_run in Hq
          as (rs & Hlen & Hlq & Hst & Hbd & Hty & Hids & Hctx & Hprog & Hfreq
              & Hql & Hother & Hmine)
    end.
    cbn [set_context_m set_queue_m set_program_m set_freq_in_mhz_m
         device_type_m device_ids_m context_m queue_m program_m
         freq_in_mhz_m Device_ctor] in *.
    match goal with
    | Hb : DspDevice_BuildProgramFromBinary _ _ _ _ _ = _ |- _ =>
        apply DspDevice_BuildProgramFromBinary_run in Hb
          as (rprog & rbuild & Hlb & Hsp & Hsb & Hbin & ->)
    end.
    assert (Htk : ∀ init out, take 2 (filled 2 init out) = filled 2 init out)
      by (intros; unfold filled; by rewrite take_take).
    rewrite Hctx, !Htk in Hlb. cbn [replicate] in Hlb.
    match goal with Ha : (_ =? Z.of_nat 2) = true |- _ =>
      apply Z.eqb_eq in Ha; rewrite Ha in * end.
    change (Z.to_nat (Z.of_nat 2)) with 2%nat in *.
    cbn [set_context_m set_queue_m set_program_m set_freq_in_mhz_m
         device_type_m device_ids_m context_m queue_m program_m
         freq_in_mhz_m Device_ctor].
    match goal with
    | Hd : w_log _ = w_log w ++ [(_, ?rdev)],
      Hi : w_log _ = _ ++ [(clGetDeviceInfo ?dev0
                              CL_DEVICE_MAX_COMPUTE_UNITS, ?rinfo)],
      Hn : w_log _ = _ ++ [(clCreateSubDevices _ _ 0, ?rn)],
      Hs : w_log _ = _ ++ [(clCreateSubDevices _ _ 2, ?rsub)],
      Hc : w_log _ = _ ++ [(clCreateContext _, ?rctx)],
      Hf : w_log _ = _ ++ [(clGetDeviceInfo _
                              CL_DEVICE_MAX_CLOCK_FREQUENCY, ?rfreq)],
      Hone : (r_value ?rinfo =? 1) = false |- _ =>
        exists rdev, rinfo, rfreq, dev0; rewrite Hone;
        split_and!; try done;
        [ by rewrite Hql, length_replicate
        | exists rn, rsub, rctx, rs, rprog, rbuild ]
    end.
    full_log w. cbv zeta. split_and!; try done.
    + by repeat (apply Forall_cons; split; [done|]).
    + eapply Forall_impl; [exact Hbd|]. intros id [Hd Hq].
      rewrite length_replicate in Hq. split; [|done].
      unfold filled in Hd. rewrite length_take in Hd. lia.
    + intros k id r Hk Hr. by apply (Hmine (elements_of_NoDup ids) k).
    + intros i Hi Hnot. rewrite Hother.
      * by apply lookup_replicate_2.
      * intros id Hin. apply Hnot. by apply elem_of_elements_of.
Qed.
(** X5.  A device of the EVE class that is constructed was made by
    exactly these calls, all successful and in this order: the
    enumeration of the devices, one context, one queue per requested
    unit id on the device listed at the index of the id, one program
    of built-in kernels for exactly the devices that got a queue, and
    the clock query on the first listed device (requested or not).
    The platform listed at least as many devices as ids were
    requested. *)
Theorem EveDevice_ctor_calls (ids : DeviceIds) (kernel_names : string)
    (w w' : world) (d : Device) :
  Device_Create EVE ids kernel_names w = (Ret d, w') →
  ∃ rdev rctx rs rprog rfreq dev0,
    let devices := filled MAX_DEVICES [] (r_handles rdev) in
    let props := Z.lor CL_QUEUE_PROFILING_ENABLE
                       CL_QUEUE_OUT_OF_ORDER_EXEC_MODE_ENABLE in
    issued w w' =
      (clGetDeviceIDs CL_DEVICE_TYPE_CUSTOM MAX_DEVICES, rdev)
      :: (clCreateContextFromType CL_DEVICE_TYPE_CUSTOM, rctx)
      :: queues_for (r_handle rctx) devices props (elements_of ids) rs
      ++ [(clCreateProgramWithBuiltInKernels (r_handle rctx)
             ((λ id, devices !!! DeviceId_to_nat id) <$> elements_of ids)
             kernel_names, rprog);
          (clGetDeviceInfo dev0 CL_DEVICE_MAX_CLOCK_FREQUENCY, rfreq)] ∧
    devices !! 0%nat = Some dev0 ∧
    length rs = size_of ids ∧
    Z.of_nat (size_of ids) ≤ r_value rdev ∧
    Forall (λ cr, status cr.2 = CL_SUCCESS) (issued w w') ∧
    device_ids_m d = ids ∧
    context_m d = r_handle rctx ∧
    program_m d = r_handle rprog ∧
    freq_in_mhz_m d = r_value rfreq.
Proof.
  cbn [Device_Create]. intros Hrun.
  apply EveDevice_ctor_inv in Hrun
    as (rdev & rctx & rs & rprog & rfreq & dev0 & Hlog & Hdev0 & Hlen & Hfound
        & Hsize & Hst & Hty & Hids & Hctx & Hprog & Hfreq & Hql & Hmine
        & Hother).
  by exists rdev, rctx, rs, rprog, rfreq, dev0.
Qed.

(** X6.  A device of the DSP class that is constructed saw exactly one
    DSP device listed, and its program is made from the embedded
    binary and built: on a device with one compute unit for that
    device, and otherwise for both sub-devices, whichever unit ids
    were requested, while queues are opened for the requested ids
    only.  The status of the compute-unit query is not among the
    things that must have succeeded. *)
Theorem DspDevice_ctor_calls (ids : DeviceIds) (binary_filename : string)
    (w w' : world) (d : Device) :
  Device_Create DSP ids binary_filename w = (Ret d, w') →
  ∃ rdev rinfo rfreq dev0,
    filled MAX_DEVICES [] (r_handles rdev) !! 0%nat = Some dev0 ∧
    status rdev = CL_SUCCESS ∧ r_value rdev = 1 ∧
    status rfreq = CL_SUCCESS ∧
    ocl_wrapper_dsp_bin_len ≠ 0%N ∧
    freq_in_mhz_m d = r_value rfreq ∧
    if r_value rinfo =? 1 then
      ∃ rctx rq rprog rbuild,
        issued w w' =
          [(clGetDeviceIDs CL_DEVICE_TYPE_ACCELERATOR MAX_DEVICES, rdev);
           (clGetDeviceInfo dev0 CL_DEVICE_MAX_COMPUTE_UNITS, rinfo);
           (clCreateContextFromType CL_DEVICE_TYPE_ACCELERATOR, rctx);
           (clCreateCommandQueue (r_handle rctx) dev0
                                 CL_QUEUE_PROFILING_ENABLE, rq);
           (clCreateProgramWithBinary (r_handle rctx) [dev0]
                                      [ocl_wrapper_dsp_bin_len], rprog);
           (clBuildProgram (r_handle rprog) [dev0] "", rbuild);
           (clGetDeviceInfo dev0 CL_DEVICE_MAX_CLOCK_FREQUENCY, rfreq)] ∧
        Forall (λ r, status r = CL_SUCCESS) [rctx; rq; rprog; rbuild] ∧
        context_m d = r_handle rctx ∧
        program_m d = r_handle rprog
    else
      ∃ rn rsub rctx rs rprog rbuild,
        let sub_devices := filled 2 [nullptr; nullptr] (r_handles rsub) in
        issued w w' =
          [(clGetDeviceIDs CL_DEVICE_TYPE_ACCELERATOR MAX_DEVICES, rdev);
           (clGetDeviceInfo dev0 CL_DEVICE_MAX_COMPUTE_UNITS, rinfo);
           (clCreateSubDevices dev0 [CL_DEVICE_PARTITION_EQUALLY; 1; 0] 0,
            rn);
           (clCreateSubDevices dev0 [CL_DEVICE_PARTITION_EQUALLY; 1; 0] 2,
            rsub);
           (clCreateContext sub_devices, rctx)]
          ++ queues_for (r_handle rctx) sub_devices CL_QUEUE_PROFILING_ENABLE
                        (elements_of ids) rs
          ++ [(clCreateProgramWithBinary (r_handle rctx) sub_devices
                 [ocl_wrapper_dsp_bin_len; ocl_wrapper_dsp_bin_len], rprog);
              (clBuildProgram (r_handle rprog) sub_devices "", rbuild);
              (clGetDeviceInfo dev0 CL_DEVICE_MAX_CLOCK_FREQUENCY, rfreq)] ∧
        r_value rn = 2 ∧
        length rs = size_of ids ∧
        Forall (λ r, status r = CL_SUCCESS)
               ([rn; rsub; rctx; rprog; rbuild] ++ rs) ∧
        Forall (λ id, (DeviceId_to_nat id < 2)%nat) (elements_of ids) ∧
        context_m d = r_handle rctx ∧
        program_m d = r_handle rprog.
Proof.
  cbn [Device_Create]. intros Hrun.
  apply DspDevice_ctor_inv in Hrun
    as (rdev & rinfo & rfreq & dev0 & Hdev0 & Hsd & Hone & Hsf & Hbin & Hty
        & Hids & Hfreq & Hql & Hrest).
  exists rdev, rinfo, rfreq, dev0. split_and!; try done.
  destruct (r_value rinfo =? 1).
  - destruct Hrest as (rctx & rq & rprog & rbuild & Hlog & Hst & Hctx & Hprog
                       & Hq).
    by exists rctx, rq, rprog, rbuild.
  - destruct Hrest as (rn & rsub & rctx & rs & rprog & rbuild & Hlog & Hn
                       & Hlen & Hst & Hbd & Hctx & Hprog & Hmine & Hother).
    exists rn, rsub, rctx, rs, rprog, rbuild. split_and!; try done.
    eapply Forall_impl; [exact Hbd|]. by intros id [? _].
Qed.


(** X8.  The construction of an EVE device never throws.  When the
    enumeration succeeds and lists fewer devices than unit ids are
    requested, the assertion of the constructor fails, and the
    enumeration is the only call that was issued. *)
Theorem EveDevice_too_few (ids : DeviceIds) (name : string) (w : world) :
  let r := (exec (clGetDeviceIDs CL_DEVICE_TYPE_CUSTOM MAX_DEVICES)
                 (w_plat w)).1 in
  let run := Device_Create EVE ids name w in
  (∀ e, run.1 ≠ Throw e) ∧
  (status r = CL_SUCCESS → r_value r < Z.of_nat (size_of ids) →
   run.1 = AssertFail ∧
   issued w run.2 = [(clGetDeviceIDs CL_DEVICE_TYPE_CUSTOM MAX_DEVICES, r)]).
Proof.
  cbv zeta. split.
  - intros e. revert w e. change (nothrow (Device_Create EVE ids name)).
    apply sat_nothrow. cbn [Device_Create]. apply EveDevice_ctor_sat.
  - cbn [Device_Create]. unfold EveDevice_ctor.
    cbn [Device_ctor device_type_m device_ids_m].
    rewrite bind_run, cl_run. cbv zeta.
    set (c := clGetDeviceIDs CL_DEVICE_TYPE_CUSTOM MAX_DEVICES).
    set (r := (exec c (w_plat w)).1).
    intros Hst Hfew.
    rewrite bind_run, errorCheck_run, Hst, Z.eqb_refl.
    rewrite bind_run. unfold assert.
    destruct (Z.leb_spec (Z.of_nat (size_of ids)) (r_value r)); [lia|].
    cbn [abort fst snd cast_result]. split; [done|].
    apply issued_app. done.
Qed.

(** ** Construction and destruction of a kernel *)

Lemma created_buffers_app (l1 l2 : list (call * response)) :
  created_buffers (l1 ++ l2) = created_buffers l1 ++ created_buffers l2.
Proof. apply omap_app. Qed.

Lemma set_args_app (l1 l2 : list (call * response)) :
  set_args (l1 ++ l2) = set_args l1 ++ set_args l2.
Proof. apply omap_app. Qed.

Lemma args_to_set_cons kernel (n : nat) (arg : DeviceArgInfo)
    (args : list DeviceArgInfo) :
  args_to_set kernel n (arg :: args)
    = args_to_set kernel n [arg] ++ args_to_set kernel (S n) args.
Proof.
  unfold args_to_set. rewrite imap_cons.
  change (?x :: imap ?f args) with ([x] ++ imap f args).
  rewrite omap_app. f_equal. f_equal. apply imap_ext.
  intros i a _. cbn. f_equal. lia.
Qed.

(** One turn of the argument loop. *)
Lemma bind_arg_run device kernel (arg : DeviceArgInfo) (n n' : nat)
    (bs bs' : list handle) (w w' : world) :
  bind_arg device kernel arg (n, bs) w = (Ret (n', bs'), w') →
  ∃ l, w_log w' = w_log w ++ l ∧
       n' = S n ∧
       bs' = bs ++ created_buffers l ∧
       set_args l = args_to_set kernel n [arg].
Proof.
  unfold bind_arg, Device_CreateBuffer, args_to_set. cbn [imap omap].
  rewrite Nat.add_0_r.
  intros Hrun.
  destruct (arg_isLocal arg) eqn:Hloc, (arg_kind arg) eqn:Hkind;
    cbn [negb] in Hrun; minv Hrun.
  all: first [ eexists; split; [gather_log|]
             | exists []; split; [by rewrite app_nil_r|] ];
       cbn; rewrite ?app_nil_r, Hloc, ?Hkind; try done.
  split; [done|]. split; [|done].
  match goal with |- context [(?h =? nullptr)%N] =>
    destruct (h =? nullptr)%N; cbn; by rewrite ?app_nil_r end.
Qed.

(** The argument loop. *)
Lemma bind_args_run device kernel (args : list DeviceArgInfo) (n n' : nat)
    (bs bs' : list handle) (w w' : world) :
  for_each args (bind_arg device kernel) (n, bs) w = (Ret (n', bs'), w') →
  ∃ l, w_log w' = w_log w ++ l ∧
       n' = (n + length args)%nat ∧
       bs' = bs ++ created_buffers l ∧
       set_args l = args_to_set kernel n args.
Proof.
  revert n n' bs bs' w.
  induction args as [|arg args IH]; intros n n' bs bs' w Hrun.
  - injection Hrun as <- <- <-. exists []. rewrite !app_nil_r.
    split_and!; try done; cbn; lia.
  - cbn [for_each] in Hrun. apply bind_Ret_inv in Hrun.
    destruct Hrun as ([n1 bs1] & w1 & Hstep & Hrun).
    apply bind_arg_run in Hstep as (l1 & Hl1 & -> & -> & Hs1).
    apply IH in Hrun as (l2 & Hl2 & -> & -> & Hs2).
    exists (l1 ++ l2). split_and!.
    + by rewrite Hl2, Hl1, app_assoc.
    + cbn. lia.
    + by rewrite created_buffers_app, app_assoc.
    + by rewrite set_args_app, Hs1, Hs2, <- args_to_set_cons.
Qed.

(** What a constructed kernel is made of. *)
Lemma Kernel_ctor_inv device name (args : list DeviceArgInfo) device_index
    (w w' : world) (k : Kernel) :
  Kernel_ctor device name args device_index w = (Ret k, w') →
  ∃ r l,
    issued w w' = (clCreateKernel (program_m device) name, r) :: l ∧
    status r = CL_SUCCESS ∧
    k = {| name_m := name; device_m := device;
           device_index_m := device_index; kernel_m := r_handle r;
           event_m := replicate NUM_CONTEXTS nullptr;
           buffers_m := created_buffers l |} ∧
    set_args l = args_to_set (r_handle r) 0 args.
Proof.
  unfold Kernel_ctor. intros Hrun. minv Hrun.
  match goal with
  | Hb : for_each _ (bind_arg _ _) _ _ = _ |- _ =>
      apply bind_args_run in Hb as (calls & Hl & _ & Hbs & Hs)
  end.
  cbn [app] in Hbs. subst.
  match goal with Hc : w_log _ = w_log w ++ [(_, ?r)] |- _ =>
    exists r, calls end.
  split; [|done].
  apply issued_app. rewrite Hl, Hlog, <- app_assoc. reflexivity.
Qed.

Lemma Kernel_dtor_run (k : Kernel) (w : world) :
  (Kernel_dtor k w).1 = Ret tt ∧
  (issued w (Kernel_dtor k w).2).*1 =
    (clReleaseMemObject <$> buffers_m k) ++ [clReleaseKernel (kernel_m k)].
Proof.
  unfold Kernel_dtor. rewrite bind_run.
  assert (Hloop : ∀ l w, ∃ w' rs,
    for_each l (λ b _, Device_ReleaseBuffer (device_m k) b) tt w
      = (Ret tt, w') ∧
    w_log w' = w_log w ++ zip (clReleaseMemObject <$> l) rs ∧
    length rs = length l).
  { clear w. induction l as [|b l IH]; intros w.
    - exists w, []. by rewrite app_nil_r.
    - cbn [for_each]. rewrite bind_run. unfold Device_ReleaseBuffer at 1.
      rewrite bind_run, cl_run. cbn [mret M_ret].
      match goal with |- context [for_each l _ tt ?w1] =>
        destruct (IH w1) as (w' & rs & -> & Hlog & Hlen) end.
      eexists w', (_ :: rs). split; [done|]. cbn [w_log] in Hlog.
      rewrite Hlog, <- app_assoc. split; [done|]. cbn. by rewrite Hlen. }
  destruct (Hloop (buffers_m k) w) as (w' & rs & -> & Hlog & Hlen).
  rewrite bind_run, cl_run. cbn [mret M_ret fst snd]. split; [done|].
  erewrite issued_app; [|cbn [w_log]; rewrite Hlog, <- app_assoc; reflexivity].
  rewrite fmap_app. cbn. f_equal.
  rewrite fst_zip; [done|]. rewrite length_fmap. lia.
Qed.

(** X9.  A kernel that is constructed has set its arguments in the
    order of the argument list, each at the index of its position: a
    local argument and a scalar with their size, a buffer with the
    size of a [cl_mem]; an argument that is neither local, nor a
    buffer, nor a scalar is passed over and its index stays unset.
    Only the creation of the kernel itself has to succeed for this:
    no status of [clSetKernelArg] is looked at. *)
Theorem Kernel_ctor_arguments device name (args : list DeviceArgInfo)
    device_index (w w' : world) (k : Kernel) :
  Kernel_ctor device name args device_index w = (Ret k, w') →
  ∃ r,
    head (issued w w') = Some (clCreateKernel (program_m device) name, r) ∧
    status r = CL_SUCCESS ∧
    kernel_m k = r_handle r ∧
    set_args (issued w w') = args_to_set (kernel_m k) 0 args ∧
    Forall (λ kis, kis.1.2 < length args)%nat (set_args (issued w w')).
Proof.
  intros Hrun.
  apply Kernel_ctor_inv in Hrun as (r & l & Hlog & Hst & -> & Hs).
  exists r. rewrite Hlog. cbn [kernel_m].
  assert (Hsa : set_args ((clCreateKernel (program_m device) name, r) :: l)
                = set_args l) by done.
  rewrite Hsa, Hs. split_and!; try done.
  unfold args_to_set. apply Forall_forall. intros [[k' i] sz] Hin.
  apply list_elem_of_omap in Hin as ([j a] & Hin & Hsome).
  apply elem_of_lookup_imap in Hin as (j' & a' & E & Ha).
  injection E as -> ->. apply lookup_lt_Some in Ha. cbn.
  destruct (arg_isLocal a'); [by injection Hsome as _ <- _|].
  destruct (arg_kind a'); try discriminate; by injection Hsome as _ <- _.
Qed.

(** X10.  The destructor of a kernel always returns, whatever the
    platform answers, and after a construction that returned it
    releases exactly the buffers that the construction created and
    kept (the non-null ones), once each and in the order of their
    creation, and then the kernel that the construction created. *)
Theorem Kernel_buffers_released device name (args : list DeviceArgInfo)
    device_index (w w' w2 : world) (k : Kernel) :
  Kernel_ctor device name args device_index w = (Ret k, w') →
  ∃ r,
    head (issued w w') = Some (clCreateKernel (program_m device) name, r) ∧
    (Kernel_dtor k w2).1 = Ret tt ∧
    (issued w2 (Kernel_dtor k w2).2).*1 =
      (clReleaseMemObject <$> created_buffers (issued w w'))
      ++ [clReleaseKernel (r_handle r)].
Proof.
  intros Hrun.
  apply Kernel_ctor_inv in Hrun as (r & l & Hlog & Hst & -> & Hs).
  exists r. rewrite Hlog. split; [done|].
  destruct (Kernel_dtor_run
              {| name_m := name; device_m := device;
                 device_index_m := device_index; kernel_m := r_handle r;
                 event_m := replicate NUM_CONTEXTS nullptr;
                 buffers_m := created_buffers l |} w2) as [Hret Hcalls].
  split; [exact Hret|]. rewrite Hcalls. done.
Qed.


(** X12.  A callback can be added to a kernel between [RunAsync] and
    the [Wait] that completes it: after [RunAsync] returned,
    [AddCallback] for the same context registers the callback on the
    event that [clEnqueueTask] handed out, with one call, and returns
    whether that call succeeded (a failure does not end the process);
    if the event is null it returns false and issues no call.  Once
    [Wait] has returned true, [AddCallback] returns false and issues
    no call. *)
Theorem Kernel_AddCallback_pending (k k1 : Kernel) (context_idx : nat)
    (user_data : handle) (w w1 w2 : world) :
  Kernel_RunAsync k context_idx w = (Ret k1, w1) →
  ∃ queue renq,
    issued w w1 = [(clEnqueueTask queue (kernel_m k), renq)] ∧
    status renq = CL_SUCCESS ∧
    (if (r_handle renq =? nullptr)%N then
       Kernel_AddCallback k1 user_data context_idx w2 = (Ret false, w2)
     else
       let c := clSetEventCallback (r_handle renq) CL_COMPLETE user_data in
       let r := (exec c (w_plat w2)).1 in
       (Kernel_AddCallback k1 user_data context_idx w2).1
         = Ret (status r =? CL_SUCCESS) ∧
       issued w2 (Kernel_AddCallback k1 user_data context_idx w2).2
         = [(c, r)]) ∧
    ∀ k2 w3 w4,
      Kernel_Wait k1 context_idx w1 = (Ret (true, k2), w3) →
      Kernel_AddCallback k2 user_data context_idx w4 = (Ret false, w4).
Proof.
  unfold Kernel_RunAsync. intros Hrun. minv Hrun.
  match goal with Hc : w_log _ = w_log w ++ [(clEnqueueTask ?q _, ?r)] |- _ =>
    exists q, r end.
  split; [by apply issued_app|]. split; [done|]. split.
  - unfold Kernel_AddCallback, array_get. cbn [event_m set_event_m].
    rewrite bind_run, list_lookup_insert_eq by done. cbn [mret M_ret].
    match goal with |- context [(?h =? nullptr)%N] =>
      destruct (h =? nullptr)%N; [done|] end.
    cbv zeta. rewrite bind_run, cl_run. cbn [mret M_ret fst snd].
    split; [done|]. by apply issued_app.
  - intros k2 w3 w4 Hwait. unfold Kernel_Wait in Hwait. minv Hwait.
    unfold Kernel_AddCallback, array_get. cbn [event_m set_event_m].
    rewrite bind_run, list_lookup_insert_eq; [done|].
    by rewrite length_insert.
Qed.

(** ** The platform query *)

(** X13.  [GetNumDevices] returns a count other than zero only when the
    platform was found, both version queries and both name queries
    succeeded, the version string holds "01." followed by a version
    that is not below [MIN_OCL_VERSION], the platform name contains
    "AM57" and the enumeration succeeded with a number of devices
    other than zero.  These six calls are then all that was issued
    for the EVE class, and the count is the number of devices; for
    the DSP class one more call follows, the compute-unit query on
    the first device, which succeeded, and the count is its answer
    as an unsigned 32-bit number. *)
Theorem GetNumDevices_count (device_type : DeviceType) (w w' : world) (n : Z) :
  Executor_GetNumDevices device_type w = (Ret n, w') → n ≠ 0 →
  ∃ r0 r1 r2 r3 r4 r5 pos,
    let id := r_handle r0 in
    let t := if decide (device_type = EVE) then CL_DEVICE_TYPE_CUSTOM
             else CL_DEVICE_TYPE_ACCELERATOR in
    let queries :=
      [(clGetPlatformIDs 1, r0);
       (clGetPlatformInfo id CL_PLATFORM_VERSION 0, r1);
       (clGetPlatformInfo id CL_PLATFORM_VERSION (Z.to_nat (r_value r1)), r2);
       (clGetPlatformInfo id CL_PLATFORM_NAME 0, r3);
       (clGetPlatformInfo id CL_PLATFORM_NAME (Z.to_nat (r_value r3)), r4);
       (clGetDeviceIDs t MAX_DEVICES, r5)] in
    Forall (λ r, status r = CL_SUCCESS) [r0; r1; r2; r3; r4; r5] ∧
    find (r_string r2) "01." = Some pos ∧
    String.leb MIN_OCL_VERSION
               (substring pos sizeof_MIN_OCL_VERSION (r_string r2)) = true ∧
    find (r_string r4) "AM57" ≠ None ∧
    r_value r5 ≠ 0 ∧
    if t =? CL_DEVICE_TYPE_ACCELERATOR then
      ∃ dev0 r6,
        issued w w'
          = queries ++ [(clGetDeviceInfo dev0 CL_DEVICE_MAX_COMPUTE_UNITS, r6)] ∧
        filled MAX_DEVICES [] (r_handles r5) !! 0%nat = Some dev0 ∧
        status r6 = CL_SUCCESS ∧
        n = to_uint32 (r_value r6)
    else
      issued w w' = queries ∧ n = r_value r5.
Proof.
  unfold Executor_GetNumDevices, Device_GetNumDevices, PlatformIsAM57,
    CheckOpenCLVersion, substr.
  intros Hrun Hn. minv Hrun; try done.
  all: match goal with
       | Hs : match find ?v "01." with _ => _ end _ = (Ret _, _) |- _ =>
           destruct (find v "01.") as [pos|] eqn:Hfind; [|done];
           destruct (decide (pos ≤ String.length v)%nat); [|done];
           apply mret_inv in Hs as [<- ->]
       end.
  all: repeat match goal with
       | Hs : negb (status _ =? CL_SUCCESS) = false |- _ =>
           apply negb_false_iff, Z.eqb_eq in Hs
       end.
  all: match goal with
       | H0 : w_log _ = _ ++ [(clGetPlatformIDs 1, ?r0)],
         H1 : w_log _ = _ ++ [(clGetPlatformInfo _ CL_PLATFORM_VERSION 0,
                                ?r1)],
         H2 : w_log _ = _ ++ [(clGetPlatformInfo _ CL_PLATFORM_VERSION
                                 (Z.to_nat _), ?r2)],
         H3 : w_log _ = _ ++ [(clGetPlatformInfo _ CL_PLATFORM_NAME 0, ?r3)],
         H4 : w_log _ = _ ++ [(clGetPlatformInfo _ CL_PLATFORM_NAME
                                 (Z.to_nat _), ?r4)],
         H5 : w_log _ = _ ++ [(clGetDeviceIDs _ _, ?r5)] |- _ =>
           exists r0, r1, r2, r3, r4, r5, pos
       end.
  all: cbv zeta.
  all: split; [by repeat (apply Forall_cons; split; [done|])|].
  all: split; [done|]. all: split; [done|].
  all: split; [by match goal with Hf : find _ "AM57" = _ |- _ =>
                    rewrite Hf end|].
  all: split; [by apply Z.eqb_neq|].
  - match goal with
    | H6 : w_log _ = _ ++ [(clGetDeviceInfo ?dev0 _, ?r6)] |- _ =>
        exists dev0, r6
    end.
    split; [|done]. apply issued_app. gather_log.
  - split; [|done]. apply issued_app. gather_log.
Qed.

(** Run a computation forward in the hypothesis [H], one call at a
    time, splitting on the status of each call. *)
Ltac forward H :=
  repeat
    (cbv beta iota zeta in H;
     cbn [w_plat w_log negb cast_result mret M_ret throw undefined fst snd]
       in H;
     first
       [ rewrite bind_run in H
       | match type of H with
         | context [cl ?c ?w0] =>
             let r := fresh "r" in
             let s := fresh "s" in
             let E := fresh "Hexec" in
             rewrite (cl_run c w0) in H;
             destruct (exec c (w_plat w0)) as [r s] eqn:E
         end
       | match type of H with
         | context [status ?r =? CL_SUCCESS] =>
             let E := fresh "Hst" in
             destruct (status r =? CL_SUCCESS) eqn:E
         | context [find ?v ?p] =>
             let E := fresh "Hfind" in
             destruct (find v p) eqn:E
         | context [decide ?P] => destruct (decide P)
         | context [String.leb ?a ?b] =>
             let E := fresh "Hleb" in
             destruct (String.leb a b) eqn:E
         | context [array_get ?a ?i ?w0] =>
             let E := fresh "Hget" in
             unfold array_get in H; destruct (a !! i) eqn:E
         | context [if ?b then _ else _] =>
             let E := fresh "Hif" in
             destruct b eqn:E
         end ]).

(** The calls of a world that was run forward from [w]. *)
Ltac issued_list :=
  unfold issued; cbn [w_log fst snd];
  first [ rewrite drop_all | rewrite <- ?app_assoc, drop_app_length ];
  cbn [app].

(** X14.  [GetNumDevices] only asks: every call it issues is a query
    of the platform or of a device, at most seven of them, and it
    neither leaves the process nor fails an assertion.  When a query
    fails, that query is the last call and the result is 0. *)
Theorem GetNumDevices_probe (device_type : DeviceType) (w : world) :
  let run := Executor_GetNumDevices device_type w in
  let queries := issued w run.2 in
  Forall (λ cr, is_query cr.1 = true) queries ∧
  (length queries ≤ 7)%nat ∧
  (∀ code, run.1 ≠ Exit code) ∧ run.1 ≠ AssertFail ∧
  (∀ c r, (c, r) ∈ queries → status r ≠ CL_SUCCESS →
     run.1 = Ret 0 ∧ last queries = Some (c, r)).
Proof.
  cbv zeta.
  destruct (Executor_GetNumDevices device_type w) as [res w'] eqn:Hrun.
  cbn [fst snd].
  unfold Executor_GetNumDevices, Device_GetNumDevices, PlatformIsAM57,
    CheckOpenCLVersion, substr in Hrun.
  forward Hrun.
  all: injection Hrun as <- <-; issued_list.
  all: split; [by repeat constructor|].
  all: split; [cbn; lia|].
  all: split; [done|]. all: split; [done|].
  all: intros c rr Hin Hbad;
       repeat (apply elem_of_cons in Hin as [Hin|Hin]);
       try (by apply elem_of_nil in Hin);
       injection Hin as -> ->;
       try (exfalso; apply Hbad; by apply Z.eqb_eq);
       (split; [done|reflexivity]).
Qed.
(** ** The setup of the network parameters *)

Lemma bind_completes_inv {A B} (m : M A) (f : A → M B) (w : world) :
  completes ((m ≫= f) w).1 → nothrow m →
  ∃ a w1, m w = (Ret a, w1) ∧ (m ≫= f) w = f a w1.
Proof.
  rewrite bind_run. intros Hc Hn. specialize (Hn w).
  destruct (m w) as [[a|e|code| |] w1]; cbn in Hc; try done.
  - by exists a, w1.
  - by destruct (Hn e).
Qed.

Lemma scoped_completes_inv {A} (dtor : M unit) (body : M A) (w : world) :
  completes (scoped dtor body w).1 → returns dtor →
  ∃ res w1 w2, body w = (res, w1) ∧ completes res ∧
               dtor w1 = (Ret tt, w2) ∧ scoped dtor body w = (res, w2).
Proof.
  unfold scoped. intros Hc Hr.
  destruct (body w) as [[a|e|code| |] w1]; cbn in Hc; try done.
  - destruct (Hr w1) as [[] Hd]. destruct (dtor w1) as [res2 w2] eqn:Hdt.
    cbn in Hd. subst res2. by exists (Ret a), w1, w2.
  - destruct (Hr w1) as [[] Hd]. destruct (dtor w1) as [res2 w2] eqn:Hdt.
    cbn in Hd. subst res2. by exists (Throw e), w1, w2.
Qed.

Lemma mallocs_app (l1 l2 : list (call * response)) :
  mallocs (l1 ++ l2) = mallocs l1 ++ mallocs l2.
Proof. apply omap_app. Qed.

Lemma frees_app (l1 l2 : list (call * response)) :
  frees (l1 ++ l2) = frees l1 ++ frees l2.
Proof. apply omap_app. Qed.

Lemma without_alloc (l : list (call * response)) :
  without is_alloc l → mallocs l = [] ∧ frees l = [].
Proof.
  induction 1 as [|[c r] l Hc _ [IH1 IH2]]; [done|].
  unfold mallocs, frees in *. cbn [omap list_omap fst] in *.
  rewrite IH1, IH2. by destruct c.
Qed.

(** Take the functions of a kernel apart. *)
Ltac quiet_deep :=
  repeat first
    [ quiet_step
    | progress unfold Kernel_ctor, bind_arg, Device_CreateBuffer,
        Kernel_RunAsync, Kernel_Wait, Kernel_dtor, Device_ReleaseBuffer ].

Lemma Kernel_ctor_quiet_alloc device name args device_index :
  quiet is_alloc (Kernel_ctor device name args device_index).
Proof. quiet_deep. Qed.

Lemma Kernel_RunAsync_quiet_alloc k context_idx :
  quiet is_alloc (Kernel_RunAsync k context_idx).
Proof. quiet_deep. Qed.

Lemma Kernel_Wait_quiet_alloc k context_idx :
  quiet is_alloc (Kernel_Wait k context_idx).
Proof. quiet_deep. Qed.

Lemma Kernel_dtor_quiet_alloc k : quiet is_alloc (Kernel_dtor k).
Proof. quiet_deep. Qed.

Lemma bind_completes_run {A B} (m : M A) (f : A → M B) (w w' : world) res :
  (m ≫= f) w = (res, w') → completes res → nothrow m →
  ∃ a w1, m w = (Ret a, w1) ∧ f a w1 = (res, w').
Proof.
  intros Hrun Hc Hn.
  destruct (bind_completes_inv m f w) as (a & w1 & Hm & Heq);
    [by rewrite Hrun|done|].
  exists a, w1. split; [done|]. by rewrite <- Heq.
Qed.

Lemma scoped_completes_run {A} (dtor : M unit) (body : M A) (w w' : world)
    res :
  scoped dtor body w = (res, w') → completes res → returns dtor →
  ∃ w1, body w = (res, w1) ∧ dtor w1 = (Ret tt, w').
Proof.
  intros Hrun Hc Hr.
  destruct (scoped_completes_inv dtor body w) as (res' & w1 & w2 & Hb & _
                                                  & Hd & Heq);
    [by rewrite Hrun|done|].
  rewrite Hrun in Heq. injection Heq as -> ->. by exists w1.
Qed.

Lemma nothrow_cl (c : call) : nothrow (cl c).
Proof. intros w ex. by rewrite cl_run. Qed.

Lemma quiet_log hide {A} (m : M A) (w w' : world) res :
  quiet hide m → m w = (res, w') →
  ∃ l, w_log w' = w_log w ++ l ∧ without hide l.
Proof.
  intros Hq Hrun. destruct (Hq w) as (l & Hl & Hw). rewrite Hrun in Hl.
  by exists l.
Qed.

Lemma release_ddr_log (p : handle) (w w' : world) u :
  release_ddr p w = (Ret u, w') →
  ∃ l, w_log w' = w_log w ++ l ∧ mallocs l = [] ∧
       frees l = if (p =? nullptr)%N then [] else [p].
Proof.
  unfold release_ddr. intros Hrun.
  destruct (p =? nullptr)%N.
  - injection Hrun as _ <-. exists []. by rewrite app_nil_r.
  - minv Hrun. by eexists.
Qed.

Lemma malloc_ddr_T_log (size : N) (w w' : world) p :
  malloc_ddr_T size w = (Ret p, w') →
  ∃ r, w_log w' = w_log w ++ [(malloc_ddr size, r)] ∧
       p = r_handle r ∧ (p =? nullptr)%N = false.
Proof.
  unfold malloc_ddr_T. intros Hrun. minv Hrun.
  eexists. split; [done|]. split; [done|]. by apply negb_true_iff.
Qed.

(** Take one statement off a run that returns or throws. *)
Ltac cstep H Hc :=
  let a := fresh "a" in
  let w1 := fresh "w" in
  let H1 := fresh "Hm" in
  lazymatch type of H with
  | (_ ≫= _) _ = _ =>
      apply bind_completes_run in H as (a & w1 & H1 & H);
      [ | exact Hc
        | first [ apply nothrow_cl | apply sat_nothrow; sat_auto ] ]
  | scoped _ _ _ = _ =>
      apply scoped_completes_run in H as (w1 & H & H1);
      [ | exact Hc
        | auto using release_ddr_returns, Kernel_dtor_returns ]
  end;
  cbv beta zeta in H.

(** X15.  When [InitializeNetworkParams] returns or throws, it has
    allocated three buffers, none of them null: the network
    parameters, the setup parameters and the parameter heap.  It has
    freed the heap that the executor held before, if there was one,
    and then its two scratch buffers, the setup parameters first; the
    new heap is not freed, and on return the executor holds it. *)
Theorem InitializeNetworkParams_memory (e : ExecutorImpl) (cp : handle)
    (w w' : world) (res : result (bool * ExecutorImpl)) :
  InitializeNetworkParams e cp w = (res, w') → completes res →
  ∃ networkparam setupParams heap,
    mallocs (issued w w') = [networkparam; setupParams; heap] ∧
    frees (issued w w') =
      (if (shared_networkparam_heap_m e =? nullptr)%N then []
       else [shared_networkparam_heap_m e])
      ++ [setupParams; networkparam] ∧
    networkparam ≠ nullptr ∧ setupParams ≠ nullptr ∧ heap ≠ nullptr ∧
    ∀ b e', res = Ret (b, e') → e' = set_shared_networkparam_heap_m e heap.
Proof.
  unfold InitializeNetworkParams. cbv zeta. intros Hrun Hc.
  cstep Hrun Hc. cstep Hrun Hc. cstep Hrun Hc.
  cstep Hrun Hc. cstep Hrun Hc. cstep Hrun Hc. cstep Hrun Hc.
  cstep Hrun Hc. cstep Hrun Hc. cstep Hrun Hc. cstep Hrun Hc.
  cstep Hrun Hc. cstep Hrun Hc. cstep Hrun Hc. cstep Hrun Hc.
  cstep Hrun Hc.
  repeat match goal with
  | Hx : cl _ _ = (Ret _, _) |- _ => apply cl_inv in Hx as [Hx _]
  | Hx : assert _ _ = (Ret _, _) |- _ => apply assert_inv in Hx as [_ ->]
  | Hx : malloc_ddr_T _ _ = (Ret _, _) |- _ =>
      let r := fresh "rm" in
      let Hnn := fresh "Hnn" in
      apply malloc_ddr_T_log in Hx as (r & Hx & -> & Hnn)
  | Hx : release_ddr _ _ = (Ret _, _) |- _ =>
      let l := fresh "lr" in
      let Hm := fresh "Hmal" in
      let Hf := fresh "Hfree" in
      apply release_ddr_log in Hx as (l & Hx & Hm & Hf)
  | Hx : first_id _ _ = (Ret _, _) |- _ =>
      unfold first_id in Hx;
      destruct (elements_of _); [done|]; apply mret_inv in Hx as [_ ->]
  | Hx : Kernel_ctor _ _ _ _ _ = _ |- _ =>
      let l := fresh "lk" in
      let Hw := fresh "Hquiet" in
      apply (quiet_log _ _ _ _ _ (Kernel_ctor_quiet_alloc _ _ _ _)) in Hx
        as (l & Hx & Hw); apply without_alloc in Hw as [? ?]
  | Hx : Kernel_RunAsync _ _ _ = _ |- _ =>
      let l := fresh "lk" in
      let Hw := fresh "Hquiet" in
      apply (quiet_log _ _ _ _ _ (Kernel_RunAsync_quiet_alloc _ _)) in Hx
        as (l & Hx & Hw); apply without_alloc in Hw as [? ?]
  | Hx : Kernel_Wait _ _ _ = _ |- _ =>
      let l := fresh "lk" in
      let Hw := fresh "Hquiet" in
      apply (quiet_log _ _ _ _ _ (Kernel_Wait_quiet_alloc _ _)) in Hx
        as (l & Hx & Hw); apply without_alloc in Hw as [? ?]
  | Hx : Kernel_dtor _ _ = _ |- _ =>
      let l := fresh "lk" in
      let Hw := fresh "Hquiet" in
      apply (quiet_log _ _ _ _ _ (Kernel_dtor_quiet_alloc _)) in Hx
        as (l & Hx & Hw); apply without_alloc in Hw as [? ?]
  end.
  assert (Hend : w_log w12 = w_log w15 ∧
            ∀ b e', res = Ret (b, e') →
                    e' = set_shared_networkparam_heap_m e (r_handle rm)).
  { destruct (negb (r_value a11 =? OCL_TIDL_SUCCESS)).
    - injection Hrun as <- <-. done.
    - injection Hrun as <- <-. split; [done|]. by intros b e' [= _ <-]. }
  destruct Hend as [Hend Hheap].
  rewrite Hnn0 in Hfree0. rewrite Hnn1 in Hfree.
  apply N.eqb_neq in Hnn, Hnn0, Hnn1.
  exists (r_handle rm1), (r_handle rm0), (r_handle rm).
  full_log w.
  rewrite !mallocs_app, !frees_app.
  repeat match goal with
  | Hx : mallocs _ = _ |- _ => rewrite Hx; clear Hx
  | Hx : frees _ = _ |- _ => rewrite Hx; clear Hx
  end.
  cbn. rewrite ?app_nil_r. done.
Qed.







(** X17.  A second [RunAsync] for a context whose first was not waited
    for enqueues the kernel again on the same queue and puts the new
    event in the place of the first one.  The [Wait] that follows
    only deals with the second event: the first is neither waited for
    nor released. *)
Theorem Kernel_RunAsync_overwrites (k k1 k2 : Kernel) (context_idx : nat)
    (w w1 w2 w3 : world) :
  Kernel_RunAsync k context_idx w = (Ret k1, w1) →
  Kernel_RunAsync k1 context_idx w1 = (Ret k2, w2) →
  ∃ queue r1 r2,
    issued w w1 = [(clEnqueueTask queue (kernel_m k), r1)] ∧
    issued w1 w2 = [(clEnqueueTask queue (kernel_m k), r2)] ∧
    event_m k1 = <[context_idx:=r_handle r1]> (event_m k) ∧
    event_m k2 = <[context_idx:=r_handle r2]> (event_m k) ∧
    Forall (λ cr, cr.1 = clWaitForEvents (r_handle r2)
                  ∨ cr.1 = clReleaseEvent (r_handle r2))
           (issued w3 (Kernel_Wait k2 context_idx w3).2).
Proof.
  unfold Kernel_RunAsync. intros Hrun1 Hrun2. minv Hrun1. minv Hrun2.
  cbn [device_m device_index_m kernel_m event_m set_event_m] in *.
  match goal with
  | Hg1 : queue_m _ !! _ = Some ?q1, Hg2 : queue_m _ !! _ = Some ?q2 |- _ =>
      rewrite Hg1 in Hg2; injection Hg2 as <-
  end.
  match goal with
  | Ha : w_log _ = w_log w ++ [(clEnqueueTask ?q _, ?r1)],
    Hb : w_log _ = w_log _ ++ [(clEnqueueTask _ _, ?r2)] |- _ =>
      exists q, r1, r2
  end.
  split; [by apply issued_app|]. split; [by apply issued_app|].
  split; [done|]. split; [by rewrite list_insert_insert_eq|].
  destruct (Kernel_Wait _ context_idx w3) as [res w4] eqn:Hwait.
  unfold Kernel_Wait, array_get, array_set, errorCheck in Hwait.
  cbn [event_m set_event_m] in Hwait.
  rewrite list_lookup_insert_eq in Hwait by (by rewrite length_insert).
  forward Hwait.
  all: injection Hwait as <- <-; issued_list.
  all: repeat (apply Forall_cons; split; [cbn; auto|]).
  all: apply Forall_nil_2.
Qed.

(** ** A kernel on a constructed device *)

(** What [RunAsync] issues, whatever comes of it. *)
Lemma Kernel_RunAsync_calls (k : Kernel) (context_idx : nat) (w : world) :
  issued w (Kernel_RunAsync k context_idx w).2 =
    match queue_m (device_m k) !! device_index_m k with
    | Some queue =>
        [(clEnqueueTask queue (kernel_m k),
          (exec (clEnqueueTask queue (kernel_m k)) (w_plat w)).1)]
    | None => []
    end.
Proof.
  destruct (Kernel_RunAsync k context_idx w) as [res w'] eqn:Hrun.
  unfold Kernel_RunAsync, array_get, array_set, errorCheck in Hrun.
  destruct (queue_m (device_m k) !! device_index_m k) as [queue|].
  - forward Hrun.
    all: injection Hrun as <- <-; issued_list.
    all: reflexivity.
  - forward Hrun. injection Hrun as <- <-. by issued_list.
Qed.


(** X19.  On a DSP device that reported a single compute unit, only
    slot 0 holds a queue: a kernel bound to another unit below
    [MAX_DEVICES] is enqueued by [RunAsync] on the null queue, also
    when the id of that unit was requested. *)
Theorem Kernel_RunAsync_single_unit (ids : DeviceIds) (name : string)
    (w w' w2 : world) (d : Device) (k : Kernel) (context_idx : nat)
    (dev0 : handle) (rinfo : response) :
  Device_Create DSP ids name w = (Ret d, w') →
  (clGetDeviceInfo dev0 CL_DEVICE_MAX_COMPUTE_UNITS, rinfo) ∈ issued w w' →
  r_value rinfo = 1 →
  device_m k = d →
  (0 < device_index_m k < MAX_DEVICES)%nat →
  ∃ r,
    issued w2 (Kernel_RunAsync k context_idx w2).2
      = [(clEnqueueTask nullptr (kernel_m k), r)].
Proof.
  cbn [Device_Create]. intros Hrun Hin Hone Hdev Hidx.
  apply DspDevice_ctor_inv in Hrun
    as (rdev & rinfo' & rfreq & dev0' & Hdev0 & Hsd & Hfound & Hsf & Hbin & Hty
        & Hids & Hfreq & Hql & Hrest).
  assert (Hsame : rinfo' = rinfo).
  { destruct (r_value rinfo' =? 1).
    - destruct Hrest as (rctx & rq & rprog & rbuild & Hlog & _).
      rewrite Hlog in Hin.
      repeat (apply elem_of_cons in Hin as [Hin|Hin]; try discriminate).
      + by injection Hin as _ ->.
      + by apply elem_of_nil in Hin.
    - destruct Hrest as (rn & rsub & rctx & rs & rprog & rbuild & Hlog & _).
      cbv zeta in Hlog. rewrite Hlog in Hin.
      repeat (apply elem_of_cons in Hin as [Hin|Hin]; try discriminate).
      + by injection Hin as _ ->.
      + apply elem_of_app in Hin as [Hin|Hin].
        * unfold queues_for in Hin.
          apply elem_of_zip_with in Hin as (? & ? & ? & _). discriminate.
        * repeat (apply elem_of_cons in Hin as [Hin|Hin]; try discriminate).
          by apply elem_of_nil in Hin. }
  subst rinfo'. rewrite Hone in Hrest. cbn in Hrest.
  destruct Hrest as (rctx & rq & rprog & rbuild & _ & _ & _ & _ & Hq).
  rewrite Kernel_RunAsync_calls, Hdev, Hq.
  rewrite list_lookup_insert_ne by lia.
  rewrite lookup_replicate_2 by lia. by eexists.
Qed.

(** ** The end of the setup of the network parameters *)

Lemma without_buffer_call (l : list (call * response)) :
  without is_buffer_call l →
  created_buffers l = [] ∧ Forall (λ c, is_release c = false) l.*1.
Proof.
  induction 1 as [|[c r] l Hc _ [IH1 IH2]]; [by split|].
  unfold created_buffers in *. cbn [omap list_omap fst fmap list_fmap] in *.
  rewrite IH1. split.
  - by destruct c.
  - constructor; [|done]. by destruct c.
Qed.

Lemma without_release (l : list (call * response)) :
  without is_release l → Forall (λ c, is_release c = false) l.*1.
Proof.
  intros Hw. apply Forall_fmap. eapply Forall_impl; [exact Hw|]. done.
Qed.

Lemma Kernel_ctor_quiet_release device name args device_index :
  quiet is_release (Kernel_ctor device name args device_index).
Proof. quiet_deep. Qed.

Lemma Kernel_RunAsync_quiet_buffer k context_idx :
  quiet is_buffer_call (Kernel_RunAsync k context_idx).
Proof. quiet_deep. Qed.

Lemma Kernel_Wait_quiet_buffer k context_idx :
  quiet is_buffer_call (Kernel_Wait k context_idx).
Proof. quiet_deep. Qed.

Lemma release_ddr_calls (p : handle) (w w' : world) u :
  release_ddr p w = (Ret u, w') →
  (issued w w').*1 = if (p =? nullptr)%N then [] else [free_ddr p].
Proof.
  unfold release_ddr. intros Hrun.
  destruct (p =? nullptr)%N.
  - injection Hrun as _ <-. unfold issued. by rewrite drop_all.
  - minv Hrun. by rewrite (issued_app _ _ _ Hlog).
Qed.

Lemma release_ddr_run (p : handle) (w w' : world) u :
  release_ddr p w = (Ret u, w') →
  ∃ l, w_log w' = w_log w ++ l ∧
       l.*1 = (if (p =? nullptr)%N then [] else [free_ddr p]) ∧
       created_buffers l = [] ∧ mallocs l = [].
Proof.
  unfold release_ddr. intros Hrun.
  destruct (p =? nullptr)%N.
  - injection Hrun as _ <-. exists []. by rewrite app_nil_r.
  - minv Hrun. by eexists.
Qed.

Lemma created_buffers_releases (l : list (call * response)) :
  Forall (λ c, is_release c = true) l.*1 → created_buffers l = [].
Proof.
  induction l as [|[c r] l IH]; [done|].
  cbn [fmap list_fmap fst]. intros [Hc Hl]%Forall_cons.
  unfold created_buffers in *. cbn [omap list_omap fst].
  rewrite (IH Hl). by destruct c.
Qed.

Lemma Kernel_dtor_log (k : Kernel) (w w' : world) u :
  Kernel_dtor k w = (Ret u, w') →
  ∃ l, w_log w' = w_log w ++ l ∧
       l.*1 = (clReleaseMemObject <$> buffers_m k)
              ++ [clReleaseKernel (kernel_m k)] ∧
       created_buffers l = [] ∧ mallocs l = [].
Proof.
  intros Hrun.
  destruct (quiet_log _ _ _ _ _ (Kernel_dtor_quiet_alloc k) Hrun)
    as (l & Hl & Hw).
  destruct (Kernel_dtor_run k w) as [_ Hcalls]. rewrite Hrun in Hcalls.
  cbn [snd] in Hcalls. rewrite (issued_app _ _ _ Hl) in Hcalls.
  exists l. split; [done|]. split; [done|].
  split; [|by apply without_alloc].
  apply created_buffers_releases. rewrite Hcalls.
  apply Forall_app. split; [|by constructor].
  by apply Forall_fmap, Forall_true.
Qed.

Lemma quiet_log_both hide1 hide2 {A} (m : M A) (w w' : world) res :
  quiet hide1 m → quiet hide2 m → m w = (res, w') →
  ∃ l, w_log w' = w_log w ++ l ∧ without hide1 l ∧ without hide2 l.
Proof.
  intros Hq1 Hq2 Hrun.
  destruct (quiet_log _ _ _ _ _ Hq1 Hrun) as (l & Hl & Hw1).
  destruct (quiet_log _ _ _ _ _ Hq2 Hrun) as (l' & Hl' & Hw2).
  rewrite Hl in Hl'. apply app_inv_head in Hl' as <-. by exists l.
Qed.

Lemma Kernel_ctor_log device name (args : list DeviceArgInfo) device_index
    (w w' : world) (k : Kernel) :
  Kernel_ctor device name args device_index w = (Ret k, w') →
  ∃ r l,
    w_log w' = w_log w ++ l ∧
    (clCreateKernel (program_m device) name, r) ∈ l ∧
    kernel_m k = r_handle r ∧ buffers_m k = created_buffers l ∧
    mallocs l = [] ∧ Forall (λ c, is_release c = false) l.*1.
Proof.
  intros Hrun.
  destruct (quiet_log_both _ _ _ _ _ _ (Kernel_ctor_quiet_alloc _ _ _ _)
              (Kernel_ctor_quiet_release _ _ _ _) Hrun)
    as (l & Hl & [Hmal _]%without_alloc & Hrel%without_release).
  apply Kernel_ctor_inv in Hrun as (r & calls & Hiss & _ & -> & _).
  rewrite (issued_app _ _ _ Hl) in Hiss. subst l.
  exists r, ((clCreateKernel (program_m device) name, r) :: calls).
  split; [done|]. split; [by left|]. done.
Qed.

Lemma Kernel_run_log {A} (m : M A) (w w' : world) res :
  quiet is_alloc m → quiet is_buffer_call m → m w = (res, w') →
  ∃ l, w_log w' = w_log w ++ l ∧ created_buffers l = [] ∧
       mallocs l = [] ∧ Forall (λ c, is_release c = false) l.*1.
Proof.
  intros Hq1 Hq2 Hrun.
  destruct (quiet_log_both _ _ _ _ _ _ Hq1 Hq2 Hrun)
    as (l & Hl & [Hmal _]%without_alloc & [Hcb Hrel]%without_buffer_call).
  by exists l.
Qed.

(** X20.  When [InitializeNetworkParams] returns or throws, its last
    calls are, in this order: the release of every buffer that was
    created in the run and kept, the release of the setup kernel, the
    freeing of the setup parameters and the freeing of the network
    parameters.  Nothing was released before: the buffers that wrap
    the scratch memory are gone before that memory is freed, and a
    buffer is released once for each time it was created. *)
Theorem InitializeNetworkParams_teardown (e : ExecutorImpl) (cp : handle)
    (w w' : world) (res : result (bool * ExecutorImpl)) :
  InitializeNetworkParams e cp w = (res, w') → completes res →
  ∃ pre rk setupParams networkparam,
    (issued w w').*1 =
      pre ++ (clReleaseMemObject <$> created_buffers (issued w w'))
          ++ [clReleaseKernel (r_handle rk); free_ddr setupParams;
              free_ddr networkparam] ∧
    Forall (λ c, is_release c = false) pre ∧
    (clCreateKernel (program_m (ei_device_m e)) SETUP_KERNEL, rk)
      ∈ issued w w' ∧
    mallocs (issued w w') !! 0%nat = Some networkparam ∧
    mallocs (issued w w') !! 1%nat = Some setupParams.
Proof.
  unfold InitializeNetworkParams. cbv zeta. intros Hrun Hc.
  do 16 cstep Hrun Hc.
  assert (Hend : w_log w12 = w_log w15).
  { destruct (negb (r_value a11 =? OCL_TIDL_SUCCESS));
      by injection Hrun as _ <-. }
  clear Hrun Hc.
  cbn [ei_device_m ei_device_ids_m set_shared_networkparam_heap_m] in *.
  apply cl_inv in Hm as [Hm _]. apply cl_inv in Hm2 as [Hm2 _].
  apply cl_inv in Hm6 as [Hm6 _]. apply cl_inv in Hm14 as [Hm14 _].
  apply assert_inv in Hm3 as [_ ->].
  apply malloc_ddr_T_log in Hm0 as (r0 & Hm0 & -> & Hnn0).
  apply malloc_ddr_T_log in Hm4 as (r1 & Hm4 & -> & Hnn1).
  apply malloc_ddr_T_log in Hm7 as (r2 & Hm7 & -> & _).
  apply release_ddr_run in Hm8 as (lr & Hm8 & Hcalls & Hcbr & Hmalr).
  unfold first_id in Hm9.
  destruct (elements_of _); [done|]. apply mret_inv in Hm9 as [_ ->].
  apply Kernel_ctor_log in Hm10
    as (rk & lc & Hm10 & Hin & Hkernel & Hbuffers & Hmalc & Hrelc).
  apply (Kernel_run_log _ _ _ _ (Kernel_RunAsync_quiet_alloc _ _)
           (Kernel_RunAsync_quiet_buffer _ _)) in Hm12
    as (lk0 & Hm12 & Hcb0 & Hmal0 & Hrel0).
  apply (Kernel_run_log _ _ _ _ (Kernel_Wait_quiet_alloc _ _)
           (Kernel_Wait_quiet_buffer _ _)) in Hm13
    as (lk1 & Hm13 & Hcb1 & Hmal1 & Hrel1).
  apply Kernel_dtor_log in Hm11 as (ld & Hm11 & Hcallsd & Hcbd & Hmald).
  apply release_ddr_run in Hm5 as (ls & Hm5 & Hcallss & Hcbs & Hmals).
  apply release_ddr_run in Hm1 as (ln & Hm1 & Hcallsn & Hcbn & Hmaln).
  rewrite Hnn1 in Hcallss. rewrite Hnn0 in Hcallsn.
  eassert (Hpre : w_log w12 = w_log w ++ _) by gather_log.
  match type of Hpre with _ = _ ++ ?P => set (pre := P) in Hpre end.
  assert (Hfull : w_log w' = w_log w ++ pre ++ ld ++ ls ++ ln).
  { rewrite Hm1, Hm5, Hm11, Hpre, <- !app_assoc. done. }
  rewrite !(issued_app _ _ _ Hfull).
  assert (Hcb : created_buffers pre = created_buffers lc).
  { unfold pre. rewrite !created_buffers_app, Hcbr, Hcb0, Hcb1. cbn.
    by rewrite ?app_nil_r. }
  assert (Hmal : mallocs pre = [r_handle r0; r_handle r1; r_handle r2]).
  { unfold pre. rewrite !mallocs_app, Hmalr, Hmalc, Hmal0, Hmal1. done. }
  exists pre.*1, rk, (r_handle r1), (r_handle r0).
  rewrite !created_buffers_app, !mallocs_app, !fmap_app.
  rewrite Hcb, Hcbd, Hcbs, Hcbn, Hmal, Hcallsd, Hcallss, Hcallsn.
  rewrite Hkernel, Hbuffers, !app_nil_r, <- !app_assoc.
  split; [done|]. split; [|split; [|done]].
  - unfold pre. rewrite !fmap_app, !Forall_app, Hcalls.
    split_and!; try done; try by repeat constructor.
    destruct (shared_networkparam_heap_m e =? nullptr)%N;
      by repeat constructor.
  - unfold pre. in_log.
Qed.
End Properties.

(** * The properties on the boards *)

Lemma board_buffers_nonnull (b : board) :
  (∀ c, b_force b c = None) →
  ∀ ctx flags size p s,
    status (@exec (board_platform b) (clCreateBuffer ctx flags size p) s).1
      = CL_SUCCESS →
    r_handle (@exec (board_platform b) (clCreateBuffer ctx flags size p) s).1
      ≠ nullptr.
Proof.
  intros Hforce ctx flags size p s _. cbn. unfold board_exec.
  rewrite Hforce. cbn. apply N.neq_succ_0.
Qed.


Lemma Kernel_Wait_without_RunAsync_witness :
  event_m demo_kernel !! 1%nat = Some nullptr ∧
  @Kernel_Wait (board_platform am57x) demo_kernel 1 (boot am57x)
    = (Ret (false, demo_kernel), boot am57x).
Proof.
  split; [reflexivity|].
  apply (@Kernel_Wait_without_RunAsync (board_platform am57x)). reflexivity.
Defined.

Lemma GetNumDevices_throws_witness :
  @find (b_version pocl_host) "01." = None ∧
  (@Executor_GetNumDevices (board_platform pocl_host) headers EVE
     (boot pocl_host)).1 = Throw std_out_of_range ∧
  (@Executor_GetNumDevices (board_platform pocl_host) headers DSP
     (boot pocl_host)).1 = Throw std_out_of_range.
Proof.
  split; [reflexivity|]. split.
  - apply (@GetNumDevices_throws (board_platform pocl_host) headers EVE
             (boot pocl_host)); reflexivity.
  - apply (@GetNumDevices_throws (board_platform pocl_host) headers DSP
             (boot pocl_host)); reflexivity.
Defined.

Lemma Kernel_Wait_one_shot_witness :
  ∃ k1 w1 k2 w2,
    @Kernel_RunAsync (board_platform am57x) demo_kernel 1 (boot am57x)
      = (Ret k1, w1) ∧
    @Kernel_Wait (board_platform am57x) k1 1 w1 = (Ret (true, k2), w2) ∧
    event_m k2 !! 1%nat = Some nullptr ∧
    @Kernel_Wait (board_platform am57x) k2 1 w2 = (Ret (false, k2), w2).
Proof.
  destruct (@Kernel_RunAsync (board_platform am57x) demo_kernel 1
              (boot am57x)) as [r1 w1] eqn:E1.
  assert (∃ k1, r1 = Ret k1) as [k1 ->]
    by (vm_compute in E1; injection E1 as <- _; by eexists).
  destruct (@Kernel_Wait (board_platform am57x) k1 1 w1) as [r2 w2] eqn:E2.
  assert (∃ k2, r2 = Ret (true, k2)) as [k2 ->].
  { vm_compute in E1. injection E1 as <- <-. vm_compute in E2.
    injection E2 as <- _. by eexists. }
  exists k1, w1, k2, w2. split; [reflexivity|]. split; [exact E2|].
  exact (proj2 (@Kernel_Wait_one_shot (board_platform am57x) demo_kernel
                   k1 k2 1 (boot am57x) w1 w2 E1 E2)).
Defined.

Lemma Device_CreateBuffer_policy_witness :
  (∀ ctx flags size p s,
      status (@exec (board_platform am57x)
                (clCreateBuffer ctx flags size p) s).1 = CL_SUCCESS →
      r_handle (@exec (board_platform am57x)
                  (clCreateBuffer ctx flags size p) s).1 ≠ nullptr) ∧
  ((@Device_CreateBuffer (board_platform am57x) demo_device (demo_arg 0%N)
      (boot am57x)).1 = Ret nullptr ↔ arg_ptr (demo_arg 0%N) = nullptr) ∧
  ((@Device_CreateBuffer (board_platform am57x) demo_device (demo_arg 4096%N)
      (boot am57x)).1 = Ret nullptr ↔ arg_ptr (demo_arg 4096%N) = nullptr).
Proof.
  split; [by apply board_buffers_nonnull|]. split.
  - exact (proj1 (@Device_CreateBuffer_policy (board_platform am57x)
                    demo_device (demo_arg 0%N) (boot am57x)
                    (board_buffers_nonnull am57x (λ _, eq_refl)))).
  - exact (proj1 (@Device_CreateBuffer_policy (board_platform am57x)
                    demo_device (demo_arg 4096%N) (boot am57x)
                    (board_buffers_nonnull am57x (λ _, eq_refl)))).
Defined.



(** C9 as stated fails: on a DSP device with a single compute unit and
    two requested unit ids, one queue is opened and the slot of the
    second id stays null. *)
Lemma Device_Create_single_unit_counterexample :
  ∃ d w',
    @Device_Create (board_platform am57x_single) headers DSP {[ID0; ID1]} ""
      (boot am57x_single) = (Ret d, w') ∧
    size_of {[ID0; ID1]} = 2%nat ∧
    length (queue_calls (issued (boot am57x_single) w')) = 1%nat ∧
    queue_m d !! DeviceId_to_nat ID1 = Some nullptr.
Proof.
  eexists _, _. split; [vm_compute; reflexivity|].
  split; [vm_compute; reflexivity|]. split; vm_compute; reflexivity.
Qed.

Lemma Device_Create_queues_witness :
  ∃ d w',
    @Device_Create (board_platform am57x) headers EVE {[ID0; ID1]}
      "ocl_tidl_setup;ocl_tidl_initialize;ocl_tidl_process;ocl_tidl_cleanup"
      (boot am57x) = (Ret d, w') ∧
    ∃ rdev,
      (clGetDeviceIDs CL_DEVICE_TYPE_CUSTOM 4, rdev)
        ∈ issued (boot am57x) w' ∧
      @one_queue_per_id headers d (filled 4 [] (r_handles rdev))
        (Z.lor CL_QUEUE_PROFILING_ENABLE CL_QUEUE_OUT_OF_ORDER_EXEC_MODE_ENABLE)
        {[ID0; ID1]} (queue_calls (issued (boot am57x) w')).
Proof.
  destruct (@Device_Create (board_platform am57x) headers EVE {[ID0; ID1]}
      "ocl_tidl_setup;ocl_tidl_initialize;ocl_tidl_process;ocl_tidl_cleanup"
      (boot am57x)) as [[d| | | |] w'] eqn:E;
    try (vm_compute in E; discriminate).
  exists d, w'. split; [reflexivity|].
  exact (@Device_Create_queues (board_platform am57x) headers EVE
           {[ID0; ID1]} _ (boot am57x) w' d E).
Defined.




Lemma WriteFrameOutput_first_maximum_witness :
  5 ≤ Z.of_nat (length [0%N; 3%N; 7%N; 7%N; 2%N]) ∧
  ∃ maxval maxloc,
    WriteFrameOutput [0%N; 3%N; 7%N; 7%N; 2%N] 5 = Some (maxval, maxloc) ∧
    (∀ i b, Z.of_nat i < 5 → [0%N; 3%N; 7%N; 7%N; 2%N] !! i = Some b →
            (b ≤ maxval)%N) ∧
    maxloc = 2.
Proof.
  assert (Hsize : 5 ≤ Z.of_nat (length [0%N; 3%N; 7%N; 7%N; 2%N]))
    by (cbn; lia).
  split; [exact Hsize|].
  destruct (proj1 (WriteFrameOutput_first_maximum [0%N; 3%N; 7%N; 7%N; 2%N] 5)
              Hsize) as (maxval & maxloc & Hrun & Hmax & _).
  exists maxval, maxloc. split; [exact Hrun|]. split; [exact Hmax|].
  vm_compute in Hrun. by injection Hrun as _ <-.
Defined.

Lemma error2string_names_witness :
  ¬ (-12 ≤ -20 ≤ 0 ∨ -63 ≤ -20 ≤ -30) ∧
  error2string (-20) = "Unknown OpenCL error" ∧
  error2string (-11) = "CL_BUILD_PROGRAM_FAILURE".
Proof.
  assert (Hout : ¬ (-12 ≤ -20 ≤ 0 ∨ -63 ≤ -20 ≤ -30)) by lia.
  split; [exact Hout|]. split.
  - exact (proj2 (proj1 (error2string_names (-20) 0)) Hout).
  - reflexivity.
Defined.

Lemma Device_dtor_queues_witness :
  ∃ d w',
    @Device_Create (board_platform am57x) headers EVE {[ID1]}
      "ocl_tidl_process" (boot am57x) = (Ret d, w') ∧
    take (size_of {[ID1]}) (queue_m d) !! 0%nat = Some nullptr ∧
    queue_m d !! 1%nat = Some 102%N.
Proof.
  destruct (@Device_Create (board_platform am57x) headers EVE {[ID1]}
              "ocl_tidl_process" (boot am57x)) as [[d| | | |] w'] eqn:E;
    try (vm_compute in E; discriminate).
  exists d, w'. split; [reflexivity|].
  destruct (@Device_dtor_queues (board_platform am57x) headers _ _ _ _ _ E)
    as (_ & _ & Hnull & _).
  split.
  - apply Hnull; [vm_compute; lia|].
    intros id Hin. apply elem_of_singleton in Hin as ->. done.
  - vm_compute in E. by injection E as <- _.
Defined.

Lemma EveDevice_ctor_calls_witness :
  ∃ d w',
    @Device_Create (board_platform am57x) headers EVE {[ID0; ID1]}
      "ocl_tidl_process" (boot am57x) = (Ret d, w') ∧
    device_ids_m d = {[ID0; ID1]} ∧
    Forall (λ cr, status cr.2 = CL_SUCCESS) (issued (boot am57x) w').
Proof.
  destruct (@Device_Create (board_platform am57x) headers EVE {[ID0; ID1]}
              "ocl_tidl_process" (boot am57x)) as [[d| | | |] w'] eqn:E;
    try (vm_compute in E; discriminate).
  exists d, w'. split; [reflexivity|].
  destruct (@EveDevice_ctor_calls (board_platform am57x) headers _ _ _ _ _ E)
    as (rdev & rctx & rs & rprog & rfreq & dev0 & _ & _ & _ & _ & Hst & Hids
        & _).
  by split.
Defined.

Lemma DspDevice_ctor_calls_witness :
  ∃ d w',
    @Device_Create (board_platform am57x) headers DSP {[ID0]} ""
      (boot am57x) = (Ret d, w') ∧
    ∃ rfreq, status rfreq = CL_SUCCESS ∧ freq_in_mhz_m d = r_value rfreq.
Proof.
  destruct (@Device_Create (board_platform am57x) headers DSP {[ID0]} ""
              (boot am57x)) as [[d| | | |] w'] eqn:E;
    try (vm_compute in E; discriminate).
  exists d, w'. split; [reflexivity|].
  destruct (@DspDevice_ctor_calls (board_platform am57x) headers _ _ _ _ _ E)
    as (rdev & rinfo & rfreq & dev0 & _ & _ & _ & Hsf & _ & Hfreq & _).
  by exists rfreq.
Defined.


Lemma EveDevice_too_few_witness :
  let r := (@exec (board_platform am57x)
              (clGetDeviceIDs CL_DEVICE_TYPE_CUSTOM (@MAX_DEVICES headers))
              100%N).1 in
  (status r = CL_SUCCESS ∧ r_value r < Z.of_nat (size_of {[ID0; ID1; ID2]})) ∧
  (@Device_Create (board_platform am57x) headers EVE {[ID0; ID1; ID2]} ""
     (boot am57x)).1 = AssertFail.
Proof.
  intros r.
  assert (Hr : status r = CL_SUCCESS
               ∧ r_value r < Z.of_nat (size_of {[ID0; ID1; ID2]}))
    by (by vm_compute).
  split; [exact Hr|].
  exact (proj1 (proj2 (@EveDevice_too_few (board_platform am57x) headers
                         {[ID0; ID1; ID2]} "" (boot am57x))
                      (proj1 Hr) (proj2 Hr))).
Defined.

Lemma Kernel_ctor_arguments_witness :
  ∃ k w',
    @Kernel_ctor (board_platform am57x) headers demo_device "ocl_tidl_process"
      [demo_arg 200%N; demo_arg 0%N] 1 (boot am57x) = (Ret k, w') ∧
    set_args (issued (boot am57x) w')
      = [(kernel_m k, 0%nat, @sizeof_cl_mem headers);
         (kernel_m k, 1%nat, @sizeof_cl_mem headers)].
Proof.
  destruct (@Kernel_ctor (board_platform am57x) headers demo_device
              "ocl_tidl_process" [demo_arg 200%N; demo_arg 0%N] 1
              (boot am57x)) as [[k| | | |] w'] eqn:E;
    try (vm_compute in E; discriminate).
  exists k, w'. split; [reflexivity|].
  destruct (@Kernel_ctor_arguments (board_platform am57x) headers _ _ _ _ _ _
              _ E) as (r & _ & _ & _ & Hargs & _).
  exact Hargs.
Defined.

Lemma Kernel_buffers_released_witness :
  ∃ k w',
    @Kernel_ctor (board_platform am57x) headers demo_device "ocl_tidl_process"
      [demo_arg 200%N; demo_arg 0%N] 1 (boot am57x) = (Ret k, w') ∧
    (issued w' (@Kernel_dtor (board_platform am57x) k w').2).*1
      = [clReleaseMemObject 102%N; clReleaseKernel 101%N].
Proof.
  destruct (@Kernel_ctor (board_platform am57x) headers demo_device
              "ocl_tidl_process" [demo_arg 200%N; demo_arg 0%N] 1
              (boot am57x)) as [[k| | | |] w'] eqn:E;
    try (vm_compute in E; discriminate).
  exists k, w'. split; [reflexivity|].
  destruct (@Kernel_buffers_released (board_platform am57x) headers _ _ _ _ _
              _ w' _ E) as (r & Hhead & _ & Hcalls).
  rewrite Hcalls. vm_compute in E. injection E as _ <-.
  vm_compute in Hhead. injection Hhead as <-. reflexivity.
Defined.


Lemma Kernel_AddCallback_pending_witness :
  ∃ k1 w1,
    @Kernel_RunAsync (board_platform am57x) demo_kernel 1 (boot am57x)
      = (Ret k1, w1) ∧
    ∃ queue renq,
      issued (boot am57x) w1
        = [(clEnqueueTask queue (kernel_m demo_kernel), renq)] ∧
      status renq = CL_SUCCESS.
Proof.
  destruct (@Kernel_RunAsync (board_platform am57x) demo_kernel 1
              (boot am57x)) as [[k1| | | |] w1] eqn:E;
    try (vm_compute in E; discriminate).
  exists k1, w1. split; [reflexivity|].
  destruct (@Kernel_AddCallback_pending (board_platform am57x) _ _ _
              nullptr _ _ w1 E) as (queue & renq & Hlog & Hst & _).
  by exists queue, renq.
Defined.

Lemma Kernel_RunAsync_overwrites_witness :
  ∃ k1 w1 k2 w2,
    @Kernel_RunAsync (board_platform am57x) demo_kernel 1 (boot am57x)
      = (Ret k1, w1) ∧
    @Kernel_RunAsync (board_platform am57x) k1 1 w1 = (Ret k2, w2) ∧
    event_m k1 !! 1%nat = Some 101%N ∧
    event_m k2 !! 1%nat = Some 102%N ∧
    (issued w2 (@Kernel_Wait (board_platform am57x) k2 1 w2).2).*1
      = [clWaitForEvents 102%N; clReleaseEvent 102%N].
Proof.
  destruct (@Kernel_RunAsync (board_platform am57x) demo_kernel 1
              (boot am57x)) as [[k1| | | |] w1] eqn:E1;
    try (vm_compute in E1; discriminate).
  destruct (@Kernel_RunAsync (board_platform am57x) k1 1 w1)
    as [[k2| | | |] w2] eqn:E2;
    try (vm_compute in E1; injection E1 as <- <-; vm_compute in E2;
         discriminate).
  exists k1, w1, k2, w2. split; [reflexivity|]. split; [exact E2|].
  destruct (@Kernel_RunAsync_overwrites (board_platform am57x) _ _ _
              _ _ _ _ w2 E1 E2) as (queue & r1 & r2 & _ & _ & Hk1 & Hk2 & _).
  vm_compute in E1. injection E1 as <- <-.
  vm_compute in E2. injection E2 as <- <-.
  split; [reflexivity|]. split; reflexivity.
Defined.

Lemma GetNumDevices_count_witness :
  ∃ n w',
    @Executor_GetNumDevices (board_platform am57x) headers EVE (boot am57x)
      = (Ret n, w') ∧
    n ≠ 0 ∧
    length (issued (boot am57x) w') = 6%nat.
Proof.
  destruct (@Executor_GetNumDevices (board_platform am57x) headers EVE
              (boot am57x)) as [[n| | | |] w'] eqn:E;
    try (vm_compute in E; discriminate).
  assert (Hn : n ≠ 0) by (vm_compute in E; by injection E as <- _).
  exists n, w'. split; [reflexivity|]. split; [exact Hn|].
  destruct (@GetNumDevices_count (board_platform am57x) headers _ _ _ _ E Hn)
    as (r0 & r1 & r2 & r3 & r4 & r5 & pos & _ & _ & _ & _ & _ & Hlog).
  cbv zeta in Hlog. destruct (decide (EVE = EVE)); [|done].
  change (CL_DEVICE_TYPE_CUSTOM =? CL_DEVICE_TYPE_ACCELERATOR) with false
    in Hlog.
  destruct Hlog as [-> _]. reflexivity.
Defined.

Lemma InitializeNetworkParams_memory_witness :
  ∃ res w',
    @InitializeNetworkParams (board_platform am57x) headers demo_executor
      200%N (boot am57x) = (res, w') ∧
    completes res ∧
    mallocs (issued (boot am57x) w') = [101%N; 102%N; 103%N] ∧
    frees (issued (boot am57x) w') = [102%N; 101%N].
Proof.
  destruct (@InitializeNetworkParams (board_platform am57x) headers
              demo_executor 200%N (boot am57x)) as [res w'] eqn:E.
  assert (Hc : completes res) by (vm_compute in E; by injection E as <- _).
  exists res, w'. split; [reflexivity|]. split; [exact Hc|].
  destruct (@InitializeNetworkParams_memory (board_platform am57x) headers _
              _ _ _ _ E Hc) as (np & sp & heap & Hm & Hf & _).
  rewrite Hf, Hm. vm_compute in E. injection E as _ <-.
  vm_compute in Hm. injection Hm as <- <- <-. split; reflexivity.
Defined.




Lemma Kernel_RunAsync_single_unit_witness :
  ∃ d w',
    @Device_Create (board_platform am57x_single) headers DSP {[ID0; ID1]} ""
      (boot am57x_single) = (Ret d, w') ∧
    ID1 ∈ device_ids_m d ∧
    ∃ r,
      issued w'
        (@Kernel_RunAsync (board_platform am57x_single)
           {| name_m := "ocl_tidl_process"; device_m := d;
              device_index_m := DeviceId_to_nat ID1; kernel_m := 119%N;
              event_m := [0%N; 0%N]; buffers_m := [] |} 0 w').2
      = [(clEnqueueTask nullptr 119%N, r)].
Proof.
  destruct (@Device_Create (board_platform am57x_single) headers DSP
              {[ID0; ID1]} "" (boot am57x_single)) as [[d| | | |] w'] eqn:E;
    try (vm_compute in E; discriminate).
  exists d, w'. split; [reflexivity|].
  assert (Hin :
    (clGetDeviceInfo 10%N CL_DEVICE_MAX_COMPUTE_UNITS,
     answer CL_SUCCESS 0%N [] 1 "" empty_net)
      ∈ issued (boot am57x_single) w').
  { vm_compute in E. injection E as _ <-. apply list_elem_of_In. vm_compute.
    right. left. reflexivity. }
  assert (Hids : ID1 ∈ device_ids_m d).
  { vm_compute in E. injection E as <- _. cbn [device_ids_m]. set_solver. }
  split; [exact Hids|].
  exact (@Kernel_RunAsync_single_unit (board_platform am57x_single) headers
           {[ID0; ID1]} "" (boot am57x_single) w' w' d
           {| name_m := "ocl_tidl_process"; device_m := d;
              device_index_m := DeviceId_to_nat ID1; kernel_m := 119%N;
              event_m := [0%N; 0%N]; buffers_m := [] |} 0 10%N _ E Hin
           eq_refl eq_refl ltac:(vm_compute; lia)).
Defined.

Lemma InitializeNetworkParams_teardown_witness :
  ∃ res w',
    @InitializeNetworkParams (board_platform am57x) headers demo_executor
      200%N (boot am57x) = (res, w') ∧
    completes res ∧
    ∃ pre rk,
      (issued (boot am57x) w').*1 =
        pre ++ [clReleaseMemObject 105%N; clReleaseMemObject 106%N;
                clReleaseMemObject 107%N; clReleaseMemObject 108%N;
                clReleaseKernel (r_handle rk); free_ddr 102%N;
                free_ddr 101%N].
Proof.
  destruct (@InitializeNetworkParams (board_platform am57x) headers
              demo_executor 200%N (boot am57x)) as [res w'] eqn:E.
  assert (Hc : completes res) by (vm_compute in E; by injection E as <- _).
  exists res, w'. split; [reflexivity|]. split; [exact Hc|].
  destruct (@InitializeNetworkParams_teardown (board_platform am57x) headers
              _ _ _ _ _ E Hc)
    as (pre & rk & sp & np & Hcalls & _ & _ & Hnp & Hsp).
  exists pre, rk. rewrite Hcalls. vm_compute in E. injection E as _ <-.
  vm_compute in Hnp. injection Hnp as <-.
  vm_compute in Hsp. injection Hsp as <-.
  f_equal.
Defined.
